(** * licitaciones-PLSCT: feed filters, reconciliation and match scoring

    A shallow embedding of the parts of the synchronisation service that the
    specification makes promises about:

    - [Placsp]: the feed filters of [placsp-api.js] ([extractCPV],
      [extractProvince], [normalizeProvince], [filterByConstruction],
      [filterByProvinces]);
    - [Matching]: [matching-service.js] ([calculateMatchScore],
      [getDaysUntilDeadline], [getUsersByProvince], [createMatch],
      [matchTendersWithUsers]);
    - [Sync]: the reconciliation loop of [sync-service.js] ([shouldUpdate],
      [transformTenderData], [processTenders]);
    - [Transform], [Provinces] and [Job]: the way from the parsed feed to
      the tenders, the provinces of the users and the next execution of the
      job.

    [Tiers] restates the match tiers in the words of the specification,
    [Invariants] names what the runs keep true, [IsoDate] and [Samples]
    hold the dates and the data of the worked examples, and the properties
    come last.

    JavaScript values are modelled as follows.  A string is the list of its
    UTF-16 code units.  A number that holds a score or a time value is a [Z];
    an amount of money is a [Q] (the only arithmetic on amounts is a product
    with 0.5 or with 2, which binary floating point performs exactly).
    [null] and [undefined] are [None].  An exception is [Throw] in the
    [result] monad, and [try { ... } catch] is [catch].  A table kept in an
    object literal is looked up with what every object inherits ([lookIn]).
    What belongs to the platform and is not in the source (the parser of
    dates, the clock, the case mapping that the score applies to texts of
    any alphabet, the answers of the database) is a variable of the section
    that uses it. *)

From Stdlib Require Import ZArith NArith QArith Qround List String Ascii Bool Lia.
Import ListNotations.

Set Implicit Arguments.

(* ================================================================== *)
(** * JavaScript strings *)
(* ================================================================== *)

Module Js.

(** A string is its sequence of UTF-16 code units. *)
Definition jsstring := list N.

Local Open Scope N_scope.

(** ** Literals

    The source files are UTF-8; [lit] decodes a literal of this file, which
    is UTF-8 as well, into code units, so that the tables below can be
    written as they stand in the source. *)

Definition surrogates (cp : N) : list N :=
  let v := cp - 65536 in [55296 + N.shiftr v 10; 56320 + N.land v 1023].

Fixpoint utf8 (bs : list N) : jsstring :=
  match bs with
  | [] => []
  | b :: rest =>
    if b <? 128 then b :: utf8 rest
    else if b <? 224 then
      match rest with
      | c :: rest' => (N.land b 31 * 64 + N.land c 63) :: utf8 rest'
      | _ => [65533]
      end
    else if b <? 240 then
      match rest with
      | c :: d :: rest' =>
        (N.land b 15 * 4096 + N.land c 63 * 64 + N.land d 63) :: utf8 rest'
      | _ => [65533]
      end
    else
      match rest with
      | c :: d :: e :: rest' =>
        surrogates (N.land b 7 * 262144 + N.land c 63 * 4096
                    + N.land d 63 * 64 + N.land e 63) ++ utf8 rest'
      | _ => [65533]
      end
  end.

Definition lit (s : string) : jsstring :=
  utf8 (List.map N_of_ascii (list_ascii_of_string s)).

(** ** Comparison and search *)

(** [a === b] on strings. *)
Fixpoint eqb (a b : jsstring) : bool :=
  match a, b with
  | [], [] => true
  | c :: a', d :: b' => (c =? d) && eqb a' b'
  | _, _ => false
  end.

(** [s.startsWith(p)]. *)
Fixpoint startsWith (s p : jsstring) : bool :=
  match p, s with
  | [], _ => true
  | c :: p', d :: s' => (c =? d) && startsWith s' p'
  | _ :: _, [] => false
  end.

(** [s.includes(p)]: [p] occurs in [s] as a contiguous run of code units. *)
Fixpoint includes (s p : jsstring) : bool :=
  startsWith s p ||
  match s with
  | [] => false
  | _ :: s' => includes s' p
  end.

(** [arr.includes(x)] on an array of strings. *)
Definition arr_includes (arr : list jsstring) (x : jsstring) : bool :=
  existsb (fun y => eqb y x) arr.

(** A string is falsy exactly when it is empty. *)
Definition nonempty (s : jsstring) : bool :=
  match s with [] => false | _ :: _ => true end.

(** ** Tables in object literals

    The source keeps its tables ([sectorKeywords], [statusMap], [regionMap],
    [matchesByUser]) in object literals.  A lookup [table[name]] finds the
    keys of the literal and, failing that, what every object inherits from
    [Object.prototype] under the twelve names below: eleven functions and,
    under [__proto__], the prototype itself.  All twelve are truthy, none
    is a string, a number or an array. *)
Definition inheritedNames : list jsstring :=
  List.map lit
    [ "constructor"; "toString"; "toLocaleString"; "valueOf";
      "hasOwnProperty"; "isPrototypeOf"; "propertyIsEnumerable";
      "__proto__"; "__defineGetter__"; "__defineSetter__";
      "__lookupGetter__"; "__lookupSetter__" ]%string.

Definition inherited (name : jsstring) : bool :=
  arr_includes inheritedNames name.

(** What [table[name]] finds in an object literal, written here as the list
    of its keys and values: the value of the key, or else what the
    prototype has under that name, or else [undefined]. *)
Inductive Looked (A : Type) : Type :=
| Own (a : A)
| FromPrototype
| Undefined.
Arguments FromPrototype {A}.
Arguments Undefined {A}.

Fixpoint ownProperty {A : Type} (table : list (jsstring * A))
  (name : jsstring) : option A :=
  match table with
  | [] => None
  | (key, a) :: rest => if eqb key name then Some a else ownProperty rest name
  end.

Definition lookIn {A : Type} (table : list (jsstring * A)) (name : jsstring)
  : Looked A :=
  match ownProperty table name with
  | Some a => Own a
  | None => if inherited name then FromPrototype else Undefined
  end.

(** ** Case mapping

    The case tables cover Basic Latin and the Latin-1 Supplement
    (U+0000 to U+00FF), the alphabet of the gazetteer and of the keyword
    lists; on a string of that range they are the mappings of the platform.
    Above U+00FF they are not: a code unit there is returned as it is, where
    the platform changes some (U+212A, the Kelvin sign, becomes [k]).  A
    result that says what the feed filters make of the texts of an entry or
    of a province therefore asks for texts that are [latin1]; the score,
    which lower-cases texts of any alphabet, takes the mapping as a
    variable instead. *)

Definition latin1 (s : jsstring) : bool := forallb (fun c => c <=? 255) s.

Definition lower_unit (c : N) : N :=
  if (65 <=? c) && (c <=? 90) then c + 32
  else if (192 <=? c) && (c <=? 222) && negb (c =? 215) then c + 32
  else c.

Definition toLowerCase (s : jsstring) : jsstring := List.map lower_unit s.

(** Upper-casing may lengthen the string: U+00DF becomes the two units SS.
    U+00B5 and U+00FF have their capitals outside Latin-1. *)
Definition upper_unit (c : N) : list N :=
  if (97 <=? c) && (c <=? 122) then [c - 32]
  else if c =? 181 then [924]
  else if c =? 223 then [83; 83]
  else if (224 <=? c) && (c <=? 254) && negb (c =? 247) then [c - 32]
  else if c =? 255 then [376]
  else [c].

Definition toUpperCase (s : jsstring) : jsstring := flat_map upper_unit s.

(** [s.charAt(0)] and [s.slice(1)]. *)
Definition charAt0 (s : jsstring) : jsstring :=
  match s with [] => [] | c :: _ => [c] end.

Definition slice1 (s : jsstring) : jsstring := List.tl s.

(** ** Canonical decomposition

    [s.normalize('NFD')] on the same range: a precomposed Latin-1 letter
    becomes its base letter followed by its combining mark, and nothing else
    in the range decomposes.  As with the case tables, this is the
    normalisation of the platform on [latin1] strings only. *)

Definition nfd_table : list (N * (N * N)) :=
  [ (192, (65, 768)); (193, (65, 769)); (194, (65, 770)); (195, (65, 771));
    (196, (65, 776)); (197, (65, 778)); (199, (67, 807));
    (200, (69, 768)); (201, (69, 769)); (202, (69, 770)); (203, (69, 776));
    (204, (73, 768)); (205, (73, 769)); (206, (73, 770)); (207, (73, 776));
    (209, (78, 771));
    (210, (79, 768)); (211, (79, 769)); (212, (79, 770)); (213, (79, 771));
    (214, (79, 776));
    (217, (85, 768)); (218, (85, 769)); (219, (85, 770)); (220, (85, 776));
    (221, (89, 769));
    (224, (97, 768)); (225, (97, 769)); (226, (97, 770)); (227, (97, 771));
    (228, (97, 776)); (229, (97, 778)); (231, (99, 807));
    (232, (101, 768)); (233, (101, 769)); (234, (101, 770)); (235, (101, 776));
    (236, (105, 768)); (237, (105, 769)); (238, (105, 770)); (239, (105, 776));
    (241, (110, 771));
    (242, (111, 768)); (243, (111, 769)); (244, (111, 770)); (245, (111, 771));
    (246, (111, 776));
    (249, (117, 768)); (250, (117, 769)); (251, (117, 770)); (252, (117, 776));
    (253, (121, 769)); (255, (121, 776)) ].

Fixpoint nfd_lookup (t : list (N * (N * N))) (c : N) : list N :=
  match t with
  | [] => [c]
  | (k, (base, mark)) :: t' => if k =? c then [base; mark] else nfd_lookup t' c
  end.

Definition normalizeNFD (s : jsstring) : jsstring :=
  flat_map (nfd_lookup nfd_table) s.

(** [s.replace(/[\u0300-\u036f]/g, '')]. *)
Definition is_combining_mark (c : N) : bool := (768 <=? c) && (c <=? 879).

Definition strip_marks (s : jsstring) : jsstring :=
  List.filter (fun c => negb (is_combining_mark c)) s.

(** ** Trimming: white space and line terminators of ECMAScript. *)

Definition is_space (c : N) : bool :=
  ((9 <=? c) && (c <=? 13)) || (c =? 32) || (c =? 160) || (c =? 5760)
  || ((8192 <=? c) && (c <=? 8202)) || (c =? 8232) || (c =? 8233)
  || (c =? 8239) || (c =? 8287) || (c =? 12288) || (c =? 65279).

Fixpoint trimStart (s : jsstring) : jsstring :=
  match s with
  | c :: s' => if is_space c then trimStart s' else s
  | [] => []
  end.

Definition trimEnd (s : jsstring) : jsstring := rev (trimStart (rev s)).

Definition trim (s : jsstring) : jsstring := trimEnd (trimStart s).

(** ** Exceptions *)

Inductive result (A : Type) : Type :=
| Ok (a : A)
| Throw.
Arguments Throw {A}.

Definition bind {A B} (m : result A) (k : A -> result B) : result B :=
  match m with
  | Ok a => k a
  | Throw => Throw
  end.

(** [try { body } catch (error) { return handler }]. *)
Definition catch {A} (body : result A) (handler : A) : A :=
  match body with
  | Ok a => a
  | Throw => handler
  end.

End Js.

Declare Scope js_scope.
Delimit Scope js_scope with js.
Notation "x <- m ;; k" := (Js.bind m (fun x => k))
  (at level 61, m at next level, right associativity) : js_scope.

Import Js.

(* ================================================================== *)
(** * Parsed feed entries *)
(* ================================================================== *)

(** The feed is parsed by xml2js with [explicitArray: false] and
    [mergeAttrs: true]: an element is a string (its text), an object (its
    attributes and children, the text under the key [_]) or, when it is
    repeated, an array.  A missing property reads as [undefined], which is
    [None] here, as is [null]. *)

#[warnings="-register-all"]
Inductive value : Type :=
| VStr (s : jsstring)
| VObj (fields : list (string * value))
| VArr (items : list value).

Local Open Scope js_scope.

(** Truthiness: the empty string, [null] and [undefined] are falsy; objects
    and arrays, also empty ones, are truthy. *)
Definition truthy (o : option value) : bool :=
  match o with
  | Some (VStr s) => nonempty s
  | Some _ => true
  | None => false
  end.

(** [a || b]. *)
Definition or_else (a b : option value) : option value :=
  if truthy a then a else b.

(** [a || 'default']: never [undefined]. *)
Definition or_default (a : option value) (d : value) : value :=
  match a with
  | Some v => if truthy a then v else d
  | None => d
  end.

Fixpoint assoc (fields : list (string * value)) (k : string) : option value :=
  match fields with
  | [] => None
  | (k', v) :: rest => if String.eqb k' k then Some v else assoc rest k
  end.

(** [v[k]] on a value that is neither [null] nor [undefined], for the
    property names this program reads (element names and [_]): only an
    object has them. *)
Definition prop (v : value) (k : string) : option value :=
  match v with
  | VObj fields => assoc fields k
  | _ => None
  end.

(** [o[k]]: a [TypeError] when [o] is [null] or [undefined]. *)
Definition member (o : option value) (k : string) : result (option value) :=
  match o with
  | Some v => Ok (prop v k)
  | None => Throw
  end.

(** [o?.[k]]. *)
Definition opt_member (o : option value) (k : string) : option value :=
  match o with
  | Some v => prop v k
  | None => None
  end.

Definition isArray (o : option value) : bool :=
  match o with
  | Some (VArr _) => true
  | _ => false
  end.

(** [arr[0]]. *)
Definition index0 (o : option value) : option value :=
  match o with
  | Some (VArr (x :: _)) => Some x
  | _ => None
  end.

(** Conversion to a string, as a template literal and [toString()] perform
    it: a string is itself, an array is its elements joined by commas, a
    plain object is ["[object Object]"], unless an element named [toString]
    shadows the inherited method, which is a [TypeError]. *)
Fixpoint js_toString (v : value) : result jsstring :=
  match v with
  | VStr s => Ok s
  | VObj fields =>
    match assoc fields "toString" with
    | Some _ => Throw
    | None => Ok (lit "[object Object]")
    end
  | VArr items =>
    (fix join (l : list value) : result jsstring :=
       match l with
       | [] => Ok []
       | [x] => js_toString x
       | x :: rest =>
         s <- js_toString x ;;
         r <- join rest ;;
         Ok (s ++ lit "," ++ r)%list
       end) items
  end.

(** [o.toString()]. *)
Definition call_toString (o : option value) : result jsstring :=
  match o with
  | Some v => js_toString v
  | None => Throw
  end.

(** The receiver of a string method ([toLowerCase]): anything but a string
    has no such method, which is a [TypeError]. *)
Definition as_string (v : value) : result jsstring :=
  match v with
  | VStr s => Ok s
  | _ => Throw
  end.

(** [items.join(sep)]: every element is converted to a string, and the
    conversion that throws makes [join] throw. *)
Fixpoint joinWith (sep : jsstring) (items : list value) : result jsstring :=
  match items with
  | [] => Ok []
  | x :: rest =>
    match rest with
    | [] => js_toString x
    | _ :: _ =>
      s <- js_toString x ;;
      r <- joinWith sep rest ;;
      Ok (s ++ sep ++ r)%list
    end
  end.

(** Every text of the element is in the range of the case tables. *)
Fixpoint latin1Value (v : value) : bool :=
  match v with
  | VStr s => latin1 s
  | VObj fields =>
    (fix all (l : list (string * value)) : bool :=
       match l with
       | [] => true
       | (_, x) :: rest => latin1Value x && all rest
       end) fields
  | VArr items =>
    (fix all (l : list value) : bool :=
       match l with
       | [] => true
       | x :: rest => latin1Value x && all rest
       end) items
  end.

(* ================================================================== *)
(** * placsp-api.js: extraction and the two feed filters *)
(* ================================================================== *)

Module Placsp.

Definition contractFolderOf (entry : value) : option value :=
  or_else (prop entry "cac-place-ext:ContractFolderStatus")
          (prop entry "ContractFolderStatus").

(** [extractCPV(entry)]: the classification code, or [null]. *)
Definition extractCPV (entry : value) : option value :=
  catch
    (let contractFolder := contractFolderOf entry in
     if negb (truthy contractFolder) then Ok None else
     procurementProject <- member contractFolder "cac:ProcurementProject" ;;
     if negb (truthy procurementProject) then Ok None else
     requiredCommodity <-
       member procurementProject "cac:RequiredCommodityClassification" ;;
     if negb (truthy requiredCommodity) then Ok None else
     itemClass <-
       (if isArray requiredCommodity
        then member (index0 requiredCommodity) "cbc:ItemClassificationCode"
        else member requiredCommodity "cbc:ItemClassificationCode") ;;
     Ok (or_else (or_else (opt_member itemClass "_") itemClass) None))
    None.

(** [filterByConstruction(entries)]: CPV division 45. *)
Definition isConstruction (entry : value) : bool :=
  catch
    (let cpvCode := extractCPV entry in
     if negb (truthy cpvCode) then Ok false else
     s <- call_toString cpvCode ;;
     Ok (startsWith s (lit "45")))
    false.

Definition filterByConstruction (entries : list value) : list value :=
  List.filter isConstruction entries.

(** [extractContractingBody(contractFolder)]. *)
Definition extractContractingBody (contractFolder : option value) : value :=
  catch
    (located <- member contractFolder "cac:LocatedContractingParty" ;;
     let party := opt_member located "cac:Party" in
     let name := opt_member (opt_member party "cac:PartyName") "cbc:Name" in
     Ok (or_default (or_else (opt_member name "_") name)
                    (VStr (lit "No especificado"))))
    (VStr (lit "No especificado")).

(** The gazetteer of [extractProvince], in the order of the source. *)
Definition provincias : list jsstring :=
  List.map lit
    [ "álava"; "albacete"; "alicante"; "almería"; "asturias"; "ávila";
      "badajoz"; "barcelona"; "burgos"; "cáceres"; "cádiz"; "cantabria";
      "castellón"; "ciudad real"; "córdoba"; "cuenca"; "gerona"; "girona";
      "granada";
      "guadalajara"; "guipúzcoa"; "gipuzkoa"; "huelva"; "huesca"; "baleares";
      "jaén"; "coruña"; "rioja"; "palmas"; "león"; "lérida"; "lleida";
      "lugo"; "madrid"; "málaga"; "malaga"; "murcia"; "navarra"; "orense";
      "ourense"; "palencia";
      "pontevedra"; "salamanca"; "tenerife"; "segovia";
      "sevilla"; "soria"; "tarragona"; "teruel"; "toledo"; "valencia";
      "valladolid"; "vizcaya"; "bizkaia"; "zamora"; "zaragoza" ]%string.

(** [provincia.charAt(0).toUpperCase() + provincia.slice(1)]. *)
Definition capitalize (provincia : jsstring) : jsstring :=
  (toUpperCase (charAt0 provincia) ++ slice1 provincia)%list.

(** The loop over [provincias]: the first name that [text] includes wins. *)
Definition searchProvincias (text : jsstring) : option jsstring :=
  option_map capitalize
    (List.find (fun provincia => includes text provincia) provincias).

(** Método 1: the structured address. [Ok None] when it finds nothing and
    the search goes on. *)
Definition metodo1 (entry : value) : result (option value) :=
  let contractFolder := contractFolderOf entry in
  if truthy contractFolder then
    procurementProject <- member contractFolder "cac:ProcurementProject" ;;
    let locatedContract :=
      opt_member procurementProject "cac:RealizedLocation" in
    if truthy locatedContract then
      address <-
        (if isArray locatedContract
         then member (index0 locatedContract) "cac:Address"
         else member locatedContract "cac:Address") ;;
      let province :=
        or_else (opt_member address "cbc:CountrySubentityCode")
                (opt_member address "cbc:CountrySubentity") in
      if truthy (or_else (opt_member province "_") province)
      then Ok (or_else (opt_member province "_") province)
      else Ok None
    else Ok None
  else Ok None.

(** The text that Método 2 searches: [`${title} ${summary}`.toLowerCase()]. *)
Definition entryText (entry : value) : result jsstring :=
  let title :=
    or_default (or_else (opt_member (prop entry "title") "_")
                        (prop entry "title")) (VStr []) in
  let summary :=
    or_default (or_else (opt_member (prop entry "summary") "_")
                        (prop entry "summary")) (VStr []) in
  t <- js_toString title ;;
  s <- js_toString summary ;;
  Ok (toLowerCase (t ++ lit " " ++ s)%list).

(** Método 3: the name of the contracting body. *)
Definition metodo3 (entry : value) : result (option value) :=
  let contractingBody := extractContractingBody (contractFolderOf entry) in
  body <- as_string contractingBody ;;
  let bodyText := toLowerCase body in
  Ok (option_map VStr (searchProvincias bodyText)).

(** [extractProvince(entry)]. *)
Definition extractProvince (entry : value) : option value :=
  catch
    (structured <- metodo1 entry ;;
     match structured with
     | Some province => Ok (Some province)
     | None =>
       text <- entryText entry ;;
       match searchProvincias text with
       | Some provincia => Ok (Some (VStr provincia))
       | None => metodo3 entry
       end
     end)
    None.

(** [normalizeProvince(province)] on a string. *)
Definition normalizeProvince (province : jsstring) : jsstring :=
  if negb (nonempty province) then []
  else trim (strip_marks (normalizeNFD (toLowerCase province))).

(** [normalizeProvince(province)] on whatever [extractProvince] returned. *)
Definition normalizeProvinceOf (province : option value)
  : result jsstring :=
  match province with
  | None => Ok []
  | Some v =>
    if negb (truthy province) then Ok []
    else s <- as_string v ;; Ok (normalizeProvince s)
  end.

(** The DEBUG pass of [filterByProvinces]: [foundProvinces.add(province)]
    on a [Set], kept in insertion order.  Strings are members by value; an
    object is a member by identity, and the elements of two entries are two
    objects. *)
Definition addFound (found : list value) (province : value) : list value :=
  match province with
  | VStr s =>
    if existsb (fun v => match v with VStr t => eqb t s | _ => false end)
               found
    then found else found ++ [province]
  | _ => found ++ [province]
  end.

Definition foundProvinces (entries : list value) : list value :=
  List.fold_left
    (fun found entry =>
       let province := extractProvince entry in
       match province with
       | Some v => if truthy province then addFound found v else found
       | None => found
       end)
    entries [].

(** The line that the pass logs, [Array.from(foundProvinces).join(', ')].
    It is built outside the [try] of the filter: a province that has no
    string form makes [filterByProvinces] throw. *)
Definition debugLine (entries : list value) : result jsstring :=
  joinWith (lit ", ") (foundProvinces entries).

(** The callback of [entries.filter]. *)
Definition inProvinces (provincesLower : list jsstring) (entry : value)
  : bool :=
  catch
    (let province := extractProvince entry in
     if negb (truthy province) then Ok false else
     normalizedProvince <- normalizeProvinceOf province ;;
     Ok (arr_includes provincesLower normalizedProvince))
    false.

(** [filterByProvinces(entries, provinces)]. *)
Definition filterByProvinces (entries : list value) (provinces : list jsstring)
  : result (list value) :=
  let provincesLower := List.map normalizeProvince provinces in
  _ <- debugLine entries ;;
  Ok (List.filter (inProvinces provincesLower) entries).

End Placsp.

(* ================================================================== *)
(** * matching-service.js *)
(* ================================================================== *)

Module Matching.

Local Open Scope Z_scope.

(** ** Rows

    A tender handed to the matching service is a row of the [tenders]
    table, or the data that [transformTenderData] built for an update
    ([processTenders] reports those in [updatedTenders] as they were sent,
    without the [id] that the table gives a row).  [title], [work_type],
    [province] and [status] are strings, as the columns of the table are;
    [budget] and [deadline] may be [null]. *)

Module Tender.
Record t : Type := mk {
  id : option jsstring;
  title : jsstring;
  province : jsstring;
  work_type : jsstring;
  budget : option Q;
  deadline : option jsstring;
  status : jsstring
}.
End Tender.

(** A row of [user_profiles]. *)
Module Profile.
Record t : Type := mk {
  user_id : jsstring;
  company_name : jsstring;
  onboarding_completed : bool;
  preferred_province : option jsstring;
  locations : option (list jsstring);
  budget_min : option Q;
  budget_max : option Q;
  sectors : option (list jsstring)
}.
End Profile.

(** A row of [companies]. *)
Module Company.
Record t : Type := mk {
  user_id : jsstring;
  subscription_status : jsstring;
  subscription_tier : jsstring
}.
End Company.

(** What [getUsersByProvince] returns: the profile, spread, with the two
    subscription fields of the company, when one is found. *)
Module User.
Record t : Type := mk {
  profile : Profile.t;
  subscription_status : option jsstring;
  subscription_tier : option jsstring
}.
End User.

(** The entries of [match_reasons], before they are formatted as text. *)
Inductive Reason : Type :=
| Ubicacion (province : jsstring)
| Presupuesto (budget : Q)
| Sector (work_type : jsstring)
| Plazo (days : option Z)
| MatchScore (score : Z).

(** A row of [user_tender_matches]. *)
Module Match.
Record t : Type := mk {
  user_id : jsstring;
  tender_id : jsstring;
  match_score : Z;
  match_reasons : list Reason;
  status : jsstring;
  created_at : Z
}.
End Match.

(** ** Numbers *)

(** A nullable number in a condition: falsy when [null] or zero. *)
Definition num (o : option Q) : option Q :=
  match o with
  | Some q => if Qeq_bool q 0 then None else Some q
  | None => None
  end.

(** A nullable string in a condition: falsy when [null] or empty. *)
Definition str (o : option jsstring) : option jsstring :=
  match o with
  | Some s => if nonempty s then Some s else None
  | None => None
  end.

(** [x > n] where [x] may be [NaN] ([None]): false on [NaN]. *)
Definition gt (x : option Z) (n : Z) : bool :=
  match x with
  | Some d => n <? d
  | None => false
  end.

(** ** The store and the clock

    The three tables the service reads and writes, and the number of clock
    readings taken so far.  Queries and inserts succeed: the failures of the
    database are outside the model. *)
Record World : Type := mkWorld {
  companies : list Company.t;
  user_profiles : list Profile.t;
  user_tender_matches : list Match.t;
  ticks : nat
}.

Definition tick (w : World) : World :=
  mkWorld (companies w) (user_profiles w) (user_tender_matches w) (S (ticks w)).

Definition insertMatch (row : Match.t) (w : World) : World :=
  mkWorld (companies w) (user_profiles w) (user_tender_matches w ++ [row])
          (ticks w).

(** [.single()]: the row when the query selects exactly one, no data when it
    selects none or several. *)
Definition single {A : Type} (rows : list A) : option A :=
  match rows with
  | [row] => Some row
  | _ => None
  end.

(** [.eq('user_id', user_id).eq('tender_id', tender_id)]. *)
Definition forPair (user_id tender_id : jsstring) (m : Match.t) : bool :=
  eqb (Match.user_id m) user_id && eqb (Match.tender_id m) tender_id.

(** The invariant of the table: at most one row for a user and a tender. *)
Definition key (m : Match.t) : jsstring * jsstring :=
  (Match.user_id m, Match.tender_id m).

Definition onePerPair (rows : list Match.t) : Prop :=
  NoDup (List.map key rows).

(** A match exists for the pair. *)
Definition hasMatch (rows : list Match.t) (user_id tender_id : jsstring)
  : bool :=
  existsb (forPair user_id tender_id) rows.

(** [.in('subscription_status', ['trial', 'active'])]. *)
Definition subscribed (c : Company.t) : bool :=
  arr_includes [lit "trial"; lit "active"] (Company.subscription_status c).

(** The filter callback of [getUsersByProvince]. *)
Definition hasProvince (province : jsstring) (profile : Profile.t) : bool :=
  match Profile.preferred_province profile with
  | Some preferred => eqb preferred province
  | None => false
  end
  || match Profile.locations profile with
     | Some locations => arr_includes locations province
     | None => false
     end.

(** [getUsersByProvince(province)]. *)
Definition getUsersByProvince (w : World) (province : jsstring)
  : list User.t :=
  let activeUsers := List.filter subscribed (companies w) in
  match activeUsers with
  | [] => []
  | _ :: _ =>
    let userIds := List.map Company.user_id activeUsers in
    let profiles :=
      List.filter
        (fun p => arr_includes userIds (Profile.user_id p)
                  && Profile.onboarding_completed p)
        (user_profiles w) in
    let usersInProvince := List.filter (hasProvince province) profiles in
    let companies :=
      List.filter
        (fun c =>
           arr_includes (List.map Profile.user_id usersInProvince)
                        (Company.user_id c)
           && subscribed c)
        (companies w) in
    List.map
      (fun profile =>
         let company :=
           List.find
             (fun c => eqb (Company.user_id c) (Profile.user_id profile))
             companies in
         User.mk profile
                 (option_map Company.subscription_status company)
                 (option_map Company.subscription_tier company))
      usersInProvince
  end.

(** A value of [matchesByUser]: a count, or the text that
    [(inherited || 0) + 1] makes of an inherited function (its source text
    followed by a 1), to which every later [+ 1] appends one more 1. *)
Inductive Counter : Type :=
| Count (n : Z)
| Text.

(** What [matchTendersWithUsers] counts and returns.  [matchesByUser] is
    an object literal: the list holds its own properties in the order they
    were created.  [Object.keys] lists keys that are array indices first,
    which changes neither their number nor their values. *)
Record Tally : Type := mkTally {
  totalMatches : Z;
  matchesByUser : list (jsstring * Counter)
}.

(** [matchesByUser[user_id] = (matchesByUser[user_id] || 0) + 1].  Read
    under an inherited name that is not yet a key, the object gives what it
    inherits; written under [__proto__], it keeps no key, for the text is
    no prototype. *)
Fixpoint increment (user_id : jsstring) (m : list (jsstring * Counter))
  : list (jsstring * Counter) :=
  match m with
  | [] =>
    if eqb user_id (lit "__proto__") then []
    else if inherited user_id then [(user_id, Text)]
    else [(user_id, Count (0 + 1))]
  | (k, v) :: rest =>
    if eqb k user_id
    then (k, match v with Count n => Count (n + 1) | Text => Text end) :: rest
    else (k, v) :: increment user_id rest
  end.

(** [Object.keys(matchesByUser).length]. *)
Definition usersMatched (tally : Tally) : Z :=
  Z.of_nat (List.length (matchesByUser tally)).

Section Host.

(** [String.prototype.toLowerCase].  The mapping belongs to the platform,
    and the tables of [Js] give it on Basic Latin and the Latin-1
    Supplement only.  The score lower-cases texts of any alphabet (the type
    and the title of the tender, the sectors of the profile), so it is
    defined over the mapping, and every general result about it holds
    whatever the mapping is; the worked examples, whose texts are in the
    range of the table, use [Js.toLowerCase]. *)
Variable toLowerCase : jsstring -> jsstring.

(** [new Date(text).getTime()]: the time value in milliseconds, [None] for
    an invalid date.  The parser belongs to the platform; every result
    below holds whatever it is. *)
Variable Date_parse : jsstring -> option Z.

(** [getDaysUntilDeadline(deadline)], with the reading [today] of the clock
    that [new Date()] takes.  The quotient is the rational one; the double
    that the platform computes from the two time values lies on the same
    side of 7 and of 15, the only numbers it is compared with. *)
Definition getDaysUntilDeadline (today : Z) (deadline : jsstring)
  : option Z :=
  match Date_parse deadline with
  | Some deadlineDate =>
    let diffTime := deadlineDate - today in
    Some (Qceiling (inject_Z diffTime / inject_Z (1000 * 60 * 60 * 24)))
  | None => None
  end.

(** ** [calculateMatchScore], block by block *)

(** 1. Match de provincia. *)
Definition scoreProvince (tender : Tender.t) (user : Profile.t) : Z :=
  if match Profile.preferred_province user with
     | Some preferred => eqb preferred (Tender.province tender)
     | None => false
     end
  then 40
  else if match Profile.locations user with
          | Some locations => arr_includes locations (Tender.province tender)
          | None => false
          end
  then 40
  else 10.

(** 2. Match de presupuesto. *)
Definition scoreBudget (tender : Tender.t) (user : Profile.t) : Z :=
  match num (Tender.budget tender) with
  | Some budget =>
    match num (Profile.budget_min user), num (Profile.budget_max user) with
    | Some budget_min, Some budget_max =>
      if Qle_bool budget_min budget && Qle_bool budget budget_max then 30
      else if Qle_bool (budget_min * (1 # 2)) budget
              && Qle_bool budget (budget_max * 2)
      then 20
      else 5
    | _, _ => 15
    end
  | None => 10
  end.

(** The object literal [sectorKeywords]. *)
Definition sectorKeywords : list (jsstring * list jsstring) :=
  [ (lit "Edificación residencial",
     List.map lit
       ["edificación"; "edificio"; "vivienda"; "residencial";
        "pabellón"]%string);
    (lit "Obra civil",
     List.map lit
       ["obra civil"; "infraestructura"; "urbanización"; "pavimentación";
        "carretera"; "ingeniería civil"]%string);
    (lit "Rehabilitación y reformas",
     List.map lit
       ["rehabilitación"; "reforma"; "restauración"; "mejora"]%string);
    (lit "Instalaciones",
     List.map lit
       ["instalación"; "instalaciones"; "eléctrica"; "fontanería";
        "climatización"]%string) ].

(** [sectorKeywords[sector] || [sector.toLowerCase()]], as [for ... of]
    takes it: what the prototype has under an inherited name is truthy and
    cannot be iterated, which is a [TypeError]. *)
Definition keywordsOf (sector : jsstring) : result (list jsstring) :=
  match lookIn sectorKeywords sector with
  | Own keywords => Ok keywords
  | FromPrototype => Throw
  | Undefined => Ok [toLowerCase sector]
  end.

(** The inner loop: one of the keywords is included in the type or in the
    title of the tender, both lower-cased. *)
Definition includesKeyword (tender : Tender.t) (keywords : list jsstring)
  : bool :=
  let tenderType := toLowerCase (Tender.work_type tender) in
  let tenderTitle := toLowerCase (Tender.title tender) in
  existsb
    (fun keyword =>
       includes tenderType keyword || includes tenderTitle keyword)
    keywords.

(** The two nested loops that set [hasSectorMatch]: the sectors are taken
    in order until one has a keyword that the tender includes. *)
Fixpoint hasSectorMatch (tender : Tender.t) (sectors : list jsstring)
  : result bool :=
  match sectors with
  | [] => Ok false
  | sector :: rest =>
    keywords <- keywordsOf sector ;;
    if includesKeyword tender keywords then Ok true
    else hasSectorMatch tender rest
  end.

(** 3. Match de sector/tipo de obra. *)
Definition scoreSector (tender : Tender.t) (user : Profile.t) : result Z :=
  match Profile.sectors user with
  | Some ((_ :: _) as sectors) =>
    found <- hasSectorMatch tender sectors ;;
    Ok (if found then 20 else 10)
  | _ => Ok 15
  end.

(** 4. Estado y disponibilidad. *)
Definition scoreStatus (today : Z) (tender : Tender.t) : Z :=
  (if eqb (Tender.status tender) (lit "active") then 5 else 0)
  + match str (Tender.deadline tender) with
    | Some deadline =>
      let daysUntilDeadline := getDaysUntilDeadline today deadline in
      if gt daysUntilDeadline 15 then 5
      else if gt daysUntilDeadline 7 then 3
      else 0
    | None => 0
    end.

(** [calculateMatchScore(tender, user)], at the clock reading [today].  The
    third block is the only one that can throw, and it does so before the
    fourth reads the clock. *)
Definition calculateMatchScore (today : Z) (tender : Tender.t)
  (user : Profile.t) : result Z :=
  let score := 0 in
  let score := score + scoreProvince tender user in
  let score := score + scoreBudget tender user in
  sector <- scoreSector tender user ;;
  let score := score + sector in
  let score := score + scoreStatus today tender in
  Ok (Z.min score 100).

(** ** Creating matches *)

(** The system clock: [clock n] is its reading number [n] since the start
    of the run, in milliseconds. *)
Variable clock : nat -> Z.

(** A tender with a deadline makes [getDaysUntilDeadline] read the clock. *)
Definition afterDeadlineRead (tender : Tender.t) (w : World) : World :=
  match str (Tender.deadline tender) with
  | Some _ => tick w
  | None => w
  end.

(** [getMatchReasons(tender, user, score)]. *)
Definition getMatchReasons (today : Z) (tender : Tender.t) (user : Profile.t)
  (score : Z) : list Reason :=
  (if match Profile.preferred_province user with
      | Some preferred => eqb preferred (Tender.province tender)
      | None => false
      end
   then [Ubicacion (Tender.province tender)] else [])
  ++ match num (Tender.budget tender),
           num (Profile.budget_min user), num (Profile.budget_max user) with
     | Some budget, Some budget_min, Some budget_max =>
       if Qle_bool budget_min budget && Qle_bool budget budget_max
       then [Presupuesto budget] else []
     | _, _, _ => []
     end
  ++ match Profile.sectors user with
     | Some (_ :: _) => [Sector (Tender.work_type tender)]
     | _ => []
     end
  ++ match str (Tender.deadline tender) with
     | Some deadline => [Plazo (getDaysUntilDeadline today deadline)]
     | None => []
     end
  ++ [MatchScore score].

(** The row that [createMatch] passes to [insert], built at the store [w]:
    [match_reasons] reads the clock when the tender has a deadline, and
    [created_at] reads it next. *)
Definition newMatch (user : User.t) (tender_id : jsstring) (tender : Tender.t)
  (matchScore : Z) (w : World) : Match.t :=
  Match.mk (Profile.user_id (User.profile user)) tender_id
           matchScore
           (getMatchReasons (clock (ticks w)) tender (User.profile user)
                            matchScore)
           (lit "new")
           (clock (ticks (afterDeadlineRead tender w))).

(** [createMatch] on a tender without [id]: the query filters on
    [undefined] and the row sent has no [tender_id].  What the database
    answers to either depends on the type and the constraints of the
    column, which are not in the source: the answer is taken as it comes,
    the match returned, if any, with the table of matches and the number
    of clock readings afterwards. *)
Variable createMatchWithoutId :
  User.t -> Tender.t -> Z -> World -> option Match.t * (list Match.t * nat).

(** [createMatch(user, tender, matchScore)]: the new row, or [null] when the
    pair already has one. *)
Definition createMatch (user : User.t) (tender : Tender.t) (matchScore : Z)
  (w : World) : option Match.t * World :=
  match Tender.id tender with
  | None =>
    let (created, answer) := createMatchWithoutId user tender matchScore w in
    (created,
     mkWorld (companies w) (user_profiles w) (fst answer) (snd answer))
  | Some tender_id =>
    let existing :=
      single (List.filter (forPair (Profile.user_id (User.profile user))
                                   tender_id)
                          (user_tender_matches w)) in
    match existing with
    | Some _ => (None, w)
    | None =>
      let row := newMatch user tender_id tender matchScore w in
      (Some row, insertMatch row (tick (afterDeadlineRead tender w)))
    end
  end.

(** The body of [if (matchScore >= 60)]. *)
Definition offer (user : User.t) (tender : Tender.t) (matchScore : Z)
  (st : World * Tally) : World * Tally :=
  let (w, tally) := st in
  if 60 <=? matchScore then
    match createMatch user tender matchScore w with
    | (Some _, w') =>
      (w', mkTally (totalMatches tally + 1)
                   (increment (Profile.user_id (User.profile user))
                              (matchesByUser tally)))
    | (None, w') => (w', tally)
    end
  else st.

(** The body of the loop over the users of a tender: the state afterwards,
    or the [TypeError] of [calculateMatchScore], thrown before anything is
    read or written. *)
Definition considerUser (tender : Tender.t) (st : World * Tally)
  (user : User.t) : result (World * Tally) :=
  let (w, tally) := st in
  matchScore <-
    calculateMatchScore (clock (ticks w)) tender (User.profile user) ;;
  Ok (offer user tender matchScore (afterDeadlineRead tender w, tally)).

(** The loop over the users of a tender, inside the [try]: the state when
    the loop ends, after its last user or at the user whose score throws.
    The [catch] logs the error and the run goes on with the next tender;
    what was written before the error stays written. *)
Fixpoint considerUsers (tender : Tender.t) (users : list User.t)
  (st : World * Tally) : World * Tally :=
  match users with
  | [] => st
  | user :: rest =>
    match considerUser tender st user with
    | Ok st' => considerUsers tender rest st'
    | Throw => st
    end
  end.

(** The body of the loop over the tenders. *)
Definition considerTender (st : World * Tally) (tender : Tender.t)
  : World * Tally :=
  let users := getUsersByProvince (fst st) (Tender.province tender) in
  considerUsers tender users st.

(** [matchTendersWithUsers(tenders)]. *)
Definition matchTendersWithUsers (tenders : list Tender.t) (w : World)
  : World * Tally :=
  List.fold_left considerTender tenders (w, mkTally 0 []).

End Host.

End Matching.

(* ================================================================== *)
(** * sync-service.js: reconciliation *)
(* ================================================================== *)

Module Sync.

Local Open Scope Z_scope.

(** A tender as [transformEntry] hands it over, read at the fields that
    [processTenders] uses, for entries whose elements are plain text. *)
Module Fetched.
Record t : Type := mk {
  id : option jsstring;
  contract_folder_id : option jsstring;
  title : option jsstring;
  summary : option jsstring;
  description : option jsstring;
  link : option jsstring;
  published : option jsstring;
  updated : option jsstring;
  cpv_code : option jsstring;
  province : option jsstring;
  budget : option Q;
  deadline : option jsstring;
  contracting_body : option jsstring;
  status : option jsstring
}.
End Fetched.

(** The columns that [transformTenderData] computes.  The constant columns
    ([source_system], [is_active], ...) and [raw_content] are left out.
    [publication_date] is a text of the feed or, failing that, the date of
    a clock reading.  [region] is what the lookup in [regionMap] returned:
    a region, [null] ([Undefined]) or what the prototype has under the
    name of the province. *)
Module TenderData.
Record t : Type := mk {
  external_id : option jsstring;
  title : jsstring;
  description : jsstring;
  contracting_body : jsstring;
  province : jsstring;
  region : Looked jsstring;
  work_type : jsstring;
  budget : option Q;
  publication_date : jsstring + Z;
  deadline : option jsstring;
  cpv_code : jsstring;
  status : jsstring;
  source_url : option jsstring;
  fetched_at : Z
}.
End TenderData.

(** A row of [tenders]: the two columns the database fills in, and the
    data. *)
Module Row.
Record t : Type := mk {
  id : nat;
  updated_at : jsstring;
  data : TenderData.t
}.
End Row.

(** A row of [tenders_raw]. *)
Module Raw.
Record t : Type := mk {
  external_id : option jsstring;
  fetched_at : Z;
  payload : Fetched.t
}.
End Raw.

Record Store : Type := mkStore {
  tenders : list Row.t;
  tenders_raw : list Raw.t;
  ticks : nat
}.

Definition tick (s : Store) : Store :=
  mkStore (tenders s) (tenders_raw s) (S (ticks s)).

(** [a || b] and [a || 'default'] on nullable strings. *)
Definition orStr (a b : option jsstring) : option jsstring :=
  match Matching.str a with
  | Some s => Some s
  | None => b
  end.

Definition orDefault (a : option jsstring) (d : jsstring) : jsstring :=
  match Matching.str a with
  | Some s => s
  | None => d
  end.

(** [determineWorkType(cpvCode)]. *)
Definition determineWorkType (cpvCode : option jsstring) : jsstring :=
  match Matching.str cpvCode with
  | None => lit "Construcción General"
  | Some cpv =>
    if startsWith cpv (lit "4521") then lit "Edificación"
    else if startsWith cpv (lit "4522") then lit "Ingeniería Civil"
    else if startsWith cpv (lit "4511") then lit "Demolición"
    else if startsWith cpv (lit "4531") then lit "Instalaciones Eléctricas"
    else if startsWith cpv (lit "4532") then lit "Fontanería y Climatización"
    else if startsWith cpv (lit "4541") then lit "Rehabilitación"
    else lit "Construcción General"
  end.

Fixpoint lookup (table : list (jsstring * jsstring)) (k : jsstring)
  : option jsstring :=
  match table with
  | [] => None
  | (k', v) :: rest => if eqb k' k then Some v else lookup rest k
  end.

(** [getRegionFromProvince(province)]: [regionMap[province] || null].  A
    province that is [null] or [undefined] is looked up under its name,
    which is no key. *)
Definition getRegionFromProvince (province : option jsstring)
  : Looked jsstring :=
  let regionMap :=
    [ (lit "Madrid", lit "Comunidad de Madrid");
      (lit "Málaga", lit "Andalucía");
      (lit "Sevilla", lit "Andalucía");
      (lit "Barcelona", lit "Cataluña");
      (lit "Valencia", lit "Comunidad Valenciana");
      (lit "Alicante", lit "Comunidad Valenciana");
      (lit "Vizcaya", lit "País Vasco");
      (lit "Guipúzcoa", lit "País Vasco");
      (lit "Álava", lit "País Vasco") ] in
  match province with
  | Some p => lookIn regionMap p
  | None => Undefined
  end.

(** [mapStatus(statusCode)], for a code that is none of the names every
    object inherits: under those [statusMap[statusCode]] is what the
    prototype has, which is no status; the results about [mapStatus] leave
    them out. *)
Definition mapStatus (statusCode : option jsstring) : jsstring :=
  let statusMap :=
    [ (lit "PUB", lit "active");
      (lit "ADJ", lit "awarded");
      (lit "EV", lit "active");
      (lit "RES", lit "closed");
      (lit "AN", lit "closed") ] in
  match statusCode with
  | Some code =>
    match lookup statusMap code with
    | Some status => status
    | None => lit "active"
    end
  | None => lit "active"
  end.

Section Host.

Variable Date_parse : jsstring -> option Z.

(** The system clock, as in [Matching], and what the database fills in for
    a row inserted at that point: its key and its [updated_at]. *)
Variable clock : nat -> Z.
Variable db_default : nat -> nat * jsstring.

(** [transformTenderData(tender)], from the store it runs in (for the clock)
    to the data and the store afterwards. *)
Definition transformTenderData (tender : Fetched.t) (s : Store)
  : TenderData.t * Store :=
  let (publication_date, s) :=
    match orStr (Fetched.published tender) (Fetched.updated tender) with
    | Some text => (inl text, s)
    | None => (inr (clock (ticks s)), tick s)
    end in
  let fetched_at := clock (ticks s) in
  (TenderData.mk
     (orStr (Fetched.contract_folder_id tender) (Fetched.id tender))
     (orDefault (Fetched.title tender) (lit "Sin título"))
     (orDefault (orStr (Fetched.description tender) (Fetched.summary tender))
                [])
     (orDefault (Fetched.contracting_body tender) (lit "No especificado"))
     (orDefault (Fetched.province tender) (lit "Sin especificar"))
     (getRegionFromProvince (Fetched.province tender))
     (determineWorkType (Fetched.cpv_code tender))
     (Fetched.budget tender)
     publication_date
     (Fetched.deadline tender)
     (orDefault (Fetched.cpv_code tender) (lit "45000000"))
     (mapStatus (Fetched.status tender))
     (orStr (Fetched.link tender) None)
     fetched_at,
   tick s).

(** [shouldUpdate(existing, newData)], at the reading [now] of [Date.now()].
    The quotient is the rational one; the double that the platform computes
    lies on the same side of 24. *)
Definition shouldUpdate (now : Z) (existing : Row.t) (newData : Fetched.t)
  : bool :=
  match Date_parse (Row.updated_at existing) with
  | Some existingDate =>
    let hoursSinceUpdate :=
      (inject_Z (now - existingDate) / inject_Z (1000 * 60 * 60))%Q in
    negb (Qle_bool hoursSinceUpdate 24)
  | None => false
  end.

(** [.eq('external_id', externalId)]. *)
Definition hasExternalId (externalId : option jsstring) (r : Row.t) : bool :=
  match externalId, TenderData.external_id (Row.data r) with
  | Some a, Some b => eqb b a
  | _, _ => false
  end.

(** [.update(tenderData).eq('id', id)].  [updated_at] is not among the
    columns written, and the row is shown with the one it had.  What the
    database itself does to the column on an update (a trigger may refresh
    it) is not in the source: the results below read the [updated_at] of a
    row to decide its update, and none depends on the stamp of a row that
    was updated. *)
Definition update (tenderData : TenderData.t) (id : nat) (rows : list Row.t)
  : list Row.t :=
  List.map
    (fun r =>
       if Nat.eqb (Row.id r) id
       then Row.mk (Row.id r) (Row.updated_at r) tenderData
       else r)
    rows.

(** [saveRawTender(tender, externalId)]. *)
Definition saveRawTender (tender : Fetched.t) (externalId : option jsstring)
  (s : Store) : Store :=
  mkStore (tenders s)
          (tenders_raw s ++ [Raw.mk externalId (clock (ticks s)) tender])
          (S (ticks s)).

(** What [processTenders] returns.  No step of the model fails, so [errors]
    stays empty. *)
Record Outcome : Type := mkOutcome {
  newTenders : list Row.t;
  updatedTenders : list TenderData.t;
  errors : list jsstring
}.

(** The body of the loop of [processTenders]. *)
Definition processTender (st : Store * Outcome) (tender : Fetched.t)
  : Store * Outcome :=
  let (s, out) := st in
  let externalId :=
    orStr (Fetched.contract_folder_id tender) (Fetched.id tender) in
  let existing :=
    Matching.single (List.filter (hasExternalId externalId) (tenders s)) in
  let (tenderData, s) := transformTenderData tender s in
  let (s, out) :=
    match existing with
    | Some existing =>
      let now := clock (ticks s) in
      let s := tick s in
      if shouldUpdate now existing tender then
        (mkStore (update tenderData (Row.id existing) (tenders s))
                 (tenders_raw s) (ticks s),
         mkOutcome (newTenders out) (updatedTenders out ++ [tenderData])
                   (errors out))
      else (s, out)
    | None =>
      let (id, updated_at) := db_default (ticks s) in
      let inserted := Row.mk id updated_at tenderData in
      (mkStore (tenders s ++ [inserted]) (tenders_raw s) (S (ticks s)),
       mkOutcome (newTenders out ++ [inserted]) (updatedTenders out)
                 (errors out))
    end in
  (saveRawTender tender externalId s, out).

(** [processTenders(tenders)]. *)
Definition processTenders (tenders : list Fetched.t) (s : Store)
  : Store * Outcome :=
  List.fold_left processTender tenders (s, mkOutcome [] [] []).

End Host.

End Sync.

(* ================================================================== *)
(** * Match tiers, in the words of the specification *)
(* ================================================================== *)

(** The specification speaks of the tier a signal falls in and of a tier
    being better than another.  The tiers are classified here from the
    tender and the profile, each with the points the specification gives it
    and the order it names; [Matching.calculateMatchScore] is compared with
    them further down. *)

Module Tiers.

Import Matching.
Local Open Scope Z_scope.

Inductive Region : Type := NonExactRegion | ExactRegion.

Inductive Budget : Type :=
| BudgetAbsent | RangeAbsent | OutsideRange | NearRange | WithinRange.

Inductive Sectors : Type := SectorsAbsent | NoKeywordMatch | KeywordMatch.

Inductive Status : Type := NotActive | Active.

Inductive Deadline : Type := NoDeadline | UpTo7Days | UpTo15Days | Beyond15Days.

Definition regionPoints (r : Region) : Z :=
  match r with ExactRegion => 40 | NonExactRegion => 10 end.

Definition budgetPoints (b : Budget) : Z :=
  match b with
  | WithinRange => 30
  | NearRange => 20
  | OutsideRange => 5
  | RangeAbsent => 15
  | BudgetAbsent => 10
  end.

Definition sectorPoints (s : Sectors) : Z :=
  match s with KeywordMatch => 20 | NoKeywordMatch => 10 | SectorsAbsent => 15 end.

Definition statusPoints (s : Status) : Z :=
  match s with Active => 5 | NotActive => 0 end.

Definition deadlinePoints (d : Deadline) : Z :=
  match d with
  | Beyond15Days => 5
  | UpTo15Days => 3
  | UpTo7Days => 0
  | NoDeadline => 0
  end.

(** "Never lower than": the order of the tiers that the specification
    compares.  A tier it compares with no other is below itself only. *)

Definition regionLe (a b : Region) : bool :=
  match a, b with
  | NonExactRegion, _ => true
  | ExactRegion, ExactRegion => true
  | ExactRegion, NonExactRegion => false
  end.

Definition budgetLe (a b : Budget) : bool :=
  match a, b with
  | OutsideRange, (OutsideRange | NearRange | WithinRange) => true
  | NearRange, (NearRange | WithinRange) => true
  | WithinRange, WithinRange => true
  | RangeAbsent, RangeAbsent => true
  | BudgetAbsent, BudgetAbsent => true
  | _, _ => false
  end.

Definition sectorLe (a b : Sectors) : bool :=
  match a, b with
  | NoKeywordMatch, (NoKeywordMatch | KeywordMatch) => true
  | KeywordMatch, KeywordMatch => true
  | SectorsAbsent, SectorsAbsent => true
  | _, _ => false
  end.

Definition statusLe (a b : Status) : bool :=
  match a, b with
  | NotActive, _ => true
  | Active, Active => true
  | Active, NotActive => false
  end.

Definition deadlineLe (a b : Deadline) : bool :=
  match a, b with
  | UpTo7Days, (UpTo7Days | UpTo15Days | Beyond15Days) => true
  | UpTo15Days, (UpTo15Days | Beyond15Days) => true
  | Beyond15Days, Beyond15Days => true
  | NoDeadline, NoDeadline => true
  | _, _ => false
  end.

(** The tier of each signal for a tender and a profile. *)

Definition inSet (x : jsstring) (set : option (list jsstring)) : bool :=
  match set with
  | Some members => arr_includes members x
  | None => false
  end.

Definition regionTier (tender : Tender.t) (user : Profile.t) : Region :=
  if match Profile.preferred_province user with
     | Some preferred => eqb preferred (Tender.province tender)
     | None => false
     end
     || inSet (Tender.province tender) (Profile.locations user)
  then ExactRegion else NonExactRegion.

(** The budget tier in the words of the specification, for a tender that
    has a budget and a profile that has a range: within [[min, max]], or
    else within [[min * 0.5, max * 2]], or else outside. *)
Definition budgetTierStated (tender : Tender.t) (user : Profile.t)
  : option Budget :=
  match Tender.budget tender,
        Profile.budget_min user, Profile.budget_max user with
  | Some budget, Some lo, Some hi =>
    Some (if Qle_bool lo budget && Qle_bool budget hi then WithinRange
          else if Qle_bool (lo * (1 # 2)) budget && Qle_bool budget (hi * 2)
          then NearRange
          else OutsideRange)
  | _, _, _ => None
  end.

(** The budget tier as the code tests it: a budget or a bound that is zero
    counts as missing, as [null] does. *)
Definition budgetTier (tender : Tender.t) (user : Profile.t) : Budget :=
  match num (Tender.budget tender) with
  | None => BudgetAbsent
  | Some budget =>
    match num (Profile.budget_min user), num (Profile.budget_max user) with
    | Some lo, Some hi =>
      if Qle_bool lo budget && Qle_bool budget hi then WithinRange
      else if Qle_bool (lo * (1 # 2)) budget && Qle_bool budget (hi * 2)
      then NearRange
      else OutsideRange
    | _, _ => RangeAbsent
    end
  end.

(** The sector tier, when the search for a keyword comes to an end. *)
Definition sectorTier (toLowerCase : jsstring -> jsstring)
  (tender : Tender.t) (user : Profile.t) : result Sectors :=
  match Profile.sectors user with
  | Some ((_ :: _) as declared) =>
    found <- hasSectorMatch toLowerCase tender declared ;;
    Ok (if found then KeywordMatch else NoKeywordMatch)
  | _ => Ok SectorsAbsent
  end.

Definition statusTier (tender : Tender.t) : Status :=
  if eqb (Tender.status tender) (lit "active") then Active else NotActive.

(** The deadline tier, on the time left in milliseconds. *)
Definition day : Z := 1000 * 60 * 60 * 24.

Definition deadlineTier (Date_parse : jsstring -> option Z) (today : Z)
  (tender : Tender.t) : Deadline :=
  match str (Tender.deadline tender) with
  | None => NoDeadline
  | Some deadline =>
    match Date_parse deadline with
    | None => NoDeadline
    | Some deadlineDate =>
      let left := deadlineDate - today in
      if 15 * day <? left then Beyond15Days
      else if 7 * day <? left then UpTo15Days
      else UpTo7Days
    end
  end.

End Tiers.

(* ================================================================== *)
(** * Dates of the examples *)
(* ================================================================== *)

(** The date-time format of ECMAScript, for the strings that name an
    instant whatever the time zone of the host: a date alone, [YYYY-MM-DD],
    which is midnight UTC, or a date and a time with a zone,
    [YYYY-MM-DDTHH:mm], [:ss] and [.sss] optional, then [Z] or an offset
    [+HH:mm] or [-HH:mm].  It stands for [Date_parse] in the worked examples
    only; the general results quantify over the parser. *)

Module IsoDate.

Local Open Scope Z_scope.

Definition digit (c : N) : option Z :=
  if ((48 <=? c) && (c <=? 57))%N then Some (Z.of_N c - 48) else None.

Fixpoint number (acc : Z) (cs : list N) : option Z :=
  match cs with
  | [] => Some acc
  | c :: cs' =>
    match digit c with
    | Some d => number (10 * acc + d) cs'
    | None => None
    end
  end.

Definition leap (y : Z) : bool :=
  ((y mod 4 =? 0) && negb (y mod 100 =? 0)) || (y mod 400 =? 0).

Definition daysInMonth (y m : Z) : Z :=
  if m =? 2 then (if leap y then 29 else 28)
  else if (m =? 4) || (m =? 6) || (m =? 9) || (m =? 11) then 30
  else 31.

(** Days from 1970-01-01 to the civil date. *)
Definition daysFromCivil (y m d : Z) : Z :=
  let y' := if m <=? 2 then y - 1 else y in
  let era := y' / 400 in
  let yoe := y' - era * 400 in
  let mp := (m + 9) mod 12 in
  let doy := (153 * mp + 2) / 5 + d - 1 in
  let doe := yoe * 365 + yoe / 4 - yoe / 100 + doy in
  era * 146097 + doe - 719468.

(** [YYYY-MM-DD]: milliseconds from the epoch to midnight UTC of the day. *)
Definition date (cs : list N) : option Z :=
  match cs with
  | [y1; y2; y3; y4; dash1; m1; m2; dash2; d1; d2] =>
    match number 0 [y1; y2; y3; y4], number 0 [m1; m2], number 0 [d1; d2] with
    | Some y, Some m, Some d =>
      if ((dash1 =? 45) && (dash2 =? 45))%N
         && (1 <=? m) && (m <=? 12) && (1 <=? d) && (d <=? daysInMonth y m)
      then Some (daysFromCivil y m d * (1000 * 60 * 60 * 24))
      else None
    | _, _, _ => None
    end
  | _ => None
  end.

(** [HH:mm]: milliseconds, below a day. *)
Definition hoursMinutes (cs : list N) : option Z :=
  match cs with
  | [h1; h2; colon; m1; m2] =>
    match number 0 [h1; h2], number 0 [m1; m2] with
    | Some h, Some m =>
      if (colon =? 58)%N && (h <=? 23) && (m <=? 59)
      then Some ((h * 60 + m) * 60 * 1000)
      else None
    | _, _ => None
    end
  | _ => None
  end.

(** The optional [:ss] and [.sss], and what follows them. *)
Definition seconds (cs : list N) : option (Z * list N) :=
  match cs with
  | colon :: s1 :: s2 :: rest =>
    if (colon =? 58)%N then
      match number 0 [s1; s2] with
      | Some sec => if sec <=? 59 then Some (sec * 1000, rest) else None
      | None => None
      end
    else Some (0, cs)
  | _ => Some (0, cs)
  end.

Definition fraction (cs : list N) : option (Z * list N) :=
  match cs with
  | dot :: f1 :: f2 :: f3 :: rest =>
    if (dot =? 46)%N then
      match number 0 [f1; f2; f3] with
      | Some ms => Some (ms, rest)
      | None => None
      end
    else Some (0, cs)
  | _ => Some (0, cs)
  end.

(** [Z], [+HH:mm] or [-HH:mm]: the offset from UTC in milliseconds. *)
Definition zone (cs : list N) : option Z :=
  match cs with
  | [z] => if (z =? 90)%N then Some 0 else None
  | sign :: rest =>
    match hoursMinutes rest with
    | Some offset =>
      if (sign =? 43)%N then Some offset
      else if (sign =? 45)%N then Some (- offset)
      else None
    | None => None
    end
  | [] => None
  end.

Definition parse (s : jsstring) : option Z :=
  match date (firstn 10 s) with
  | None => None
  | Some day =>
    match skipn 10 s with
    | [] => Some day
    | t :: rest =>
      if negb (t =? 84)%N then None else
      match hoursMinutes (firstn 5 rest) with
      | None => None
      | Some hm =>
        match seconds (skipn 5 rest) with
        | None => None
        | Some (sec, rest) =>
          match fraction rest with
          | None => None
          | Some (ms, rest) =>
            match zone rest with
            | Some offset => Some (day + hm + sec + ms - offset)
            | None => None
            end
          end
        end
      end
    end
  end.

End IsoDate.

(* ================================================================== *)
(** * placsp-api.js: from the parsed feed to the tenders *)
(* ================================================================== *)

Module Transform.

Import Placsp.

(** [placspConfig.maxEntriesToProcess]. *)
Definition maxEntriesToProcess : nat := 500.

(** The end of [getFeed], from the document that the parser returned:
    [parsed.feed?.entry || []], wrapped in an array when it is a single
    entry.  A document that is [null] makes [parsed.feed] throw, and
    [getFeed] throws in its turn. *)
Definition getFeedEntries (parsed : option value) : result (list value) :=
  feed <- member parsed "feed" ;;
  let entries := or_default (opt_member feed "entry") (VArr []) in
  Ok (match entries with
      | VArr items => items
      | _ => [entries]
      end).

(** [extractDeadline(contractFolder)]. *)
Definition extractDeadline (contractFolder : option value) : option value :=
  catch
    (process <- member contractFolder "cac:TenderingProcess" ;;
     let tenderSubmission :=
       opt_member process "cac:TenderSubmissionDeadlinePeriod" in
     let deadline := opt_member tenderSubmission "cbc:EndDate" in
     Ok (or_else (or_else (opt_member deadline "_") deadline) None))
    None.

(** [extractStatus(contractFolder)]. *)
Definition extractStatus (contractFolder : option value) : value :=
  catch
    (statusCode <- member contractFolder "cbc:ContractFolderStatusCode" ;;
     Ok (or_default (or_else (opt_member statusCode "_") statusCode)
                    (VStr (lit "PUB"))))
    (VStr (lit "PUB")).

Section Numbers.

(** The numbers of the platform and [parseFloat] on a string: the budget
    is carried, never computed with. *)
Variable number : Type.
Variable parseFloat : jsstring -> number.

(** [extractBudget(procurement)]; [parseFloat] converts its argument to a
    string first. *)
Definition extractBudget (procurement : value) : option number :=
  catch
    (let budgetAmount := prop procurement "cbc:BudgetAmount" in
     let amount := or_else (opt_member budgetAmount "_") budgetAmount in
     if truthy amount
     then text <- call_toString amount ;; Ok (Some (parseFloat text))
     else Ok None)
    None.

(** What [transformEntry] returns. *)
Record Tender : Type := mkTender {
  id : option value;
  title : value;
  summary : value;
  link : option value;
  published : option value;
  updated : option value;
  contract_folder_id : option value;
  cpv_code : option value;
  province : option value;
  budget : option number;
  description : value;
  deadline : option value;
  contracting_body : value;
  status : value;
  raw_xml : value
}.

(** [transformEntry(entry)]. *)
Definition transformEntry (entry : value) : option Tender :=
  catch
    (let contractFolder := contractFolderOf entry in
     let procurement :=
       or_default (opt_member contractFolder "cac:ProcurementProject")
                  (VObj []) in
     Ok (Some
       (mkTender
          (or_else (prop entry "id") (prop entry "cbc:ID"))
          (or_default (or_else (opt_member (prop entry "title") "_")
                               (prop entry "title"))
                      (VStr (lit "Sin título")))
          (or_default (or_else (opt_member (prop entry "summary") "_")
                               (prop entry "summary"))
                      (VStr []))
          (or_else (opt_member (prop entry "link") "href")
                   (prop entry "link"))
          (prop entry "published")
          (prop entry "updated")
          (or_else (opt_member contractFolder "cbc:ContractFolderID") None)
          (extractCPV entry)
          (extractProvince entry)
          (extractBudget procurement)
          (or_default (prop procurement "cbc:Description") (VStr []))
          (extractDeadline contractFolder)
          (extractContractingBody contractFolder)
          (extractStatus contractFolder)
          entry)))
    None.

(** [.filter(t => t !== null)] after [.map]. *)
Fixpoint notNull {A : Type} (l : list (option A)) : list A :=
  match l with
  | [] => []
  | Some x :: rest => x :: notNull rest
  | None :: rest => notNull rest
  end.

(** [getConstructionTendersByProvinces(userProvinces)], on the outcome
    [feed] of [getFeed], which is only asked for once the provinces are
    known not to be empty.  An error, of the feed or of the filter by
    provinces, is logged and thrown on to the caller. *)
Definition getConstructionTendersByProvinces (feed : result (list value))
  (userProvinces : option (list jsstring)) : result (list Tender) :=
  match userProvinces with
  | None | Some [] => Ok []
  | Some provinces =>
    allEntries <- feed ;;
    let entriesToProcess := firstn maxEntriesToProcess allEntries in
    let constructionEntries := filterByConstruction entriesToProcess in
    filteredByProvince <-
      filterByProvinces constructionEntries provinces ;;
    Ok (notNull (List.map transformEntry filteredByProvince))
  end.

End Numbers.

End Transform.

(* ================================================================== *)
(** * sync-service.js: the provinces of the users *)
(* ================================================================== *)

Module Provinces.

Import Matching.

(** [provinces.add(x)] on a [Set], kept in insertion order. *)
Definition add (x : jsstring) (provinces : list jsstring) : list jsstring :=
  if arr_includes provinces x then provinces else provinces ++ [x].

(** The body of [profiles.forEach]. *)
Definition collect (provinces : list jsstring) (profile : Profile.t)
  : list jsstring :=
  let provinces :=
    match str (Profile.preferred_province profile) with
    | Some preferred => add preferred provinces
    | None => provinces
    end in
  match Profile.locations profile with
  | Some locations =>
    List.fold_left
      (fun provinces location =>
         if nonempty location then add location provinces else provinces)
      locations provinces
  | None => provinces
  end.

(** [getUserProvinces()]. *)
Definition getUserProvinces (w : World) : list jsstring :=
  let activeUsers := List.filter subscribed (companies w) in
  match activeUsers with
  | [] => []
  | _ :: _ =>
    let userIds := List.map Company.user_id activeUsers in
    let profiles :=
      List.filter
        (fun p => arr_includes userIds (Profile.user_id p)
                  && Profile.onboarding_completed p)
        (user_profiles w) in
    match profiles with
    | [] => []
    | _ :: _ => List.fold_left collect profiles []
    end
  end.

End Provinces.

(* ================================================================== *)
(** * sync-job.js: the next execution *)
(* ================================================================== *)

Module Job.

Local Open Scope Z_scope.

(** [getNextExecutionTime()], before the date is formatted: a message, or
    the changes made to the local date [next], which starts as now: the
    days added to it and the hour set, minutes and seconds being set to
    zero.  [task] tells whether the job is scheduled and [currentHour] is
    [now.getHours()]. *)
Definition getNextExecutionTime (task : bool) (schedule : jsstring)
  (currentHour : Z) : jsstring + Z * Z :=
  if negb task then inl (lit "No programada")
  else if eqb schedule (lit "0 */6 * * *") then
    let nextHour :=
      Qceiling (inject_Z (currentHour + 1) / inject_Z 6) * 6 in
    if 24 <=? nextHour then inr (1, nextHour - 24)
    else inr (0, nextHour)
  else inl (lit "Según schedule: " ++ schedule).

End Job.

(* ================================================================== *)
(** * Invariants of the run *)
(* ================================================================== *)

Module Invariants.

Import Matching.
Local Open Scope Z_scope.

(** The tender is a row of the table: it has its [id]. *)
Definition hasId (tender : Tender.t) : bool :=
  match Tender.id tender with
  | Some _ => true
  | None => false
  end.

(** The tally by user of a list of matches, as the loop keeps it. *)
Definition tallyRows (rows : list Match.t)
  (start : list (jsstring * Counter)) : list (jsstring * Counter) :=
  List.fold_left (fun m row => increment (Match.user_id row) m) rows start.

(** The number that a value of [matchesByUser] counts, a text counting
    nothing. *)
Definition counted (v : Counter) : Z :=
  match v with
  | Count n => n
  | Text => 0
  end.

(** [matchesByUser] has one key per user, every value is a count of at
    least one, and the counts add up to [totalMatches]. *)
Definition tallied (tally : Tally) : Prop :=
  NoDup (List.map fst (matchesByUser tally))
  /\ Forall (fun entry => exists n, snd entry = Count n /\ 1 <= n)
            (matchesByUser tally)
  /\ List.fold_right Z.add 0
       (List.map (fun entry => counted (snd entry)) (matchesByUser tally))
     = totalMatches tally.

(** A row that the loop can have created for one of [tenders] in the
    store [w]: a new match between one of the tenders and a user that
    [getUsersByProvince] returns for its province, with the score that
    [calculateMatchScore] gave at some reading of the clock, of at least
    60. *)
Definition createdFor (toLowerCase : jsstring -> jsstring)
  (Date_parse : jsstring -> option Z)
  (tenders : list Tender.t) (w : World) (row : Match.t) : Prop :=
  Match.status row = lit "new"
  /\ 60 <= Match.match_score row
  /\ exists tender user,
       In tender tenders
       /\ In user (getUsersByProvince w (Tender.province tender))
       /\ Tender.id tender = Some (Match.tender_id row)
       /\ Match.user_id row = Profile.user_id (User.profile user)
       /\ exists today,
            calculateMatchScore toLowerCase Date_parse today tender
                                (User.profile user)
            = Ok (Match.match_score row).

(** A stretch of the run over [tenders]: it leaves the companies and the
    profiles alone and appends rows to the matches, counting them; on a
    table with at most one row per pair, it appends rows for pairs that had
    none and keeps the table so. *)
Definition appends (toLowerCase : jsstring -> jsstring)
  (Date_parse : jsstring -> option Z)
  (tenders : list Tender.t) (st st' : World * Tally) : Prop :=
  companies (fst st') = companies (fst st)
  /\ user_profiles (fst st') = user_profiles (fst st)
  /\ exists added,
       user_tender_matches (fst st')
       = user_tender_matches (fst st) ++ added
       /\ totalMatches (snd st')
          = totalMatches (snd st) + Z.of_nat (List.length added)
       /\ matchesByUser (snd st')
          = tallyRows added (matchesByUser (snd st))
       /\ Forall (createdFor toLowerCase Date_parse tenders (fst st)) added
       /\ (onePerPair (user_tender_matches (fst st)) ->
           onePerPair (user_tender_matches (fst st'))
           /\ Forall
                (fun row =>
                   hasMatch (user_tender_matches (fst st))
                            (Match.user_id row) (Match.tender_id row)
                   = false)
                added).

(** What the run from the store [w] keeps true of its state whatever the
    tenders, and what it keeps true when no profile of the store has an
    inherited name for user id. *)
Definition counts (w : World) (st : World * Tally) : Prop :=
  companies (fst st) = companies w
  /\ user_profiles (fst st) = user_profiles w
  /\ NoDup (List.map fst (matchesByUser (snd st)))
  /\ Z.of_nat (List.length (matchesByUser (snd st)))
     <= totalMatches (snd st)
  /\ (Forall (fun profile => inherited (Profile.user_id profile) = false)
             (user_profiles w) ->
      tallied (snd st)).

(** What a [Set] of provinces filled through truthiness tests holds: no
    duplicate and no empty string. *)
Definition clean (provinces : list jsstring) : Prop :=
  NoDup provinces /\ Forall (fun p => nonempty p = true) provinces.

(** A stretch of [processTenders] over [n] tenders: rows are inserted at
    the end of the table and reported in [newTenders]; the rows already
    there keep their place and their key; each tender leaves one raw row
    and is inserted, updated or left alone. *)
Definition reconciles (n : nat) (st st' : Sync.Store * Sync.Outcome)
  : Prop :=
  exists inserted updated,
    Sync.newTenders (snd st') = Sync.newTenders (snd st) ++ inserted
    /\ Sync.updatedTenders (snd st')
       = Sync.updatedTenders (snd st) ++ updated
    /\ List.map Sync.Row.id (Sync.tenders (fst st'))
       = List.map Sync.Row.id (Sync.tenders (fst st))
         ++ List.map Sync.Row.id inserted
    /\ List.length (Sync.tenders_raw (fst st'))
       = (List.length (Sync.tenders_raw (fst st)) + n)%nat
    /\ (List.length inserted + List.length updated <= n)%nat
    /\ Sync.errors (snd st') = Sync.errors (snd st).


(** The external ids of the stored tenders that have one. *)
Definition externalIds (rows : list Sync.Row.t) : list jsstring :=
  List.flat_map
    (fun r =>
       match Sync.TenderData.external_id (Sync.Row.data r) with
       | Some e => [e]
       | None => []
       end)
    rows.

End Invariants.

(* ================================================================== *)
(** * Worked examples: the data *)
(* ================================================================== *)

Module Samples.

Import Matching.
Local Open Scope Z_scope.

(** 2026-03-08T00:00:00Z, and a clock that stands there for a whole run. *)
Definition march8 : Z := 1772928000000.

Definition clockMarch8 (n : nat) : Z := march8.

(** An active tender in Madrid whose deadline is 2026-03-15, seven days
    after [march8]. *)
Definition tenderMarch15 : Tender.t :=
  Tender.mk (Some (lit "t-1")) (lit "Rehabilitación de pabellón municipal")
            (lit "Madrid") (lit "Rehabilitación")
            (Some (300000 # 1)%Q) (Some (lit "2026-03-15")) (lit "active").

(** The same tender with its deadline on 2026-03-28, twenty days out. *)
Definition tenderMarch28 : Tender.t :=
  Tender.mk (Some (lit "t-1")) (lit "Rehabilitación de pabellón municipal")
            (lit "Madrid") (lit "Rehabilitación")
            (Some (300000 # 1)%Q) (Some (lit "2026-03-28")) (lit "active").

(** The subscriber of the end-to-end scenario of the specification. *)
Definition profileMadrid : Profile.t :=
  Profile.mk (lit "u-1") (lit "Obras Castilla") true
             (Some (lit "Madrid")) (Some [])
             (Some (100000 # 1)%Q) (Some (500000 # 1)%Q) (Some []).

(** A subscriber elsewhere, with a far smaller budget range. *)
Definition profileSevilla : Profile.t :=
  Profile.mk (lit "u-2") (lit "Reformas Sur") true
             (Some (lit "Sevilla")) None
             (Some (1000 # 1)%Q) (Some (2000 # 1)%Q)
             (Some [lit "Instalaciones"]).

(** A subscriber in Madrid who declares the rehabilitation sector. *)
Definition profileRehab : Profile.t :=
  Profile.mk (lit "u-3") (lit "Rehabilita Centro") true
             (Some (lit "Madrid")) (Some [lit "Madrid"; lit "Toledo"])
             (Some (100000 # 1)%Q) (Some (500000 # 1)%Q)
             (Some [lit "Rehabilitación y reformas"]).

Definition userMadrid : User.t :=
  User.mk profileMadrid (Some (lit "active")) (Some (lit "pro")).

Definition companyMadrid : Company.t :=
  Company.mk (lit "u-1") (lit "active") (lit "pro").

Definition matchMadrid : Match.t :=
  Match.mk (lit "u-1") (lit "t-1") 95 [MatchScore 95] (lit "viewed") 0.

(** A closed tender in Madrid with neither budget nor deadline: against
    [profileRehab] it scores 40 + 10 + 10, exactly 60. *)
Definition tenderPlain : Tender.t :=
  Tender.mk (Some (lit "t-2")) (lit "Suministro de vallas") (lit "Madrid")
            (lit "Construcción General") None None (lit "closed").

Definition userRehab : User.t :=
  User.mk profileRehab (Some (lit "trial")) (Some (lit "basic")).

(** A store where the pair of [userMadrid] and the tender has its match
    already, and the same store without it. *)
Definition worldMatched : World :=
  mkWorld [companyMadrid] [profileMadrid; profileSevilla] [matchMadrid] 0.

Definition worldFresh : World :=
  mkWorld [companyMadrid] [profileMadrid; profileSevilla] [] 0.

(** A store whose only company has let its subscription lapse. *)
Definition worldNobody : World :=
  mkWorld [Company.mk (lit "u-1") (lit "cancelled") (lit "pro")]
          [profileMadrid; profileSevilla] [] 0.

(** A database that gives no match for a tender without [id] and leaves
    the table as it is. *)
Definition noAnswer (user : User.t) (tender : Tender.t) (matchScore : Z)
  (w : World) : option Match.t * (list Match.t * nat) :=
  (None, (user_tender_matches w, ticks w)).

(** A subscriber in Madrid whose only sector bears the name of a property
    that every object inherits, and one whose second sector does. *)
Definition profileOdd : Profile.t :=
  Profile.mk (lit "u-9") (lit "Constructor SL") true
             (Some (lit "Madrid")) None
             (Some (100000 # 1)%Q) (Some (500000 # 1)%Q)
             (Some [lit "constructor"]).

Definition profileOddSecond : Profile.t :=
  Profile.mk (lit "u-8") (lit "Obras y Servicios") true
             (Some (lit "Madrid")) None
             (Some (100000 # 1)%Q) (Some (500000 # 1)%Q)
             (Some [lit "Obra civil"; lit "toString"]).

Definition userOdd : User.t :=
  User.mk profileOdd (Some (lit "active")) (Some (lit "pro")).

(** A store where [profileOdd] comes before [profileRehab]; both are
    candidates for a tender in Madrid. *)
Definition worldOdd : World :=
  mkWorld [Company.mk (lit "u-9") (lit "active") (lit "pro");
           Company.mk (lit "u-3") (lit "trial") (lit "basic")]
          [profileOdd; profileRehab] [] 0.

(** A store whose only subscriber has the user id [__proto__]. *)
Definition profileProto : Profile.t :=
  Profile.mk (lit "__proto__") (lit "Rehabilita Centro") true
             (Some (lit "Madrid")) None
             (Some (100000 # 1)%Q) (Some (500000 # 1)%Q)
             (Some [lit "Rehabilitación y reformas"]).

Definition worldProto : World :=
  mkWorld [Company.mk (lit "__proto__") (lit "active") (lit "pro")]
          [profileProto] [] 0.

(** Two profiles that differ in their budget range only: the first
    declares the range from 0 to 500000, the second from 400000 to
    500000. *)
Definition profileFromZero : Profile.t :=
  Profile.mk (lit "u-4") (lit "Obras Castilla") true
             (Some (lit "Madrid")) (Some [])
             (Some 0%Q) (Some (500000 # 1)%Q) (Some []).

Definition profileNarrow : Profile.t :=
  Profile.mk (lit "u-4") (lit "Obras Castilla") true
             (Some (lit "Madrid")) (Some [])
             (Some (400000 # 1)%Q) (Some (500000 # 1)%Q) (Some []).

(** An entry with no structured address whose title names Almería without
    its accent, and one whose title names two provinces. *)
Definition entryAlmeriaPlain : value :=
  VObj [("title"%string, VStr (lit "Reforma de pista deportiva en Almeria"))].

(** An entry whose structured address carries a region code, and one
    whose structured province is an element with attributes and no text. *)
Definition entryCoded : value :=
  VObj [("title"%string, VStr (lit "Obras en Madrid"));
        ("cac-place-ext:ContractFolderStatus"%string,
         VObj [("cac:ProcurementProject"%string,
                VObj [("cac:RealizedLocation"%string,
                       VObj [("cac:Address"%string,
                              VObj [("cbc:CountrySubentityCode"%string,
                                     VObj [("_"%string, VStr (lit "ES618"));
                                           ("listURI"%string,
                                            VStr (lit "NUTS"))])])])])])].

Definition entryNoText : value :=
  VObj [("title"%string, VStr (lit "Obras en Madrid"));
        ("ContractFolderStatus"%string,
         VObj [("cac:ProcurementProject"%string,
                VObj [("cac:RealizedLocation"%string,
                       VObj [("cac:Address"%string,
                              VObj [("cbc:CountrySubentity"%string,
                                     VObj [("languageID"%string,
                                            VStr (lit "es"))])])])])])].

(** An entry of construction whose structured province is the text
    Madrid, and one whose structured province is an element with a child
    element named [toString]. *)
Definition entryIn (province : value) : value :=
  VObj [("title"%string, VStr (lit "Obras de urbanización"));
        ("cac-place-ext:ContractFolderStatus"%string,
         VObj [("cac:ProcurementProject"%string,
                VObj [("cac:RequiredCommodityClassification"%string,
                       VObj [("cbc:ItemClassificationCode"%string,
                              VStr (lit "45233000"))]);
                      ("cac:RealizedLocation"%string,
                       VObj [("cac:Address"%string,
                              VObj [("cbc:CountrySubentity"%string,
                                     province)])])])])].

Definition entryMadrid : value := entryIn (VStr (lit "Madrid")).

(** The same entry in Almería, and a store whose only subscriber wrote the
    province without its accent. *)
Definition entryAlmeria : value := entryIn (VStr (lit "Almería")).

Definition profileAlmeria : Profile.t :=
  Profile.mk (lit "u-5") (lit "Obras Indalo") true
             (Some (lit "Almeria")) None None None None.

Definition worldAlmeria : World :=
  mkWorld [Company.mk (lit "u-5") (lit "active") (lit "pro")]
          [profileAlmeria] [] 0.

Definition entryToString : value :=
  entryIn (VObj [("toString"%string, VStr (lit "Madrid"))]).

Definition entryTwoProvinces : value :=
  VObj [("title"%string, VStr (lit "Obras en Valencia y ALMERÍA"));
        ("summary"%string, VObj [("_"%string, VStr (lit "Lote 2"))])].

(** A stored tender last updated on 2026-03-07, exactly 24 hours before
    [march8], and the same tender fetched again with a changed title. *)
Definition storedData : Sync.TenderData.t :=
  Sync.TenderData.mk
    (Some (lit "EXP-2026/17")) (lit "Reforma del mercado municipal")
    (lit "Obras de reforma") (lit "Ayuntamiento de Madrid") (lit "Madrid")
    (Own (lit "Comunidad de Madrid")) (lit "Rehabilitación")
    (Some (300000 # 1)%Q) (inl (lit "2026-03-01")) (Some (lit "2026-03-28"))
    (lit "45410000") (lit "active") None 0.

Definition storedRow : Sync.Row.t :=
  Sync.Row.mk 1 (lit "2026-03-07T00:00:00+00:00") storedData.

Definition fetchedAgain : Sync.Fetched.t :=
  Sync.Fetched.mk
    (Some (lit "https://contrataciondelestado.es/entry/17"))
    (Some (lit "EXP-2026/17"))
    (Some (lit "Reforma del mercado municipal (modificado)"))
    None (Some (lit "Obras de reforma")) None
    (Some (lit "2026-03-01")) None
    (Some (lit "45410000")) (Some (lit "Madrid"))
    (Some (300000 # 1)%Q) (Some (lit "2026-03-28"))
    (Some (lit "Ayuntamiento de Madrid")) (Some (lit "PUB")).

Definition storeOneDayOld : Sync.Store := Sync.mkStore [storedRow] [] 0.

Definition storeEmpty : Sync.Store := Sync.mkStore [] [] 0.

(** A clock one millisecond later, so that the row is older than 24 hours. *)
Definition clockMarch8Later (n : nat) : Z := march8 + 1.

Definition dbDefault (n : nat) : nat * jsstring :=
  (S n, lit "2026-03-08T00:00:00+00:00").

End Samples.

(* ================================================================== *)
(** * Properties *)
(* ================================================================== *)

Unset Implicit Arguments.

(** ** Strings *)

Module JsFacts.

Lemma eqb_eq (a b : jsstring) : eqb a b = true <-> a = b.
Proof.
  revert b; induction a as [|c a IH]; intros [|d b]; simpl;
    try (split; [discriminate | discriminate]); try tauto.
  rewrite andb_true_iff, N.eqb_eq, IH.
  split; [intros [-> ->]; reflexivity | intros H; injection H; auto].
Qed.

Lemma eqb_refl (a : jsstring) : eqb a a = true.
Proof. apply eqb_eq; reflexivity. Qed.

Lemma arr_includes_In (arr : list jsstring) (x : jsstring) :
  arr_includes arr x = true <-> In x arr.
Proof.
  unfold arr_includes. rewrite existsb_exists. split.
  - intros [y [Hin Heq]]. apply eqb_eq in Heq. subst. exact Hin.
  - intros Hin. exists x. split; [exact Hin | apply eqb_refl].
Qed.

Example lit_alava : lit "álava" = [225; 108; 97; 118; 97]%N.
Proof. reflexivity. Qed.

Example lower_upper_example :
  toLowerCase (lit "ÁVILA y León") = lit "ávila y león"
  /\ toUpperCase (lit "álava ß") = lit "ÁLAVA SS".
Proof. split; reflexivity. Qed.

Example nfd_strip_example :
  strip_marks (normalizeNFD (lit "almería coruña")) = lit "almeria coruna".
Proof. reflexivity. Qed.

Example trim_example : trim (lit "  Ciudad Real ") = lit "Ciudad Real".
Proof. reflexivity. Qed.

End JsFacts.

(** ** The score *)

Module ScoreFacts.

Import Matching.
Local Open Scope Z_scope.

(** The quotient that [Math.ceil] rounds exceeds a whole number of days
    exactly when the time left exceeds that many days. *)
Lemma ceil_days_gt (diffTime n : Z) :
  (n <? Qceiling (inject_Z diffTime / inject_Z (1000 * 60 * 60 * 24)))
  = (n * Tiers.day <? diffTime).
Proof.
  change (1000 * 60 * 60 * 24) with 86400000. unfold Tiers.day.
  change (1000 * 60 * 60 * 24) with 86400000.
  assert (E : (inject_Z diffTime / inject_Z 86400000 == diffTime # 86400000)%Q).
  { unfold Qeq, Qdiv, Qmult, Qinv, inject_Z; simpl. lia. }
  rewrite E. unfold Qceiling, Qfloor, Qopp; simpl.
  destruct (Z.ltb_spec (n * 86400000) diffTime) as [H | H];
    [apply Z.ltb_lt | apply Z.ltb_ge];
    Z.to_euclidean_division_equations; lia.
Qed.

Lemma scoreProvince_values (tender : Tender.t) (user : Profile.t) :
  scoreProvince tender user = 40 \/ scoreProvince tender user = 10.
Proof.
  unfold scoreProvince.
  destruct (Profile.preferred_province user) as [p|];
    [destruct (eqb p (Tender.province tender)); auto |];
    (destruct (Profile.locations user) as [l|];
       [destruct (arr_includes l (Tender.province tender)); auto | auto]).
Qed.

Lemma scoreBudget_values (tender : Tender.t) (user : Profile.t) :
  In (scoreBudget tender user) [30; 20; 5; 15; 10].
Proof.
  unfold scoreBudget.
  destruct (num (Tender.budget tender)) as [b|]; [|simpl; tauto].
  destruct (num (Profile.budget_min user)) as [lo|]; [|simpl; tauto].
  destruct (num (Profile.budget_max user)) as [hi|]; [|simpl; tauto].
  destruct (Qle_bool lo b && Qle_bool b hi); [simpl; tauto|].
  destruct (Qle_bool (lo * (1 # 2)) b && Qle_bool b (hi * 2)); simpl; tauto.
Qed.

Section Sector.

(** The third block, whatever the case mapping of the platform. *)
Variable toLowerCase : jsstring -> jsstring.

(** None of the four sectors of the table bears an inherited name, so the
    keywords of a sector cannot be iterated exactly when its name is
    inherited. *)
Lemma keywordsOf_throws (sector : jsstring) :
  keywordsOf toLowerCase sector = Throw <-> inherited sector = true.
Proof.
  assert (H : forallb
                (fun name =>
                   match ownProperty sectorKeywords name with
                   | None => true
                   | Some _ => false
                   end)
                inheritedNames = true) by (vm_compute; reflexivity).
  rewrite forallb_forall in H.
  unfold keywordsOf, lookIn. split.
  - destruct (ownProperty sectorKeywords sector); [discriminate|].
    destruct (inherited sector); [reflexivity | discriminate].
  - intros Hi. pose proof Hi as Hin. unfold inherited in Hin.
    apply JsFacts.arr_includes_In in Hin. specialize (H sector Hin).
    destruct (ownProperty sectorKeywords sector); [discriminate H|].
    rewrite Hi. reflexivity.
Qed.

(** The search for a keyword throws exactly when it comes to a sector that
    bears an inherited name; it then has found no keyword before. *)
Lemma hasSectorMatch_cons (tender : Tender.t) (sector : jsstring)
  (rest : list jsstring) :
  hasSectorMatch toLowerCase tender (sector :: rest)
  = (keywords <- keywordsOf toLowerCase sector ;;
     if includesKeyword toLowerCase tender keywords then Ok true
     else hasSectorMatch toLowerCase tender rest).
Proof. reflexivity. Qed.

(** A step of the search, by cases on the sector it looks at: it throws,
    it finds a keyword, or it goes on to the next sector. *)
Lemma hasSectorMatch_step (tender : Tender.t) (sector : jsstring) :
  (inherited sector = true
   /\ forall rest, hasSectorMatch toLowerCase tender (sector :: rest) = Throw)
  \/ (inherited sector = false
      /\ forall rest,
           hasSectorMatch toLowerCase tender (sector :: rest) = Ok true)
  \/ (inherited sector = false
      /\ forall rest,
           hasSectorMatch toLowerCase tender (sector :: rest)
           = hasSectorMatch toLowerCase tender rest).
Proof.
  destruct (keywordsOf toLowerCase sector) as [keywords|] eqn:K.
  - assert (Hs : inherited sector = false).
    { destruct (inherited sector) eqn:Hi; [|reflexivity].
      apply keywordsOf_throws in Hi. congruence. }
    destruct (includesKeyword toLowerCase tender keywords) eqn:M;
      [right; left | right; right]; (split; [exact Hs|]); intros rest;
      rewrite hasSectorMatch_cons, K; unfold bind; rewrite M; reflexivity.
  - left. split; [apply keywordsOf_throws; exact K|].
    intros rest. rewrite hasSectorMatch_cons, K. reflexivity.
Qed.

Lemma hasSectorMatch_throws (tender : Tender.t) (sectors : list jsstring) :
  hasSectorMatch toLowerCase tender sectors = Throw
  <-> exists before sector rest,
        sectors = before ++ sector :: rest
        /\ inherited sector = true
        /\ hasSectorMatch toLowerCase tender before = Ok false.
Proof.
  induction sectors as [|s ss IH].
  - split; [discriminate|].
    intros [before [sector [rest [E _]]]]. destruct before; discriminate E.
  - destruct (hasSectorMatch_step tender s)
      as [[Hi Ht] | [[Hi Ht] | [Hi Ht]]]; rewrite Ht.
    + split; [intros _ | reflexivity].
      exists [], s, ss. repeat split. exact Hi.
    + split; [discriminate|].
      intros [before [sector [rest [E [Hi' Hb]]]]].
      destruct before as [|b before]; injection E as E1 E2.
      * congruence.
      * subst b. rewrite Ht in Hb. discriminate Hb.
    + rewrite IH. split.
      * intros [before [sector [rest [E [Hi' Hb]]]]].
        exists (s :: before), sector, rest.
        split; [rewrite E; reflexivity|]. split; [exact Hi'|].
        rewrite Ht. exact Hb.
      * intros [before [sector [rest [E [Hi' Hb]]]]].
        destruct before as [|b before]; injection E as E1 E2.
        -- congruence.
        -- subst b. exists before, sector, rest.
           split; [exact E2|]. split; [exact Hi'|].
           rewrite Ht in Hb. exact Hb.
Qed.

(** With no inherited name among the sectors, the search comes to an end. *)
Lemma hasSectorMatch_own (tender : Tender.t) (sectors : list jsstring) :
  Forall (fun sector => inherited sector = false) sectors ->
  exists found, hasSectorMatch toLowerCase tender sectors = Ok found.
Proof.
  intros Hown.
  destruct (hasSectorMatch toLowerCase tender sectors) as [found|] eqn:E;
    [exists found; reflexivity|].
  apply hasSectorMatch_throws in E.
  destruct E as [before [sector [rest [-> [Hi _]]]]].
  rewrite Forall_forall in Hown.
  rewrite (Hown sector) in Hi; [discriminate Hi|].
  apply in_or_app. right. left. reflexivity.
Qed.

Lemma scoreSector_values (tender : Tender.t) (user : Profile.t) (sector : Z) :
  scoreSector toLowerCase tender user = Ok sector -> In sector [20; 10; 15].
Proof.
  unfold scoreSector.
  destruct (Profile.sectors user) as [[|s ss]|];
    try (intros H; injection H as <-; simpl; tauto).
  destruct (hasSectorMatch toLowerCase tender (s :: ss)) as [[|]|]; cbn [bind];
    try discriminate; intros H; injection H as <-; simpl; tauto.
Qed.

(** The third block throws exactly when the search for a keyword does. *)
Lemma scoreSector_throws (tender : Tender.t) (user : Profile.t) :
  scoreSector toLowerCase tender user = Throw
  <-> exists sectors,
        Profile.sectors user = Some sectors
        /\ hasSectorMatch toLowerCase tender sectors = Throw.
Proof.
  unfold scoreSector.
  destruct (Profile.sectors user) as [[|s ss]|].
  - split; [discriminate|]. intros [sectors [E H]].
    injection E as <-. discriminate H.
  - destruct (hasSectorMatch toLowerCase tender (s :: ss)) as [found|] eqn:E;
      cbn [bind].
    + split; [discriminate|]. intros [sectors [E' H]].
      injection E' as <-. congruence.
    + split; [intros _; exists (s :: ss); auto | reflexivity].
  - split; [discriminate|]. intros [sectors [E _]]. discriminate E.
Qed.

Lemma scoreSector_own (tender : Tender.t) (user : Profile.t) :
  (forall sectors,
     Profile.sectors user = Some sectors ->
     Forall (fun sector => inherited sector = false) sectors) ->
  exists sector, scoreSector toLowerCase tender user = Ok sector.
Proof.
  intros Hown.
  destruct (scoreSector toLowerCase tender user) as [sector|] eqn:E;
    [exists sector; reflexivity|].
  apply scoreSector_throws in E. destruct E as [sectors [Hs Ht]].
  destruct (hasSectorMatch_own tender sectors (Hown sectors Hs)) as [f Hf].
  congruence.
Qed.

End Sector.

Section Status.

Variable Date_parse : jsstring -> option Z.
Variables (today : Z) (tender : Tender.t).

(** The fourth block in closed form, on the time left in milliseconds. *)
Lemma scoreStatus_closed :
  scoreStatus Date_parse today tender =
  (if eqb (Tender.status tender) (lit "active") then 5 else 0)
  + match str (Tender.deadline tender) with
    | Some deadline =>
      match Date_parse deadline with
      | Some deadlineDate =>
        if 15 * Tiers.day <? deadlineDate - today then 5
        else if 7 * Tiers.day <? deadlineDate - today then 3
        else 0
      | None => 0
      end
    | None => 0
    end.
Proof.
  unfold scoreStatus. f_equal.
  destruct (str (Tender.deadline tender)) as [d|]; [|reflexivity].
  unfold getDaysUntilDeadline.
  destruct (Date_parse d) as [t|]; [|reflexivity].
  unfold gt. rewrite !ceil_days_gt. reflexivity.
Qed.

Lemma scoreStatus_values :
  In (scoreStatus Date_parse today tender) [0; 3; 5; 8; 10].
Proof.
  rewrite scoreStatus_closed.
  destruct (eqb (Tender.status tender) (lit "active"));
    destruct (str (Tender.deadline tender)) as [d|]; try (simpl; tauto);
    destruct (Date_parse d) as [t|]; try (simpl; tauto);
    destruct (15 * Tiers.day <? t - today); try (simpl; tauto);
    destruct (7 * Tiers.day <? t - today); simpl; tauto.
Qed.

End Status.

Section Blocks.

Variable toLowerCase : jsstring -> jsstring.
Variable Date_parse : jsstring -> option Z.
Variables (today : Z) (tender : Tender.t) (user : Profile.t).

(** The score is the sum of the four blocks, capped at 100, once the third
    block has returned. *)
Lemma calculateMatchScore_sum :
  calculateMatchScore toLowerCase Date_parse today tender user =
  (sector <- scoreSector toLowerCase tender user ;;
   Ok (Z.min (scoreProvince tender user + scoreBudget tender user
              + sector + scoreStatus Date_parse today tender) 100)).
Proof. unfold calculateMatchScore. simpl. reflexivity. Qed.

Lemma calculateMatchScore_Ok (score : Z) :
  calculateMatchScore toLowerCase Date_parse today tender user = Ok score ->
  exists sector,
    scoreSector toLowerCase tender user = Ok sector
    /\ score = Z.min (scoreProvince tender user + scoreBudget tender user
                      + sector + scoreStatus Date_parse today tender) 100.
Proof.
  rewrite calculateMatchScore_sum.
  destruct (scoreSector toLowerCase tender user) as [sector|]; cbn [bind];
    [|discriminate].
  intros H. injection H as <-. exists sector. auto.
Qed.

Lemma calculateMatchScore_throws :
  calculateMatchScore toLowerCase Date_parse today tender user = Throw
  <-> scoreSector toLowerCase tender user = Throw.
Proof.
  rewrite calculateMatchScore_sum.
  destruct (scoreSector toLowerCase tender user); cbn [bind];
    split; try discriminate; reflexivity.
Qed.

End Blocks.

Ltac block_values toLowerCase Date_parse today tender user sector Hsector :=
  pose proof (scoreProvince_values tender user);
  pose proof (scoreBudget_values tender user);
  pose proof (scoreSector_values toLowerCase tender user sector Hsector);
  pose proof (scoreStatus_values Date_parse today tender);
  simpl in *.

(** C1.  [calculateMatchScore] returns no score for a profile whose only
    sector bears the name of a property that every object inherits:
    whatever the tender and the clock, the lookup in [sectorKeywords] gives
    what the prototype has under that name, and the loop over it throws. *)
Theorem score_throws_on_inherited_sector
  (toLowerCase : jsstring -> jsstring) (Date_parse : jsstring -> option Z)
  (today : Z) (tender : Tender.t) :
  Profile.sectors Samples.profileOdd = Some [lit "constructor"]
  /\ keywordsOf toLowerCase (lit "constructor") = Throw
  /\ calculateMatchScore toLowerCase Date_parse today tender
                         Samples.profileOdd = Throw.
Proof.
  split; [vm_compute; reflexivity|].
  split; [vm_compute; reflexivity|].
  apply calculateMatchScore_throws. apply scoreSector_throws.
  exists [lit "constructor"]. split; [vm_compute; reflexivity|].
  apply hasSectorMatch_throws. exists [], (lit "constructor"), [].
  repeat split; vm_compute; reflexivity.
Qed.

(** C10.  The floor of 25 is not reached either when the search for a
    keyword comes to an inherited name after sectors that matched nothing:
    the tender of the examples has no keyword of "Obra civil", the second
    sector of the profile is [toString], and no score is returned. *)
Theorem no_floor_on_inherited_sector
  (Date_parse : jsstring -> option Z) (today : Z) :
  Profile.sectors Samples.profileOddSecond
  = Some [lit "Obra civil"; lit "toString"]
  /\ hasSectorMatch Js.toLowerCase Samples.tenderMarch28 [lit "Obra civil"]
     = Ok false
  /\ inherited (lit "toString") = true
  /\ calculateMatchScore Js.toLowerCase Date_parse today Samples.tenderMarch28
                         Samples.profileOddSecond = Throw.
Proof.
  split; [vm_compute; reflexivity|].
  split; [vm_compute; reflexivity|].
  split; [vm_compute; reflexivity|].
  apply calculateMatchScore_throws.
  vm_compute. reflexivity.
Qed.

(** No tender and profile score exactly 59: the sums of the blocks next
    to the threshold are 58 and 60. *)
Lemma calculateMatchScore_never_59
  (toLowerCase : jsstring -> jsstring) (Date_parse : jsstring -> option Z)
  (today : Z) (tender : Tender.t) (user : Profile.t) :
  calculateMatchScore toLowerCase Date_parse today tender user <> Ok 59.
Proof.
  intros H. apply calculateMatchScore_Ok in H.
  destruct H as [sector [Hs H]].
  block_values toLowerCase Date_parse today tender user sector Hs. lia.
Qed.

End ScoreFacts.

(** ** The score and the tiers of the specification *)

Module TierFacts.

Import Matching Tiers.
Local Open Scope Z_scope.

Lemma scoreProvince_tier (tender : Tender.t) (user : Profile.t) :
  scoreProvince tender user = regionPoints (regionTier tender user).
Proof.
  unfold scoreProvince, regionTier, inSet.
  destruct (Profile.preferred_province user) as [p|];
    [destruct (eqb p (Tender.province tender)); simpl; [reflexivity|] | simpl];
    (destruct (Profile.locations user) as [l|]; simpl;
       [destruct (arr_includes l (Tender.province tender)) |]; reflexivity).
Qed.

Lemma scoreBudget_tier (tender : Tender.t) (user : Profile.t) :
  scoreBudget tender user = budgetPoints (budgetTier tender user).
Proof.
  unfold scoreBudget, budgetTier.
  destruct (num (Tender.budget tender)) as [b|]; [|reflexivity].
  destruct (num (Profile.budget_min user)) as [lo|]; [|reflexivity].
  destruct (num (Profile.budget_max user)) as [hi|]; [|reflexivity].
  destruct (Qle_bool lo b && Qle_bool b hi); [reflexivity|].
  destruct (Qle_bool (lo * (1 # 2)) b && Qle_bool b (hi * 2)); reflexivity.
Qed.

Lemma scoreSector_tier (toLowerCase : jsstring -> jsstring)
  (tender : Tender.t) (user : Profile.t) (tier : Sectors) :
  sectorTier toLowerCase tender user = Ok tier ->
  scoreSector toLowerCase tender user = Ok (sectorPoints tier).
Proof.
  unfold scoreSector, sectorTier.
  destruct (Profile.sectors user) as [[|s ss]|];
    try (intros H; injection H as <-; reflexivity).
  destruct (hasSectorMatch toLowerCase tender (s :: ss)) as [[|]|]; cbn [bind];
    try discriminate; intros H; injection H as <-; reflexivity.
Qed.

Lemma scoreStatus_tier (Date_parse : jsstring -> option Z) (today : Z)
  (tender : Tender.t) :
  scoreStatus Date_parse today tender =
  statusPoints (statusTier tender)
  + deadlinePoints (deadlineTier Date_parse today tender).
Proof.
  rewrite ScoreFacts.scoreStatus_closed. unfold statusTier, deadlineTier.
  f_equal.
  - destruct (eqb (Tender.status tender) (lit "active")); reflexivity.
  - destruct (str (Tender.deadline tender)) as [d|]; [|reflexivity].
    destruct (Date_parse d) as [t|]; [|reflexivity].
    destruct (15 * day <? t - today); [reflexivity|].
    destruct (7 * day <? t - today); reflexivity.
Qed.

(** Where the code finds one of the three tiers that the specification
    orders, it is the tier of the specification's words. *)
Lemma budgetTier_stated (tender : Tender.t) (user : Profile.t) :
  In (budgetTier tender user) [WithinRange; NearRange; OutsideRange] ->
  budgetTierStated tender user = Some (budgetTier tender user).
Proof.
  unfold budgetTier, budgetTierStated, num.
  destruct (Tender.budget tender) as [b|];
    [|simpl; intros [H|[H|[H|[]]]]; discriminate H].
  destruct (Qeq_bool b 0);
    [simpl; intros [H|[H|[H|[]]]]; discriminate H|].
  destruct (Profile.budget_min user) as [lo|];
    [|simpl; intros [H|[H|[H|[]]]]; discriminate H].
  destruct (Qeq_bool lo 0);
    [simpl; intros [H|[H|[H|[]]]]; discriminate H|].
  destruct (Profile.budget_max user) as [hi|];
    [|simpl; intros [H|[H|[H|[]]]]; discriminate H].
  destruct (Qeq_bool hi 0);
    [simpl; intros [H|[H|[H|[]]]]; discriminate H|].
  intros _. reflexivity.
Qed.

(** Each order of tiers is an order of points. *)
Lemma regionLe_points (a b : Region) :
  regionLe a b = true -> regionPoints a <= regionPoints b.
Proof. destruct a, b; simpl; intros H; try discriminate H; lia. Qed.

Lemma budgetLe_points (a b : Budget) :
  budgetLe a b = true -> budgetPoints a <= budgetPoints b.
Proof. destruct a, b; simpl; intros H; try discriminate H; lia. Qed.

Lemma sectorLe_points (a b : Sectors) :
  sectorLe a b = true -> sectorPoints a <= sectorPoints b.
Proof. destruct a, b; simpl; intros H; try discriminate H; lia. Qed.

Lemma statusLe_points (a b : Status) :
  statusLe a b = true -> statusPoints a <= statusPoints b.
Proof. destruct a, b; simpl; intros H; try discriminate H; lia. Qed.

Lemma deadlineLe_points (a b : Deadline) :
  deadlineLe a b = true -> deadlinePoints a <= deadlinePoints b.
Proof. destruct a, b; simpl; intros H; try discriminate H; lia. Qed.

(** C3, as amended.  For two tender and profile pairs (and two clock
    readings) whose search for a sector keyword comes to an end, if every
    signal of the second is in the same tier as in the first or in a better
    one (exact region over non-exact; budget within the range over near it
    over outside it, for a budget and bounds that the code takes as given,
    none of them zero; a sector keyword match over none; active over not
    active; a later deadline tier over an earlier one) then both scores are
    returned and the second is at least the first.  With four signals in
    the same tier it is the comparison of the claim: one signal moves, the
    others are held fixed.  The three budget tiers that are compared are
    those of the specification's words. *)
Theorem score_monotone_in_tiers
  (toLowerCase : jsstring -> jsstring) (Date_parse : jsstring -> option Z)
  (today today' : Z) (tender tender' : Tender.t) (user user' : Profile.t)
  (sectors sectors' : Sectors) :
  regionLe (regionTier tender user) (regionTier tender' user') = true ->
  budgetLe (budgetTier tender user) (budgetTier tender' user') = true ->
  sectorTier toLowerCase tender user = Ok sectors ->
  sectorTier toLowerCase tender' user' = Ok sectors' ->
  sectorLe sectors sectors' = true ->
  statusLe (statusTier tender) (statusTier tender') = true ->
  deadlineLe (deadlineTier Date_parse today tender)
             (deadlineTier Date_parse today' tender') = true ->
  (exists score score',
     calculateMatchScore toLowerCase Date_parse today tender user = Ok score
     /\ calculateMatchScore toLowerCase Date_parse today' tender' user'
        = Ok score'
     /\ score <= score')
  /\ (In (budgetTier tender user) [WithinRange; NearRange; OutsideRange] ->
      budgetTierStated tender user = Some (budgetTier tender user))
  /\ (In (budgetTier tender' user') [WithinRange; NearRange; OutsideRange] ->
      budgetTierStated tender' user' = Some (budgetTier tender' user')).
Proof.
  intros Hr Hb Ht Ht' Hs Ha Hd.
  split; [|split; apply budgetTier_stated].
  rewrite !ScoreFacts.calculateMatchScore_sum.
  rewrite (scoreSector_tier _ _ _ _ Ht), (scoreSector_tier _ _ _ _ Ht').
  cbn [bind]. eexists. eexists.
  split; [reflexivity|]. split; [reflexivity|].
  rewrite !scoreProvince_tier, !scoreBudget_tier, !scoreStatus_tier.
  apply regionLe_points in Hr. apply budgetLe_points in Hb.
  apply sectorLe_points in Hs. apply statusLe_points in Ha.
  apply deadlineLe_points in Hd.
  lia.
Qed.

(** The theorem at work: against a subscriber elsewhere, out of range and
    with no keyword, seven days before the deadline, the tender scores 30;
    against a subscriber in its province, in range and with a keyword,
    twenty days before the deadline, it scores 100. *)
Lemma score_monotone_in_tiers_witness :
  regionTier Samples.tenderMarch15 Samples.profileSevilla = NonExactRegion
  /\ regionTier Samples.tenderMarch28 Samples.profileRehab = ExactRegion
  /\ calculateMatchScore Js.toLowerCase IsoDate.parse Samples.march8
                         Samples.tenderMarch15 Samples.profileSevilla
     = Ok 30
  /\ calculateMatchScore Js.toLowerCase IsoDate.parse Samples.march8
                         Samples.tenderMarch28 Samples.profileRehab
     = Ok 100
  /\ exists score score',
       calculateMatchScore Js.toLowerCase IsoDate.parse Samples.march8
                           Samples.tenderMarch15 Samples.profileSevilla
       = Ok score
       /\ calculateMatchScore Js.toLowerCase IsoDate.parse Samples.march8
                              Samples.tenderMarch28 Samples.profileRehab
          = Ok score'
       /\ score <= score'.
Proof.
  repeat (split; [vm_compute; reflexivity|]).
  apply (score_monotone_in_tiers
           Js.toLowerCase IsoDate.parse Samples.march8 Samples.march8
           Samples.tenderMarch15 Samples.tenderMarch28
           Samples.profileSevilla Samples.profileRehab
           NoKeywordMatch KeywordMatch);
    vm_compute; reflexivity.
Defined.

(** C3, as stated, fails on the budget: the two profiles differ in their
    range only, and every other signal is in the same tier.  A budget of
    300000 is within the range from 0 to 500000 and only near the range
    from 400000 to 500000, yet the first profile scores 80 and the second
    85: a bound of 0 counts as no range, which earns 15 points. *)
Lemma zero_bound_scores_below_near :
  budgetTierStated Samples.tenderMarch28 Samples.profileFromZero
  = Some WithinRange
  /\ budgetTierStated Samples.tenderMarch28 Samples.profileNarrow
     = Some NearRange
  /\ regionTier Samples.tenderMarch28 Samples.profileFromZero
     = regionTier Samples.tenderMarch28 Samples.profileNarrow
  /\ sectorTier Js.toLowerCase Samples.tenderMarch28 Samples.profileFromZero
     = sectorTier Js.toLowerCase Samples.tenderMarch28 Samples.profileNarrow
  /\ scoreBudget Samples.tenderMarch28 Samples.profileFromZero = 15
  /\ scoreBudget Samples.tenderMarch28 Samples.profileNarrow = 20
  /\ calculateMatchScore Js.toLowerCase IsoDate.parse Samples.march8
                         Samples.tenderMarch28 Samples.profileFromZero
     = Ok 80
  /\ calculateMatchScore Js.toLowerCase IsoDate.parse Samples.march8
                         Samples.tenderMarch28 Samples.profileNarrow
     = Ok 85.
Proof. repeat split; vm_compute; reflexivity. Qed.

End TierFacts.

(** ** Candidates *)

Module CandidateFacts.

Import Matching.
Local Open Scope Z_scope.

Lemma hasProvince_scoreProvince (tender : Tender.t) (profile : Profile.t) :
  hasProvince (Tender.province tender) profile = true ->
  scoreProvince tender profile = 40.
Proof.
  unfold hasProvince, scoreProvince. intros H.
  destruct (Profile.preferred_province profile) as [p|];
    [destruct (eqb p (Tender.province tender)); [reflexivity|] |];
    simpl in H;
    (destruct (Profile.locations profile) as [l|]; [|discriminate H]);
    rewrite H; reflexivity.
Qed.

Lemma getUsersByProvince_hasProvince (w : World) (province : jsstring)
  (user : User.t) :
  In user (getUsersByProvince w province) ->
  hasProvince province (User.profile user) = true
  /\ In (User.profile user) (user_profiles w)
  /\ Profile.onboarding_completed (User.profile user) = true.
Proof.
  unfold getUsersByProvince.
  destruct (List.filter subscribed (companies w)) as [|c cs];
    [intros [] |].
  intros H. apply in_map_iff in H. destruct H as [profile [<- Hin]].
  simpl. apply filter_In in Hin. destruct Hin as [Hin Hp].
  apply filter_In in Hin. destruct Hin as [Hin Hc].
  apply andb_true_iff in Hc. tauto.
Qed.

(** C9. Every user that [getUsersByProvince(p)] returns takes the +40
    branch of the province block against every tender whose province is
    [p]; the +10 branch is not reached for such a pair. *)
Theorem candidates_score_exact_province (w : World) (province : jsstring)
  (user : User.t) (tender : Tender.t) :
  In user (getUsersByProvince w province) ->
  Tender.province tender = province ->
  scoreProvince tender (User.profile user) = 40
  /\ scoreProvince tender (User.profile user) <> 10.
Proof.
  intros Hin Hp. subst province.
  apply getUsersByProvince_hasProvince in Hin. destruct Hin as [H _].
  rewrite (hasProvince_scoreProvince _ _ H). split; [reflexivity | lia].
Qed.

(** The theorem at work: the sample subscriber of Madrid is a candidate
    for a tender in Madrid and scores 40 on the province. *)
Lemma candidates_score_exact_province_witness :
  In Samples.userMadrid
     (getUsersByProvince Samples.worldFresh (lit "Madrid"))
  /\ scoreProvince Samples.tenderMarch28 Samples.profileMadrid = 40.
Proof.
  assert (Hin : In Samples.userMadrid
                   (getUsersByProvince Samples.worldFresh (lit "Madrid")))
    by (vm_compute; left; reflexivity).
  assert (Hp : Tender.province Samples.tenderMarch28 = lit "Madrid")
    by (vm_compute; reflexivity).
  split; [exact Hin|].
  pose proof (candidates_score_exact_province
                Samples.worldFresh (lit "Madrid") Samples.userMadrid
                Samples.tenderMarch28 Hin Hp) as H.
  destruct H as [H _]. exact H.
Defined.

End CandidateFacts.

(** ** The recency signal *)

Module RecencyFacts.

Import Matching Samples.
Local Open Scope Z_scope.

(** C8, as amended.  The fourth block adds 5 when the status is active,
    and for a tender with a valid deadline 5 more when strictly more than
    15 days are left, 3 when strictly more than 7 days and at most 15 are
    left, and nothing otherwise: nothing at exactly 7 days, nor for a
    missing or unreadable deadline.  The score is the sum of the four
    blocks, capped at 100, once the third block has returned. *)
Theorem recency_signal
  (toLowerCase : jsstring -> jsstring) (Date_parse : jsstring -> option Z)
  (today : Z) (tender : Tender.t) (user : Profile.t) :
  calculateMatchScore toLowerCase Date_parse today tender user =
    (sector <- scoreSector toLowerCase tender user ;;
     Ok (Z.min (scoreProvince tender user + scoreBudget tender user
                + sector + scoreStatus Date_parse today tender)
               100))
  /\ scoreStatus Date_parse today tender =
     (if eqb (Tender.status tender) (lit "active") then 5 else 0)
     + match str (Tender.deadline tender) with
       | Some deadline =>
         match Date_parse deadline with
         | Some deadlineDate =>
           let left := deadlineDate - today in
           if 15 * Tiers.day <? left then 5
           else if 7 * Tiers.day <? left then 3
           else 0
         | None => 0
         end
       | None => 0
       end.
Proof.
  split.
  - apply ScoreFacts.calculateMatchScore_sum.
  - apply ScoreFacts.scoreStatus_closed.
Qed.

(** C8, as stated, fails: on 2026-03-08 the deadline 2026-03-15 is exactly
    seven days out, [getDaysUntilDeadline] is 7, and the block gives the 5
    points of the active status and nothing for the deadline, where the
    claim has 5 + 3. *)
Lemma deadline_in_exactly_seven_days :
  IsoDate.parse (lit "2026-03-15") = Some (march8 + 7 * Tiers.day)
  /\ getDaysUntilDeadline IsoDate.parse march8 (lit "2026-03-15") = Some 7
  /\ eqb (Tender.status tenderMarch15) (lit "active") = true
  /\ scoreStatus IsoDate.parse march8 tenderMarch15 = 5
  /\ scoreStatus IsoDate.parse march8 tenderMarch15 <> 5 + 3.
Proof.
  repeat split; try (vm_compute; reflexivity).
  vm_compute. discriminate.
Qed.

(** The end-to-end scenario of the specification scores 95. *)
Example scenario_scores_95 :
  calculateMatchScore Js.toLowerCase IsoDate.parse march8 tenderMarch28
                      profileMadrid
  = Ok 95.
Proof. vm_compute. reflexivity. Qed.

End RecencyFacts.

(** ** Creating a match *)

Module MatchFacts.

Import Matching Invariants Samples.
Local Open Scope Z_scope.

Lemma forPair_key (user_id tender_id : jsstring) (m : Match.t) :
  forPair user_id tender_id m = true <-> key m = (user_id, tender_id).
Proof.
  unfold forPair, key. rewrite andb_true_iff, !JsFacts.eqb_eq.
  split; [intros [-> ->]; reflexivity | intros H; injection H; auto].
Qed.

Lemma filter_none (A : Type) (f : A -> bool) (l : list A) :
  existsb f l = false -> List.filter f l = [].
Proof.
  induction l as [|x l IH]; simpl; [reflexivity|].
  intros H. apply orb_false_iff in H. destruct H as [Hx Hl].
  rewrite Hx. auto.
Qed.

Lemma hasMatch_app (rows more : list Match.t) (user_id tender_id : jsstring) :
  hasMatch (rows ++ more) user_id tender_id
  = hasMatch rows user_id tender_id || hasMatch more user_id tender_id.
Proof. unfold hasMatch. apply existsb_app. Qed.

(** [.single()] returns a row of the selection. *)
Lemma single_hasMatch (rows : list Match.t) (user_id tender_id : jsstring)
  (row : Match.t) :
  single (List.filter (forPair user_id tender_id) rows) = Some row ->
  hasMatch rows user_id tender_id = true.
Proof.
  intros H. unfold hasMatch. apply existsb_exists. exists row.
  assert (Hin : In row (List.filter (forPair user_id tender_id) rows)).
  { destruct (List.filter (forPair user_id tender_id) rows)
      as [|r [|r' l]]; try discriminate H.
    injection H as ->. left. reflexivity. }
  apply filter_In in Hin. exact Hin.
Qed.

(** Under the invariant a query for a pair selects the row, if there is
    one, and [.single()] returns it. *)
Lemma single_forPair (rows : list Match.t) (user_id tender_id : jsstring) :
  onePerPair rows ->
  hasMatch rows user_id tender_id = true ->
  exists row,
    single (List.filter (forPair user_id tender_id) rows) = Some row.
Proof.
  unfold onePerPair, hasMatch.
  induction rows as [|r rows IH]; simpl; [discriminate|].
  intros Hnd Hex. inversion Hnd as [|k ks Hnotin Hnd']; subst.
  destruct (forPair user_id tender_id r) eqn:Hr.
  - exists r. rewrite filter_none; [reflexivity|].
    destruct (existsb (forPair user_id tender_id) rows) eqn:E; [|reflexivity].
    exfalso. apply Hnotin. apply existsb_exists in E.
    destruct E as [m [Hin Hm]]. apply forPair_key in Hr, Hm.
    rewrite Hr, <- Hm. apply in_map. exact Hin.
  - simpl in Hex. apply IH; assumption.
Qed.

Lemma onePerPair_insert (rows : list Match.t) (row : Match.t) :
  onePerPair rows ->
  hasMatch rows (Match.user_id row) (Match.tender_id row) = false ->
  onePerPair (rows ++ [row]).
Proof.
  unfold onePerPair, hasMatch. intros Hnd Hex.
  rewrite map_app. simpl.
  apply NoDup_app; [exact Hnd | repeat constructor; simpl; tauto |].
  intros k Hin [<- | []].
  apply in_map_iff in Hin. destruct Hin as [m [Hk Hm]].
  assert (existsb (forPair (Match.user_id row) (Match.tender_id row)) rows
          = true) as E; [|congruence].
  apply existsb_exists. exists m. split; [exact Hm|].
  apply forPair_key. exact Hk.
Qed.

Lemma getUsersByProvince_ext (w w' : World) (province : jsstring) :
  companies w' = companies w -> user_profiles w' = user_profiles w ->
  getUsersByProvince w' province = getUsersByProvince w province.
Proof.
  intros Hc Hp. unfold getUsersByProvince. rewrite Hc, Hp. reflexivity.
Qed.

Section Host.

Variable toLowerCase : jsstring -> jsstring.
Variable Date_parse : jsstring -> option Z.
Variable clock : nat -> Z.
Variable withoutId :
  User.t -> Tender.t -> Z -> World -> option Match.t * (list Match.t * nat).

Local Abbreviation createMatch := (createMatch Date_parse clock withoutId).
Local Abbreviation offer := (offer Date_parse clock withoutId).
Local Abbreviation considerUser :=
  (considerUser toLowerCase Date_parse clock withoutId).
Local Abbreviation considerUsers :=
  (considerUsers toLowerCase Date_parse clock withoutId).
Local Abbreviation considerTender :=
  (considerTender toLowerCase Date_parse clock withoutId).
Local Abbreviation run :=
  (matchTendersWithUsers toLowerCase Date_parse clock withoutId).
Local Abbreviation newRow := (newMatch Date_parse clock).
Local Abbreviation createdFor := (createdFor toLowerCase Date_parse).
Local Abbreviation appends := (appends toLowerCase Date_parse).

Lemma afterDeadlineRead_tables (tender : Tender.t) (w : World) :
  companies (afterDeadlineRead tender w) = companies w
  /\ user_profiles (afterDeadlineRead tender w) = user_profiles w
  /\ user_tender_matches (afterDeadlineRead tender w)
     = user_tender_matches w.
Proof.
  unfold afterDeadlineRead. destruct (str (Tender.deadline tender));
    repeat split.
Qed.

(** [createMatch] never touches the companies nor the profiles. *)
Lemma createMatch_tables (user : User.t) (tender : Tender.t)
  (matchScore : Z) (w : World) :
  companies (snd (createMatch user tender matchScore w)) = companies w
  /\ user_profiles (snd (createMatch user tender matchScore w))
     = user_profiles w.
Proof.
  unfold Matching.createMatch.
  destruct (Tender.id tender) as [tender_id|].
  - destruct (single _); cbn [snd]; [split; reflexivity|].
    cbn [insertMatch tick companies user_profiles].
    destruct (afterDeadlineRead_tables tender w) as [A1 [A2 _]].
    split; assumption.
  - destruct (withoutId user tender matchScore w) as [created answer].
    split; reflexivity.
Qed.

Lemma createMatch_fresh (user : User.t) (tender : Tender.t)
  (tender_id : jsstring) (matchScore : Z) (w : World) :
  Tender.id tender = Some tender_id ->
  hasMatch (user_tender_matches w) (Profile.user_id (User.profile user))
           tender_id = false ->
  exists w',
    createMatch user tender matchScore w
    = (Some (newRow user tender_id tender matchScore w), w')
    /\ user_tender_matches w'
       = user_tender_matches w
         ++ [newRow user tender_id tender matchScore w].
Proof.
  intros Hid H. unfold Matching.createMatch. rewrite Hid.
  rewrite (filter_none _ _ _ H). simpl.
  eexists. split; [reflexivity|]. simpl.
  destruct (afterDeadlineRead_tables tender w) as [_ [_ A]].
  rewrite A. reflexivity.
Qed.

Lemma createMatch_existing (user : User.t) (tender : Tender.t)
  (tender_id : jsstring) (matchScore : Z) (w : World) :
  Tender.id tender = Some tender_id ->
  onePerPair (user_tender_matches w) ->
  hasMatch (user_tender_matches w) (Profile.user_id (User.profile user))
           tender_id = true ->
  createMatch user tender matchScore w = (None, w).
Proof.
  intros Hid Hinv H. unfold Matching.createMatch. rewrite Hid.
  destruct (single_forPair _ _ _ Hinv H) as [row ->]. reflexivity.
Qed.

(** What [offer] does to the table of a tender that has its [id], by
    cases. *)
Lemma offer_cases (user : User.t) (tender : Tender.t) (tender_id : jsstring)
  (matchScore : Z) (w : World) (tally : Tally) :
  Tender.id tender = Some tender_id ->
  let before := user_tender_matches w in
  let st' := offer user tender matchScore (w, tally) in
  let user_id := Profile.user_id (User.profile user) in
  (60 <= matchScore -> hasMatch before user_id tender_id = false ->
   user_tender_matches (fst st')
     = before ++ [newRow user tender_id tender matchScore w]
   /\ totalMatches (snd st') = totalMatches tally + 1
   /\ matchesByUser (snd st') = increment user_id (matchesByUser tally))
  /\ (matchScore < 60 -> st' = (w, tally))
  /\ (onePerPair before -> hasMatch before user_id tender_id = true ->
      st' = (w, tally))
  /\ (60 <= matchScore ->
      hasMatch (user_tender_matches (fst st')) user_id tender_id = true).
Proof.
  intros Hid before st' user_id. subst st'. unfold Matching.offer.
  split; [|split; [|split]].
  - intros Hs Hf. apply Z.leb_le in Hs. rewrite Hs.
    destruct (createMatch_fresh user tender tender_id matchScore w Hid Hf)
      as [w' [-> Hw']].
    simpl. repeat split. exact Hw'.
  - intros Hs. apply Z.leb_gt in Hs. rewrite Hs. reflexivity.
  - intros Hinv He. destruct (60 <=? matchScore); [|reflexivity].
    rewrite (createMatch_existing user tender tender_id matchScore w
                                  Hid Hinv He).
    reflexivity.
  - intros Hs. apply Z.leb_le in Hs. rewrite Hs.
    destruct (hasMatch before user_id tender_id) eqn:He.
    + unfold Matching.createMatch. rewrite Hid.
      destruct (single _) as [row|] eqn:S1; cbn [fst]; [exact He|].
      cbn [insertMatch tick user_tender_matches].
      destruct (afterDeadlineRead_tables tender w) as [_ [_ A]].
      rewrite A, hasMatch_app. fold before. rewrite He. reflexivity.
    + destruct (createMatch_fresh user tender tender_id matchScore w Hid He)
        as [w' [-> Hw']].
      cbn [fst]. rewrite Hw', hasMatch_app. apply orb_true_iff. right.
      unfold hasMatch. cbn [existsb]. unfold forPair.
      cbn [newMatch Match.user_id Match.tender_id].
      rewrite !JsFacts.eqb_refl. reflexivity.
Qed.

Lemma createdFor_ext (tenders : list Tender.t) (w w' : World)
  (rows : list Match.t) :
  companies w' = companies w -> user_profiles w' = user_profiles w ->
  Forall (createdFor tenders w') rows -> Forall (createdFor tenders w) rows.
Proof.
  intros Hc Hp H. eapply Forall_impl; [|exact H].
  intros row [Hs [Hsc [tender [user [Ht [Hu E]]]]]].
  split; [exact Hs|]. split; [exact Hsc|]. exists tender, user.
  rewrite (getUsersByProvince_ext w w' _ Hc Hp) in Hu. auto.
Qed.

Lemma appends_refl (tenders : list Tender.t) (st : World * Tally) :
  appends tenders st st.
Proof.
  split; [reflexivity|]. split; [reflexivity|]. exists [].
  rewrite app_nil_r. simpl.
  repeat split; [lia | constructor | assumption | constructor].
Qed.

Lemma appends_trans (tenders : list Tender.t) (st1 st2 st3 : World * Tally) :
  appends tenders st1 st2 -> appends tenders st2 st3 ->
  appends tenders st1 st3.
Proof.
  intros [C1 [P1 [a1 [E1 [T1 [M1 [F1 I1]]]]]]]
         [C2 [P2 [a2 [E2 [T2 [M2 [F2 I2]]]]]]].
  split; [congruence|]. split; [congruence|].
  exists (a1 ++ a2).
  split; [rewrite E2, E1, app_assoc; reflexivity|].
  split; [rewrite T2, T1, length_app; lia|].
  split; [rewrite M2, M1; unfold tallyRows; rewrite fold_left_app;
          reflexivity|].
  split.
  - apply Forall_app. split; [exact F1|].
    apply (createdFor_ext tenders (fst st1) (fst st2)); assumption.
  - intros Hinv. destruct (I1 Hinv) as [Hinv2 N1].
    destruct (I2 Hinv2) as [Hinv3 N2]. split; [exact Hinv3|].
    apply Forall_app. split; [exact N1|].
    eapply Forall_impl; [|exact N2]. intros row H.
    rewrite E1, hasMatch_app in H. apply orb_false_iff in H. tauto.
Qed.

Lemma offer_appends (tenders : list Tender.t) (tender : Tender.t)
  (user : User.t) (matchScore today : Z) (w w0 : World) (tally : Tally) :
  In tender tenders -> hasId tender = true ->
  In user (getUsersByProvince w0 (Tender.province tender)) ->
  calculateMatchScore toLowerCase Date_parse today tender (User.profile user)
  = Ok matchScore ->
  companies w = companies w0 -> user_profiles w = user_profiles w0 ->
  user_tender_matches w = user_tender_matches w0 ->
  appends tenders (w0, tally) (offer user tender matchScore (w, tally)).
Proof.
  intros Ht Hid Hu Hscore Hc Hp Hm.
  unfold hasId in Hid.
  destruct (Tender.id tender) as [tender_id|] eqn:Eid; [|discriminate Hid].
  destruct (offer_cases user tender tender_id matchScore w tally Eid)
    as [H1 [H2 [H3 _]]].
  cbv zeta in H1, H2, H3.
  assert (Hsame : appends tenders (w0, tally) (w, tally)).
  { split; [exact Hc|]. split; [exact Hp|]. exists [].
    rewrite app_nil_r. cbn [fst snd]. simpl.
    repeat split; [exact Hm | lia | constructor | | constructor].
    rewrite Hm. assumption. }
  destruct (Z.le_gt_cases 60 matchScore) as [Hs | Hs];
    [|rewrite (H2 Hs); exact Hsame].
  destruct (hasMatch (user_tender_matches w)
                     (Profile.user_id (User.profile user)) tender_id)
    eqn:He.
  - (* the pair may have its match: nothing more is known without the
       invariant, but [offer] appends at most the new row *)
    unfold Matching.offer. apply Z.leb_le in Hs. rewrite Hs.
    unfold Matching.createMatch. rewrite Eid.
    destruct (single _) as [row|] eqn:S1; [exact Hsame|].
    destruct (afterDeadlineRead_tables tender w) as [A1 [A2 A3]].
    unfold Invariants.appends.
    cbn [fst snd insertMatch tick companies user_profiles
         user_tender_matches totalMatches matchesByUser].
    split; [congruence|]. split; [congruence|].
    exists [newRow user tender_id tender matchScore w].
    rewrite A3, Hm.
    split; [reflexivity|]. split; [simpl; lia|]. split; [reflexivity|].
    split.
    + constructor; [|constructor].
      split; [reflexivity|]. split; [apply Z.leb_le; exact Hs|].
      exists tender, user. repeat split; try assumption.
      exists today. exact Hscore.
    + intros Hinv. exfalso. rewrite <- Hm in Hinv.
      destruct (single_forPair _ _ _ Hinv He) as [row Hrow]. congruence.
  - destruct (H1 Hs eq_refl) as [E [T M]].
    pose proof (createMatch_tables user tender matchScore w) as [C P].
    unfold Invariants.appends.
    split.
    { unfold Matching.offer. pose proof Hs as Hs'.
      apply Z.leb_le in Hs'. rewrite Hs'.
      destruct (createMatch user tender matchScore w) as [[r|] w'];
        cbn [fst snd] in *; congruence. }
    split.
    { unfold Matching.offer. pose proof Hs as Hs'.
      apply Z.leb_le in Hs'. rewrite Hs'.
      destruct (createMatch user tender matchScore w) as [[r|] w'];
        cbn [fst snd] in *; congruence. }
    exists [newRow user tender_id tender matchScore w].
    cbn [fst snd]. rewrite E, T, M, Hm.
    split; [reflexivity|]. split; [simpl; lia|]. split; [reflexivity|].
    split.
    + constructor; [|constructor].
      split; [reflexivity|]. split; [exact Hs|].
      exists tender, user. repeat split; try assumption.
      exists today. exact Hscore.
    + intros Hinv. rewrite Hm in He. split.
      * apply onePerPair_insert; [exact Hinv | exact He].
      * constructor; [exact He | constructor].
Qed.

(** A step that returns has computed a score and offered it. *)
Lemma considerUser_Ok (tender : Tender.t) (w : World) (tally : Tally)
  (st' : World * Tally) (user : User.t) :
  considerUser tender (w, tally) user = Ok st' ->
  exists score,
    calculateMatchScore toLowerCase Date_parse (clock (ticks w)) tender
                        (User.profile user) = Ok score
    /\ st' = offer user tender score (afterDeadlineRead tender w, tally).
Proof.
  unfold Matching.considerUser.
  destruct (calculateMatchScore toLowerCase Date_parse (clock (ticks w)) tender
                                (User.profile user)) as [score|];
    [|discriminate].
  intros H. exists score. split; [reflexivity|].
  unfold bind in H. congruence.
Qed.

Lemma considerUser_appends (tenders : list Tender.t) (tender : Tender.t)
  (st st' : World * Tally) (user : User.t) :
  In tender tenders -> hasId tender = true ->
  In user (getUsersByProvince (fst st) (Tender.province tender)) ->
  considerUser tender st user = Ok st' ->
  appends tenders st st'.
Proof.
  destruct st as [w tally]. cbn [fst]. intros Ht Hid Hu.
  unfold Matching.considerUser.
  destruct (calculateMatchScore toLowerCase Date_parse (clock (ticks w)) tender
                                (User.profile user)) as [score|] eqn:S1;
    cbn [bind]; [|discriminate].
  intros H. injection H as <-.
  destruct (afterDeadlineRead_tables tender w) as [A1 [A2 A3]].
  eapply offer_appends; eassumption.
Qed.

Lemma considerUsers_appends (tenders : list Tender.t) (tender : Tender.t)
  (users : list User.t) :
  In tender tenders -> hasId tender = true ->
  forall st,
    (forall user, In user users ->
       In user (getUsersByProvince (fst st) (Tender.province tender))) ->
    appends tenders st (considerUsers tender users st).
Proof.
  intros Ht Hid. induction users as [|u us IH]; intros st Hall;
    cbn [Matching.considerUsers].
  - apply appends_refl.
  - destruct (considerUser tender st u) as [st'|] eqn:E;
      [|apply appends_refl].
    assert (H1 : appends tenders st st').
    { eapply considerUser_appends; try eassumption.
      apply Hall. left. reflexivity. }
    eapply appends_trans; [exact H1|]. apply IH.
    intros user Hin. destruct H1 as [C [P _]].
    rewrite (getUsersByProvince_ext _ _ _ C P). apply Hall. right. exact Hin.
Qed.

Lemma tenders_appends (tenders : list Tender.t) (todo : list Tender.t) :
  (forall tender, In tender todo ->
     In tender tenders /\ hasId tender = true) ->
  forall st, appends tenders st (List.fold_left considerTender todo st).
Proof.
  induction todo as [|t ts IH]; intros Hsub st; simpl.
  - apply appends_refl.
  - eapply appends_trans; [|apply IH; intros x Hx; apply Hsub; right; exact Hx].
    unfold Matching.considerTender.
    destruct (Hsub t (or_introl eq_refl)) as [Ht Hid].
    apply considerUsers_appends; auto.
Qed.

Lemma run_appends (tenders : list Tender.t) (w : World) :
  (forall tender, In tender tenders -> hasId tender = true) ->
  appends tenders (w, mkTally 0 []) (run tenders w).
Proof.
  intros Hid. unfold matchTendersWithUsers. apply tenders_appends. auto.
Qed.

(** ** Every candidate is reached, when no score throws *)

Lemma considerUser_returns (tender : Tender.t) (st : World * Tally)
  (user : User.t) :
  scoreSector toLowerCase tender (User.profile user) <> Throw ->
  exists st', considerUser tender st user = Ok st'.
Proof.
  destruct st as [w tally]. intros Hs. unfold Matching.considerUser.
  destruct (calculateMatchScore toLowerCase Date_parse (clock (ticks w)) tender
                                (User.profile user)) as [score|] eqn:E.
  - cbn [bind]. eexists. reflexivity.
  - apply ScoreFacts.calculateMatchScore_throws in E. contradiction.
Qed.

Lemma considerUser_settles (tender : Tender.t) (tender_id : jsstring)
  (st st' : World * Tally) (user : User.t) :
  Tender.id tender = Some tender_id ->
  (forall today,
     exists score,
       calculateMatchScore toLowerCase Date_parse today tender
                           (User.profile user)
       = Ok score /\ 60 <= score) ->
  considerUser tender st user = Ok st' ->
  hasMatch (user_tender_matches (fst st'))
           (Profile.user_id (User.profile user)) tender_id = true.
Proof.
  destruct st as [w tally]. intros Hid Hscore.
  unfold Matching.considerUser.
  destruct (Hscore (clock (ticks w))) as [score [-> Hs]]. cbn [bind].
  intros H. injection H as <-.
  destruct (offer_cases user tender tender_id score
                        (afterDeadlineRead tender w) tally Hid)
    as [_ [_ [_ H]]].
  apply H. exact Hs.
Qed.

Lemma appends_keeps (tenders : list Tender.t) (st st' : World * Tally)
  (user_id tender_id : jsstring) :
  appends tenders st st' ->
  hasMatch (user_tender_matches (fst st)) user_id tender_id = true ->
  hasMatch (user_tender_matches (fst st')) user_id tender_id = true.
Proof.
  intros [_ [_ [added [E _]]]] H. rewrite E, hasMatch_app, H. reflexivity.
Qed.

Lemma considerUsers_settles (tenders : list Tender.t) (tender : Tender.t)
  (tender_id : jsstring) (user : User.t) (users : list User.t) :
  In tender tenders -> Tender.id tender = Some tender_id ->
  (forall u, In u users ->
     scoreSector toLowerCase tender (User.profile u) <> Throw) ->
  (forall today,
     exists score,
       calculateMatchScore toLowerCase Date_parse today tender
                           (User.profile user)
       = Ok score /\ 60 <= score) ->
  In user users ->
  forall st,
    (forall u, In u users ->
       In u (getUsersByProvince (fst st) (Tender.province tender))) ->
    hasMatch (user_tender_matches (fst (considerUsers tender users st)))
             (Profile.user_id (User.profile user)) tender_id = true.
Proof.
  intros Ht Hid Hquiet Hscore.
  assert (Hid' : hasId tender = true) by (unfold hasId; rewrite Hid; reflexivity).
  induction users as [|u us IH]; intros Hin st Hall; [destruct Hin|].
  cbn [Matching.considerUsers].
  destruct (considerUser_returns tender st u) as [st' E];
    [apply Hquiet; left; reflexivity|].
  rewrite E.
  assert (H1 : appends tenders st st').
  { eapply considerUser_appends; try eassumption.
    apply Hall. left. reflexivity. }
  assert (Hall' : forall x, In x us ->
            In x (getUsersByProvince (fst st') (Tender.province tender))).
  { intros x Hx. destruct H1 as [C [P _]].
    rewrite (getUsersByProvince_ext _ _ _ C P). apply Hall. right. exact Hx. }
  destruct Hin as [<- | Hin].
  - apply (appends_keeps tenders st').
    + apply considerUsers_appends; assumption.
    + eapply considerUser_settles; eassumption.
  - apply IH; try assumption.
    intros x Hx. apply Hquiet. right. exact Hx.
Qed.

Lemma run_settles (tenders : list Tender.t) (w : World)
  (tender : Tender.t) (tender_id : jsstring) (user : User.t) :
  (forall t, In t tenders -> hasId t = true) ->
  (forall t u, In t tenders ->
     In u (getUsersByProvince w (Tender.province t)) ->
     scoreSector toLowerCase t (User.profile u) <> Throw) ->
  In tender tenders -> Tender.id tender = Some tender_id ->
  In user (getUsersByProvince w (Tender.province tender)) ->
  (forall today,
     exists score,
       calculateMatchScore toLowerCase Date_parse today tender
                           (User.profile user)
       = Ok score /\ 60 <= score) ->
  hasMatch (user_tender_matches (fst (run tenders w)))
           (Profile.user_id (User.profile user)) tender_id = true.
Proof.
  intros Hids Hquiet Ht Hid Hu Hscore. unfold matchTendersWithUsers.
  assert (G : forall todo st,
            (forall t, In t todo -> In t tenders) ->
            companies (fst st) = companies w ->
            user_profiles (fst st) = user_profiles w ->
            In tender todo ->
            hasMatch (user_tender_matches
                        (fst (List.fold_left considerTender todo st)))
                     (Profile.user_id (User.profile user)) tender_id = true).
  { induction todo as [|t ts IH]; intros st Hsub C P Hin; [destruct Hin|].
    cbn [List.fold_left].
    assert (Hcand : forall province,
              getUsersByProvince (fst st) province
              = getUsersByProvince w province)
      by (intros; apply getUsersByProvince_ext; assumption).
    assert (Hstep : appends tenders st (considerTender st t)).
    { unfold Matching.considerTender. apply considerUsers_appends; auto.
      - apply Hsub. left. reflexivity.
      - apply Hids. apply Hsub. left. reflexivity. }
    assert (Hrest : appends tenders (considerTender st t)
                            (List.fold_left considerTender ts
                                            (considerTender st t))).
    { apply tenders_appends. intros x Hx. split.
      - apply Hsub. right. exact Hx.
      - apply Hids. apply Hsub. right. exact Hx. }
    destruct Hin as [-> | Hin].
    - apply (appends_keeps tenders (considerTender st tender));
        [exact Hrest|].
      unfold Matching.considerTender.
      apply (considerUsers_settles tenders); auto.
      + intros u Hu'. apply (Hquiet tender u Ht).
        rewrite <- Hcand. exact Hu'.
      + rewrite Hcand. exact Hu.
    - apply IH; try assumption.
      + intros x Hx. apply Hsub. right. exact Hx.
      + destruct Hstep as [C' _]. congruence.
      + destruct Hstep as [_ [P' _]]. congruence. }
  apply G; auto.
Qed.

End Host.

(** X23.  Over a run of [matchTendersWithUsers] on tenders that have
    their [id], where no candidate makes the score throw, and on a table
    with at most one row per pair: the rows already there stay in place,
    the rows added are counted one by one in [totalMatches], and the table
    keeps at most one row per pair.  A row is added only for a tender of
    the run and a candidate of its province whose pair had no match, with
    the status [new] and the score that [calculateMatchScore] gave, of at
    least 60; and a pair of a tender and a candidate that had no match and
    scores at least 60 gets its row.  A score of 59 offered to the
    threshold adds nothing, a score of 60 adds the row. *)
Theorem match_created_iff
  (toLowerCase : jsstring -> jsstring)
  (Date_parse : jsstring -> option Z) (clock : nat -> Z)
  (withoutId :
     User.t -> Tender.t -> Z -> World -> option Match.t * (list Match.t * nat))
  (tenders : list Tender.t) (w : World) :
  onePerPair (user_tender_matches w) ->
  (forall tender, In tender tenders -> hasId tender = true) ->
  (forall tender user,
     In tender tenders ->
     In user (getUsersByProvince w (Tender.province tender)) ->
     scoreSector toLowerCase tender (User.profile user) <> Throw) ->
  let before := user_tender_matches w in
  let run :=
    matchTendersWithUsers toLowerCase Date_parse clock withoutId tenders w in
  exists added,
    user_tender_matches (fst run) = before ++ added
    /\ totalMatches (snd run) = Z.of_nat (List.length added)
    /\ onePerPair (user_tender_matches (fst run))
    /\ Forall
         (fun row =>
            createdFor toLowerCase Date_parse tenders w row
            /\ hasMatch before (Match.user_id row) (Match.tender_id row)
               = false)
         added
    /\ (forall tender tender_id user,
          In tender tenders ->
          Tender.id tender = Some tender_id ->
          In user (getUsersByProvince w (Tender.province tender)) ->
          hasMatch before (Profile.user_id (User.profile user)) tender_id
          = false ->
          (forall today,
             exists score,
               calculateMatchScore toLowerCase Date_parse today tender
                                   (User.profile user) = Ok score
               /\ 60 <= score) ->
          hasMatch added (Profile.user_id (User.profile user)) tender_id
          = true)
    /\ (forall user tender tally,
          offer Date_parse clock withoutId user tender 59 (w, tally)
          = (w, tally))
    /\ (forall user tender tender_id tally,
          Tender.id tender = Some tender_id ->
          hasMatch before (Profile.user_id (User.profile user)) tender_id
          = false ->
          user_tender_matches
            (fst (offer Date_parse clock withoutId user tender 60
                        (w, tally)))
          = before ++ [newMatch Date_parse clock user tender_id tender 60 w]).
Proof.
  intros Hinv Hids Hquiet before run.
  destruct (run_appends toLowerCase Date_parse clock withoutId tenders w Hids)
    as [_ [_ [added [E [T [_ [F I]]]]]]].
  cbn [fst snd] in E, T, F, I. fold run before in E, T, I.
  destruct (I Hinv) as [Hinv' N].
  exists added.
  split; [exact E|]. split; [rewrite T; reflexivity|].
  split; [exact Hinv'|]. split; [|split; [|split]].
  - rewrite Forall_forall in F, N. apply Forall_forall.
    intros row Hin. split; [apply F | apply N]; exact Hin.
  - intros tender tender_id user Ht Hid Hu Hfresh Hscore.
    pose proof (run_settles toLowerCase Date_parse clock withoutId tenders w
                            tender tender_id user Hids Hquiet Ht Hid Hu
                            Hscore) as H.
    fold run in H. rewrite E, hasMatch_app in H. fold before in H.
    rewrite Hfresh in H. exact H.
  - intros user tender tally. unfold offer. reflexivity.
  - intros user tender tender_id tally Hid Hfresh.
    destruct (offer_cases Date_parse clock withoutId user tender tender_id
                          60 w tally Hid) as [H60 _].
    apply H60; [lia | exact Hfresh].
Qed.

(** The theorem at work: in the store of the examples the subscriber of
    Madrid is the only candidate for the closed tender in Madrid, the pair
    has no match and scores 65 whatever the clock, and the run adds its
    row. *)
Lemma match_created_iff_witness :
  exists added,
    user_tender_matches
      (fst (matchTendersWithUsers Js.toLowerCase IsoDate.parse clockMarch8
                                  noAnswer [tenderPlain] worldFresh))
    = added
    /\ totalMatches
         (snd (matchTendersWithUsers Js.toLowerCase IsoDate.parse clockMarch8
                                     noAnswer [tenderPlain] worldFresh))
       = Z.of_nat (List.length added)
    /\ hasMatch added (lit "u-1") (lit "t-2") = true.
Proof.
  assert (Hinv : onePerPair (user_tender_matches worldFresh))
    by constructor.
  assert (Hids : forall tender, In tender [tenderPlain] ->
                                hasId tender = true)
    by (intros tender [<- | []]; reflexivity).
  assert (Hcand : getUsersByProvince worldFresh (lit "Madrid") = [userMadrid])
    by (vm_compute; reflexivity).
  assert (Hquiet : forall tender user,
             In tender [tenderPlain] ->
             In user (getUsersByProvince worldFresh (Tender.province tender)) ->
             scoreSector Js.toLowerCase tender (User.profile user) <> Throw).
  { intros tender user [<- | []]. cbn [tenderPlain Tender.province].
    rewrite Hcand. intros [<- | []]. discriminate. }
  destruct (match_created_iff Js.toLowerCase IsoDate.parse clockMarch8 noAnswer
                              [tenderPlain] worldFresh Hinv Hids Hquiet)
    as [added [E [T [_ [_ [H _]]]]]].
  exists added. split; [exact E|]. split; [exact T|].
  apply (H tenderPlain (lit "t-2") userMadrid).
  - left. reflexivity.
  - reflexivity.
  - cbn [tenderPlain Tender.province]. rewrite Hcand. left. reflexivity.
  - reflexivity.
  - intros today. exists 65. split; [reflexivity | lia].
Defined.

(** C2.  A candidate that scores 60 and has no match gets none when the
    loop does not reach it: in this store the first candidate for a tender
    in Madrid declares the sector [constructor], on which the score throws;
    the error ends the loop over the candidates of the tender; the second
    candidate scores 60 and has no match, and the run leaves the store as
    it was and counts nothing. *)
Theorem error_ends_tender_loop :
  List.map User.profile (getUsersByProvince worldOdd (lit "Madrid"))
  = [profileOdd; profileRehab]
  /\ calculateMatchScore Js.toLowerCase IsoDate.parse (clockMarch8 0)
                         tenderPlain profileOdd
     = Throw
  /\ calculateMatchScore Js.toLowerCase IsoDate.parse (clockMarch8 0)
                         tenderPlain profileRehab
     = Ok 60
  /\ hasMatch (user_tender_matches worldOdd) (lit "u-3") (lit "t-2") = false
  /\ matchTendersWithUsers Js.toLowerCase IsoDate.parse clockMarch8 noAnswer
                           [tenderPlain] worldOdd
     = (worldOdd, mkTally 0 []).
Proof. repeat split; vm_compute; reflexivity. Qed.

(** A pair that scores exactly 60 gets its match. *)
Example score_60_creates_match :
  calculateMatchScore Js.toLowerCase IsoDate.parse (clockMarch8 0)
                      tenderPlain profileRehab
  = Ok 60
  /\ List.map key
       (user_tender_matches
          (fst (matchTendersWithUsers Js.toLowerCase IsoDate.parse
                                      clockMarch8 noAnswer [tenderPlain]
                                      (mkWorld
                                         [Company.mk (lit "u-3") (lit "trial")
                                                     (lit "basic")]
                                         [profileRehab] [] 0))))
     = [(lit "u-3", lit "t-2")].
Proof. split; vm_compute; reflexivity. Qed.

(** With the user id [__proto__] the match is created and counted, and
    [matchesByUser] keeps no key for it. *)
Example proto_user_is_not_tallied :
  snd (matchTendersWithUsers Js.toLowerCase IsoDate.parse clockMarch8 noAnswer
                             [tenderPlain] worldProto)
  = mkTally 1 [].
Proof. vm_compute. reflexivity. Qed.

End MatchFacts.

(** ** The feed filters *)

Module PlacspFacts.

Import Placsp.

(** [a || b] is truthy or is [b]. *)
Lemma or_else_None (a : option value) :
  or_else a None = None \/ truthy (or_else a None) = true.
Proof.
  unfold or_else. destruct (truthy a) eqn:E; [right; exact E | left; reflexivity].
Qed.

(** [extractCPV] returns [null] or a truthy value, never the empty string. *)
Lemma extractCPV_truthy (entry : value) (code : value) :
  extractCPV entry = Some code -> truthy (Some code) = true.
Proof.
  unfold extractCPV.
  destruct (truthy (contractFolderOf entry)); simpl; [|discriminate].
  destruct (member (contractFolderOf entry) "cac:ProcurementProject")
    as [pp|]; simpl; [|discriminate].
  destruct (truthy pp); simpl; [|discriminate].
  destruct (member pp "cac:RequiredCommodityClassification") as [rc|];
    simpl; [|discriminate].
  destruct (truthy rc); simpl; [|discriminate].
  match goal with
  | |- catch (bind ?m _) _ = _ -> _ => destruct m as [ic|]
  end; simpl; [|discriminate].
  intros H. destruct (or_else_None (or_else (opt_member ic "_") ic)) as [E | E];
    rewrite H in E; [discriminate E | exact E].
Qed.

(** C7. [filterByConstruction] keeps an entry exactly when [extractCPV]
    returns a code (it is not [null]) whose string form starts with "45";
    an entry with no extractable code is never kept. *)
Theorem filterByConstruction_iff (entries : list value) (entry : value) :
  (In entry (filterByConstruction entries)
   <-> In entry entries
       /\ exists code text,
            extractCPV entry = Some code
            /\ js_toString code = Ok text
            /\ startsWith text (lit "45") = true)
  /\ (extractCPV entry = None
      -> ~ In entry (filterByConstruction entries)).
Proof.
  unfold filterByConstruction.
  assert (Hcase : isConstruction entry = true
                  <-> exists code text,
                        extractCPV entry = Some code
                        /\ js_toString code = Ok text
                        /\ startsWith text (lit "45") = true).
  { unfold isConstruction.
    destruct (extractCPV entry) as [code|] eqn:E.
    - rewrite (extractCPV_truthy entry code E). simpl.
      destruct (js_toString code) as [text|] eqn:T; simpl.
      + split.
        * intros H. exists code, text. auto.
        * intros [c [t [Hc [Ht Hs]]]]. congruence.
      + split; [discriminate|].
        intros [c [t [Hc [Ht Hs]]]]. congruence.
    - simpl. split; [discriminate|].
      intros [c [t [Hc _]]]. discriminate Hc. }
  split.
  - rewrite filter_In, Hcase. reflexivity.
  - intros Hnone Hin. apply filter_In in Hin. destruct Hin as [_ Hin].
    apply Hcase in Hin. destruct Hin as [c [t [Hc _]]]. congruence.
Qed.


(** Every name of the gazetteer, capitalised, is a non-empty string that
    [normalizeProvince] sends where it sends the name itself. *)
Lemma capitalize_provincias (provincia : jsstring) :
  In provincia provincias ->
  nonempty (capitalize provincia) = true
  /\ normalizeProvince (capitalize provincia) = normalizeProvince provincia.
Proof.
  intros Hin.
  assert (H : forallb
                (fun p => nonempty (capitalize p)
                          && eqb (normalizeProvince (capitalize p))
                                 (normalizeProvince p))
                provincias = true) by (vm_compute; reflexivity).
  rewrite forallb_forall in H. specialize (H provincia Hin).
  apply andb_true_iff in H. destruct H as [H1 H2].
  apply JsFacts.eqb_eq in H2. split; assumption.
Qed.

Lemma searchProvincias_Some (text provincia : jsstring) :
  searchProvincias text = Some provincia ->
  exists name,
    List.find (fun p => includes text p) provincias = Some name
    /\ In name provincias /\ includes text name = true
    /\ provincia = capitalize name.
Proof.
  unfold searchProvincias.
  destruct (List.find (fun p => includes text p) provincias) as [name|] eqn:E;
    simpl; [|discriminate].
  intros H. injection H as <-. exists name.
  apply find_some in E. tauto.
Qed.

Lemma metodo1_truthy (entry : value) (province : value) :
  metodo1 entry = Ok (Some province) -> truthy (Some province) = true.
Proof.
  unfold metodo1.
  destruct (truthy (contractFolderOf entry)); [|discriminate].
  destruct (member (contractFolderOf entry) "cac:ProcurementProject")
    as [pp|]; simpl; [|discriminate].
  destruct (truthy (opt_member pp "cac:RealizedLocation"));
    [|discriminate].
  match goal with
  | |- bind ?m _ = _ -> _ => destruct m as [address|]
  end; simpl; [|discriminate].
  match goal with
  | |- (if truthy ?x then _ else _) = _ -> _ =>
    destruct (truthy x) eqn:E; [|discriminate]
  end.
  intros H. injection H as H. rewrite H in E. exact E.
Qed.

(** [extractProvince] returns [null] or a truthy value. *)
Lemma extractProvince_truthy (entry : value) (province : value) :
  extractProvince entry = Some province -> truthy (Some province) = true.
Proof.
  unfold extractProvince.
  destruct (metodo1 entry) as [[v|]|] eqn:M1; simpl; [| |discriminate].
  - intros H. injection H as <-. exact (metodo1_truthy entry v M1).
  - destruct (entryText entry) as [text|]; simpl; [|discriminate].
    destruct (searchProvincias text) as [p|] eqn:S2; simpl.
    + intros H. injection H as <-.
      apply searchProvincias_Some in S2.
      destruct S2 as [name [_ [Hin [_ ->]]]].
      apply capitalize_provincias. exact Hin.
    + unfold metodo3.
      destruct (as_string (extractContractingBody (contractFolderOf entry)))
        as [body|]; simpl; [|discriminate].
      destruct (searchProvincias (toLowerCase body)) as [p|] eqn:S3; simpl;
        [|discriminate].
      intros H. injection H as <-.
      apply searchProvincias_Some in S3.
      destruct S3 as [name [_ [Hin [_ ->]]]].
      apply capitalize_provincias. exact Hin.
Qed.

Lemma inProvinces_iff (provincesLower : list jsstring) (entry : value) :
  inProvinces provincesLower entry = true
  <-> exists province,
        extractProvince entry = Some (VStr province)
        /\ In (normalizeProvince province) provincesLower.
Proof.
  unfold inProvinces.
  destruct (extractProvince entry) as [v|] eqn:E.
  - pose proof (extractProvince_truthy entry v E) as T.
    rewrite T. unfold normalizeProvinceOf. rewrite T. simpl.
    destruct v as [s | fields | items]; simpl.
    + rewrite JsFacts.arr_includes_In. split.
      * intros H. exists s. auto.
      * intros [p [Hp Hin]]. injection Hp as <-. exact Hin.
    + split; [discriminate | intros [p [Hp _]]; discriminate Hp].
    + split; [discriminate | intros [p [Hp _]]; discriminate Hp].
  - simpl. split; [discriminate | intros [p [Hp _]]; discriminate Hp].
Qed.

(** ** The DEBUG pass *)

Lemma joinWith_throws (sep : jsstring) (items : list value) :
  joinWith sep items = Throw
  <-> exists x, In x items /\ js_toString x = Throw.
Proof.
  induction items as [|x rest IH].
  - split; [discriminate | intros [x [[] _]]].
  - cbn [joinWith]. destruct rest as [|y rest'].
    + split.
      * intros H. exists x. split; [left; reflexivity | exact H].
      * intros [z [[<- | []] H]]. exact H.
    + destruct (js_toString x) as [sx|] eqn:Ex; cbn [bind].
      * destruct (joinWith sep (y :: rest')) as [r|] eqn:Er; cbn [bind].
        -- split; [discriminate|].
           intros [z [[<- | Hin] H]]; [congruence|].
           destruct IH as [_ IH].
           assert (T : Ok r = Throw) by (apply IH; exists z; auto).
           discriminate T.
        -- split; [intros _ | reflexivity].
           destruct IH as [IH _]. destruct (IH eq_refl) as [z [Hin H]].
           exists z. split; [right; exact Hin | exact H].
      * split; [intros _ | reflexivity].
        exists x. split; [left; reflexivity | exact Ex].
Qed.

Lemma addFound_In (found : list value) (province v : value) :
  In v (addFound found province) <-> In v found \/ v = province.
Proof.
  unfold addFound. destruct province as [s | fields | items];
    try (rewrite in_app_iff; simpl; intuition congruence).
  destruct (existsb _ found) eqn:E.
  - split; [auto|]. intros [H | ->]; [exact H|].
    apply existsb_exists in E. destruct E as [x [Hin Hx]].
    destruct x as [t | |]; try discriminate Hx.
    apply JsFacts.eqb_eq in Hx. subst t. exact Hin.
  - rewrite in_app_iff. simpl. intuition congruence.
Qed.

Lemma foundProvinces_In (entries : list value) (v : value) :
  In v (foundProvinces entries)
  <-> exists entry, In entry entries /\ extractProvince entry = Some v.
Proof.
  unfold foundProvinces.
  assert (G : forall found,
            In v (List.fold_left
                    (fun found entry =>
                       let province := extractProvince entry in
                       match province with
                       | Some x =>
                         if truthy province then addFound found x else found
                       | None => found
                       end)
                    entries found)
            <-> In v found
                \/ exists entry,
                     In entry entries /\ extractProvince entry = Some v).
  { induction entries as [|e es IH]; intros found; cbn [List.fold_left].
    - split; [auto | intros [H | [entry [[] _]]]; exact H].
    - rewrite IH. cbv zeta.
      destruct (extractProvince e) as [x|] eqn:E.
      + rewrite (extractProvince_truthy e x E), addFound_In. split.
        * intros [[H | ->] | [entry [Hin H]]]; auto.
          -- right. exists e. split; [left; reflexivity | exact E].
          -- right. exists entry. split; [right; exact Hin | exact H].
        * intros [H | [entry [[<- | Hin] H]]]; auto.
          -- left. right. congruence.
          -- right. exists entry. auto.
      + split.
        * intros [H | [entry [Hin H]]]; auto.
          right. exists entry. split; [right; exact Hin | exact H].
        * intros [H | [entry [[<- | Hin] H]]]; auto; [congruence|].
          right. exists entry. auto. }
  rewrite G. simpl. split; [intros [[] | H]; exact H | auto].
Qed.

(** The line of the DEBUG pass cannot be built exactly when the province
    of an entry has no string form. *)
Lemma debugLine_throws (entries : list value) :
  debugLine entries = Throw
  <-> exists entry province,
        In entry entries
        /\ extractProvince entry = Some province
        /\ js_toString province = Throw.
Proof.
  unfold debugLine. rewrite joinWith_throws. split.
  - intros [v [Hin H]]. apply foundProvinces_In in Hin.
    destruct Hin as [entry [Hin E]]. exists entry, v. auto.
  - intros [entry [v [Hin [E H]]]]. exists v. split; [|exact H].
    apply foundProvinces_In. exists entry. auto.
Qed.

Lemma filterByProvinces_throws (entries : list value)
  (provinces : list jsstring) :
  filterByProvinces entries provinces = Throw
  <-> debugLine entries = Throw.
Proof.
  unfold filterByProvinces. cbv zeta.
  destruct (debugLine entries); cbn [bind];
    split; try discriminate; reflexivity.
Qed.

Lemma filterByProvinces_Ok (entries kept : list value)
  (provinces : list jsstring) :
  filterByProvinces entries provinces = Ok kept ->
  kept = List.filter (inProvinces (List.map normalizeProvince provinces))
                     entries.
Proof.
  unfold filterByProvinces. cbv zeta.
  destruct (debugLine entries); cbn [bind]; [|discriminate].
  intros H. injection H as <-. reflexivity.
Qed.

(** C6.  The filter by provinces keeps nothing when the DEBUG pass before
    it cannot build its line: the second entry is in Madrid and the filter
    keeps it when it is alone; the province of the first entry is an
    element with a child named [toString], which has no string form, and
    with it in the feed the filter throws. *)
Theorem debug_pass_aborts_filter :
  extractProvince Samples.entryMadrid = Some (VStr (lit "Madrid"))
  /\ inProvinces [normalizeProvince (lit "Madrid")] Samples.entryMadrid
     = true
  /\ filterByProvinces [Samples.entryMadrid] [lit "Madrid"]
     = Ok [Samples.entryMadrid]
  /\ extractProvince Samples.entryToString
     = Some (VObj [("toString"%string, VStr (lit "Madrid"))])
  /\ js_toString (VObj [("toString"%string, VStr (lit "Madrid"))]) = Throw
  /\ filterByProvinces [Samples.entryToString; Samples.entryMadrid]
                       [lit "Madrid"]
     = Throw.
Proof. repeat split; vm_compute; reflexivity. Qed.

(** C5, as amended.  When the structured address yields nothing and the
    lower-cased text of title and summary includes a name of the gazetteer
    as it is written there, [extractProvince] returns a string: the first
    such name in the order of the gazetteer, capitalised; and
    [normalizeProvince] sends it where it sends that name.  The texts of
    the entry are in the range of the case tables. *)
Theorem extractProvince_gazetteer (entry : value) (text name : jsstring) :
  latin1Value entry = true ->
  metodo1 entry = Ok None ->
  entryText entry = Ok text ->
  In name provincias ->
  includes text name = true ->
  exists first,
    List.find (fun p => includes text p) provincias = Some first
    /\ extractProvince entry = Some (VStr (capitalize first))
    /\ normalizeProvince (capitalize first) = normalizeProvince first.
Proof.
  intros _ M1 T Hin Hinc.
  destruct (List.find (fun p => includes text p) provincias) as [first|]
    eqn:F.
  - exists first. split; [reflexivity|]. split.
    + unfold extractProvince. rewrite M1. simpl. rewrite T. simpl.
      unfold searchProvincias. rewrite F. reflexivity.
    + apply capitalize_provincias. apply find_some in F. tauto.
  - exfalso. pose proof (find_none _ _ F name Hin) as H. simpl in H.
    congruence.
Qed.

Lemma extractProvince_gazetteer_witness :
  extractProvince Samples.entryTwoProvinces = Some (VStr (lit "Almería"))
  /\ normalizeProvince (lit "Almería") = normalizeProvince (lit "almería").
Proof.
  destruct (extractProvince_gazetteer
              Samples.entryTwoProvinces
              (lit "obras en valencia y almería lote 2")
              (lit "valencia"))
    as [first [F [E N]]];
    try (vm_compute; reflexivity).
  - vm_compute. tauto.
  - vm_compute in F. injection F as <-. split; [exact E | exact N].
Defined.

(** C5, as stated, fails on an entry with no structured address whose
    title spells Almería without its accent: the text contains the name of
    the gazetteer once case and accents are folded, and [extractProvince]
    returns [null]. *)
Lemma extractProvince_misses_unaccented :
  In (lit "almería") provincias
  /\ entryText Samples.entryAlmeriaPlain
     = Ok (lit "reforma de pista deportiva en almeria ")
  /\ includes
       (normalizeProvince (lit "reforma de pista deportiva en almeria "))
       (normalizeProvince (lit "almería")) = true
  /\ extractProvince Samples.entryAlmeriaPlain = None.
Proof.
  split; [vm_compute; tauto|].
  repeat split; vm_compute; reflexivity.
Qed.

(** The structured address comes first: a region code there is returned
    as it is, whatever the title says. *)
Example structured_address_wins :
  extractProvince Samples.entryCoded = Some (VStr (lit "ES618"))
  /\ filterByProvinces [Samples.entryCoded] [lit "Madrid"] = Ok [].
Proof. split; vm_compute; reflexivity. Qed.

(** A province that is an element without text is an object, which
    [normalizeProvince] cannot lower-case: the filter drops the entry. *)
Example province_without_text_is_dropped :
  truthy (extractProvince Samples.entryNoText) = true
  /\ normalizeProvinceOf (extractProvince Samples.entryNoText) = Throw
  /\ filterByProvinces [Samples.entryNoText] [lit "Madrid"] = Ok [].
Proof. repeat split; vm_compute; reflexivity. Qed.

End PlacspFacts.

(** ** Reconciliation *)

Module SyncFacts.

Import Sync Samples.
Local Open Scope Z_scope.

(** More than 24 hours, on the milliseconds elapsed. *)
Lemma hours_gt_24 (elapsed : Z) :
  negb (Qle_bool (inject_Z elapsed / inject_Z (1000 * 60 * 60)) 24)
  = (24 * (1000 * 60 * 60) <? elapsed).
Proof.
  change (1000 * 60 * 60) with 3600000.
  assert (E : (inject_Z elapsed / inject_Z 3600000 == elapsed # 3600000)%Q).
  { unfold Qeq, Qdiv, Qmult, Qinv, inject_Z; simpl. lia. }
  destruct (Z.ltb_spec (24 * 3600000) elapsed) as [H | H].
  - apply negb_true_iff.
    destruct (Qle_bool (inject_Z elapsed / inject_Z 3600000) 24) eqn:Q;
      [|reflexivity].
    apply Qle_bool_iff in Q. rewrite E in Q. unfold Qle in Q. simpl in Q. lia.
  - apply negb_false_iff. apply Qle_bool_iff. rewrite E.
    unfold Qle. simpl. lia.
Qed.

Lemma single_In (A : Type) (rows : list A) (row : A) :
  Matching.single rows = Some row -> In row rows.
Proof.
  destruct rows as [|r [|r' rows]]; simpl; try discriminate.
  intros H. injection H as ->. left. reflexivity.
Qed.

Lemma update_In (tenderData : TenderData.t) (existing : Row.t)
  (rows : list Row.t) :
  In existing rows ->
  In (Row.mk (Row.id existing) (Row.updated_at existing) tenderData)
     (update tenderData (Row.id existing) rows).
Proof.
  intros Hin. unfold update. apply in_map_iff. exists existing.
  rewrite Nat.eqb_refl. split; [reflexivity | exact Hin].
Qed.

Lemma transformTenderData_tenders (clock : nat -> Z) (tender : Fetched.t)
  (s : Store) :
  tenders (snd (transformTenderData clock tender s)) = tenders s.
Proof.
  unfold transformTenderData.
  destruct (orStr (Fetched.published tender) (Fetched.updated tender));
    reflexivity.
Qed.

Lemma transformTenderData_title (clock : nat -> Z) (tender : Fetched.t)
  (s : Store) :
  TenderData.title (fst (transformTenderData clock tender s))
  = orDefault (Fetched.title tender) (lit "Sin título").
Proof.
  unfold transformTenderData.
  destruct (orStr (Fetched.published tender) (Fetched.updated tender));
    reflexivity.
Qed.

(** C4, as amended.  When exactly one stored row has the external id of
    the tender being processed, the row is updated if its [updated_at] is
    strictly more than 24 hours before the reading of [Date.now()], and
    then it holds the new data, the new title among them; at 24 hours or
    less, or with an unreadable [updated_at], the table of tenders is left
    as it was. *)
Theorem reconcile_existing
  (Date_parse : jsstring -> option Z) (clock : nat -> Z)
  (db_default : nat -> nat * jsstring)
  (s : Store) (out : Outcome) (tender : Fetched.t) (existing : Row.t) :
  Matching.single
    (List.filter
       (hasExternalId
          (orStr (Fetched.contract_folder_id tender) (Fetched.id tender)))
       (tenders s)) = Some existing ->
  let tenderData := fst (transformTenderData clock tender s) in
  let now := clock (ticks (snd (transformTenderData clock tender s))) in
  let st' := processTender Date_parse clock db_default (s, out) tender in
  shouldUpdate Date_parse now existing tender
  = match Date_parse (Row.updated_at existing) with
    | Some existingDate => 24 * (1000 * 60 * 60) <? now - existingDate
    | None => false
    end
  /\ (shouldUpdate Date_parse now existing tender = false ->
      tenders (fst st') = tenders s
      /\ updatedTenders (snd st') = updatedTenders out)
  /\ (shouldUpdate Date_parse now existing tender = true ->
      tenders (fst st') = update tenderData (Row.id existing) (tenders s)
      /\ In (Row.mk (Row.id existing) (Row.updated_at existing) tenderData)
            (tenders (fst st'))
      /\ TenderData.title tenderData
         = orDefault (Fetched.title tender) (lit "Sin título")
      /\ updatedTenders (snd st') = updatedTenders out ++ [tenderData]).
Proof.
  intros Hone tenderData now st'.
  pose proof (transformTenderData_tenders clock tender s) as Hs1.
  pose proof (transformTenderData_title clock tender s) as Htitle.
  fold tenderData in Htitle.
  split; [|split].
  - unfold shouldUpdate.
    destruct (Date_parse (Row.updated_at existing)) as [d|]; [|reflexivity].
    apply hours_gt_24.
  - intros Hno. subst st'. unfold processTender. rewrite Hone.
    subst tenderData now.
    destruct (transformTenderData clock tender s) as [td s1].
    cbn [fst snd] in *. rewrite Hno.
    cbn [fst snd tenders tick saveRawTender]. rewrite Hs1.
    split; reflexivity.
  - intros Hyes. subst st'. unfold processTender. rewrite Hone.
    assert (Hin : In existing (tenders s)).
    { apply single_In in Hone. apply filter_In in Hone. tauto. }
    subst tenderData now.
    destruct (transformTenderData clock tender s) as [td s1].
    cbn [fst snd] in *. rewrite Hyes.
    cbn [fst snd tenders tick saveRawTender updatedTenders]. rewrite Hs1.
    repeat split; try reflexivity; try exact Htitle.
    apply update_In. exact Hin.
Qed.

(** The theorem at work: the stored row is 24 hours and one millisecond
    old, and processing the tender again replaces its title. *)
Lemma reconcile_existing_witness :
  tenders (fst (processTender IsoDate.parse clockMarch8Later dbDefault
                              (storeOneDayOld, mkOutcome [] [] [])
                              fetchedAgain))
  = update (fst (transformTenderData clockMarch8Later fetchedAgain
                                     storeOneDayOld))
           1%nat [storedRow]
  /\ TenderData.title
       (fst (transformTenderData clockMarch8Later fetchedAgain
                                 storeOneDayOld))
     = lit "Reforma del mercado municipal (modificado)".
Proof.
  assert (Hone : Matching.single
                   (List.filter
                      (hasExternalId
                         (orStr (Fetched.contract_folder_id fetchedAgain)
                                (Fetched.id fetchedAgain)))
                      (tenders storeOneDayOld)) = Some storedRow)
    by (vm_compute; reflexivity).
  pose proof (reconcile_existing IsoDate.parse clockMarch8Later dbDefault
                storeOneDayOld (mkOutcome [] [] []) fetchedAgain storedRow
                Hone) as H.
  cbv zeta in H. destruct H as [_ [_ H]].
  destruct H as [H1 [_ [H2 _]]]; [vm_compute; reflexivity|].
  split; [rewrite H1 | rewrite H2]; vm_compute; reflexivity.
Defined.

(** C4, as stated, fails at the boundary: the stored row is exactly 24
    hours old, the tender comes again with a changed title, and the table
    is left as it was, old title included. *)
Lemma no_update_at_exactly_24_hours :
  IsoDate.parse (Row.updated_at storedRow)
  = Some (clockMarch8 1%nat - 24 * (1000 * 60 * 60))
  /\ Matching.single
       (List.filter
          (hasExternalId
             (orStr (Fetched.contract_folder_id fetchedAgain)
                    (Fetched.id fetchedAgain)))
          (tenders storeOneDayOld)) = Some storedRow
  /\ Fetched.title fetchedAgain
     <> Some (TenderData.title (Row.data storedRow))
  /\ shouldUpdate IsoDate.parse (clockMarch8 1%nat) storedRow fetchedAgain
     = false
  /\ tenders (fst (processTender IsoDate.parse clockMarch8 dbDefault
                                 (storeOneDayOld, mkOutcome [] [] [])
                                 fetchedAgain))
     = [storedRow].
Proof.
  split; [vm_compute; reflexivity|].
  split; [vm_compute; reflexivity|].
  split; [vm_compute; discriminate|].
  split; vm_compute; reflexivity.
Qed.

End SyncFacts.

(* ================================================================== *)
(** * Further properties *)
(* ================================================================== *)

(** ** From the feed to the tenders *)

Module TransformFacts.

Import Placsp Transform.

Lemma isConstruction_iff (entry : value) :
  isConstruction entry = true
  <-> exists code text,
        extractCPV entry = Some code
        /\ js_toString code = Ok text
        /\ startsWith text (lit "45") = true.
Proof.
  unfold isConstruction.
  destruct (extractCPV entry) as [code|] eqn:E.
  - rewrite (PlacspFacts.extractCPV_truthy entry code E). simpl.
    destruct (js_toString code) as [text|] eqn:T; simpl.
    + split.
      * intros H. exists code, text. auto.
      * intros [c [t [Hc [Ht Hs]]]]. congruence.
    + split; [discriminate|].
      intros [c [t [Hc [Ht Hs]]]]. congruence.
  - simpl. split; [discriminate|].
    intros [c [t [Hc _]]]. discriminate Hc.
Qed.

Lemma or_default_truthy (a : option value) (d : value) :
  truthy (Some d) = true -> truthy (Some (or_default a d)) = true.
Proof.
  intros Hd. unfold or_default. destruct a as [v|]; [|exact Hd].
  destruct (truthy (Some v)) eqn:E; [exact E | exact Hd].
Qed.

Lemma extractContractingBody_truthy (contractFolder : option value) :
  truthy (Some (extractContractingBody contractFolder)) = true.
Proof.
  unfold extractContractingBody.
  destruct (member contractFolder "cac:LocatedContractingParty") as [l|];
    simpl; [|reflexivity].
  apply or_default_truthy. reflexivity.
Qed.

Lemma extractStatus_truthy (contractFolder : option value) :
  truthy (Some (extractStatus contractFolder)) = true.
Proof.
  unfold extractStatus.
  destruct (member contractFolder "cbc:ContractFolderStatusCode") as [c|];
    simpl; [|reflexivity].
  apply or_default_truthy. reflexivity.
Qed.

Section Numbers.

Variable number : Type.
Variable parseFloat : jsstring -> number.

Local Abbreviation transformEntry := (transformEntry parseFloat).
Local Abbreviation pipeline := (getConstructionTendersByProvinces parseFloat).

Lemma raw_xml_notNull (entries : list value) :
  List.map (@raw_xml number) (notNull (List.map transformEntry entries))
  = entries.
Proof.
  induction entries as [|e es IH]; [reflexivity|].
  cbn [List.map]. unfold Transform.transformEntry at 1.
  cbn [catch notNull List.map raw_xml]. rewrite IH. reflexivity.
Qed.

Lemma In_notNull (A : Type) (l : list (option A)) (x : A) :
  In x (notNull l) <-> In (Some x) l.
Proof.
  induction l as [|[y|] l IH]; simpl.
  - tauto.
  - rewrite IH. split; intros [H | H]; auto; left; congruence.
  - rewrite IH. split; [auto | intros [H | H]; [discriminate | exact H]].
Qed.

(** X1. [transformEntry] never returns [null]: no step of it can throw.
    The tender keeps the entry, carries what [extractCPV] and
    [extractProvince] return for it, and its title, contracting body and
    status are never empty nor missing. *)
Theorem transformEntry_never_null (entry : value) :
  exists tender,
    transformEntry entry = Some tender
    /\ raw_xml tender = entry
    /\ cpv_code tender = extractCPV entry
    /\ province tender = extractProvince entry
    /\ truthy (Some (title tender)) = true
    /\ truthy (Some (contracting_body tender)) = true
    /\ truthy (Some (status tender)) = true.
Proof.
  eexists. split; [reflexivity|]. cbn [raw_xml cpv_code province title
    contracting_body status].
  repeat split.
  - apply or_default_truthy. reflexivity.
  - apply extractContractingBody_truthy.
  - apply extractStatus_truthy.
Qed.

(** X2. With provinces to look for and a feed that was fetched,
    [getConstructionTendersByProvinces] throws exactly when, among the
    entries of construction of the first 500, one has a province with no
    string form, which the DEBUG pass of the filter cannot log.  Otherwise
    it returns exactly the transformed entries, among the first 500 of the
    feed, whose CPV code has a string form that starts with "45" and whose
    province normalises into the normalised provinces; it returns one
    tender for each of them, in the order of the feed.  The texts of the
    feed and the provinces are in the range of the case tables. *)
Theorem pipeline_keeps_construction_in_provinces
  (allEntries : list value) (p : jsstring) (ps : list jsstring) :
  Forall (fun entry => latin1Value entry = true) allEntries ->
  Forall (fun province => latin1 province = true) (p :: ps) ->
  let considered :=
    filterByConstruction (firstn maxEntriesToProcess allEntries) in
  (pipeline (Ok allEntries) (Some (p :: ps)) = Throw
   <-> exists entry province,
         In entry considered
         /\ extractProvince entry = Some province
         /\ js_toString province = Throw)
  /\ forall tenders,
       pipeline (Ok allEntries) (Some (p :: ps)) = Ok tenders ->
       List.map (@raw_xml number) tenders
       = List.filter (inProvinces (List.map normalizeProvince (p :: ps)))
                     considered
       /\ forall tender,
            In tender tenders
            <-> exists entry code text name,
                  In entry (firstn maxEntriesToProcess allEntries)
                  /\ extractCPV entry = Some code
                  /\ js_toString code = Ok text
                  /\ startsWith text (lit "45") = true
                  /\ extractProvince entry = Some (VStr name)
                  /\ In (normalizeProvince name)
                        (List.map normalizeProvince (p :: ps))
                  /\ transformEntry entry = Some tender.
Proof.
  intros _ _ considered.
  unfold getConstructionTendersByProvinces. cbn [bind]. fold considered.
  split.
  - rewrite <- PlacspFacts.debugLine_throws,
            <- (PlacspFacts.filterByProvinces_throws considered (p :: ps)).
    destruct (filterByProvinces considered (p :: ps)); cbn [bind];
      split; try discriminate; reflexivity.
  - intros tenders.
    destruct (filterByProvinces considered (p :: ps)) as [kept|] eqn:E;
      cbn [bind]; [|discriminate].
    apply PlacspFacts.filterByProvinces_Ok in E. subst kept.
    intros H. injection H as <-. split.
    + apply raw_xml_notNull.
    + intros tender. rewrite In_notNull, in_map_iff. split.
      * intros [entry [Ht Hin]].
        apply filter_In in Hin. destruct Hin as [Hin Hp].
        unfold considered, filterByConstruction in Hin.
        apply filter_In in Hin. destruct Hin as [Hin Hc].
        apply isConstruction_iff in Hc.
        destruct Hc as [code [text [Hc [Ht' Hs]]]].
        apply PlacspFacts.inProvinces_iff in Hp.
        destruct Hp as [name [Hn Hm]].
        exists entry, code, text, name. repeat split; assumption.
      * intros [entry [code [text [name [Hin [Hc [Ht [Hs [Hn [Hm Htr]]]]]]]]]].
        exists entry. split; [exact Htr|].
        apply filter_In. split.
        -- unfold considered, filterByConstruction. apply filter_In.
           split; [exact Hin|].
           apply isConstruction_iff. exists code, text. auto.
        -- apply PlacspFacts.inProvinces_iff. exists name. auto.
Qed.

(** X3. Only the first 500 entries of the feed count: the outcome on a
    feed is the outcome on its first 500 entries, and a result has at most
    500 tenders.  With no provinces ([null] or an empty array) the result
    is empty and the feed is not asked for, failed or not; with provinces,
    a failed feed is thrown on. *)
Theorem pipeline_cap_and_edges
  (feed : result (list value)) (allEntries : list value)
  (userProvinces : option (list jsstring)) (p : jsstring)
  (ps : list jsstring) :
  pipeline (Ok allEntries) userProvinces
  = pipeline (Ok (firstn maxEntriesToProcess allEntries)) userProvinces
  /\ (forall tenders,
        pipeline (Ok allEntries) userProvinces = Ok tenders ->
        (List.length tenders <= 500)%nat)
  /\ pipeline feed None = Ok []
  /\ pipeline feed (Some []) = Ok []
  /\ pipeline Throw (Some (p :: ps)) = Throw.
Proof.
  split; [|split; [|repeat split]].
  - unfold getConstructionTendersByProvinces.
    destruct userProvinces as [[|q qs]|]; try reflexivity.
    cbn [bind]. rewrite firstn_firstn, Nat.min_id. reflexivity.
  - intros tenders.
    destruct userProvinces as [[|q qs]|];
      try (intros H; injection H as <-; simpl; lia).
    unfold getConstructionTendersByProvinces. cbn [bind].
    destruct (filterByProvinces _ (q :: qs)) as [kept|] eqn:E;
      cbn [bind]; [|discriminate].
    apply PlacspFacts.filterByProvinces_Ok in E. subst kept.
    intros H. injection H as <-.
    rewrite <- (length_map (@raw_xml number)), raw_xml_notNull.
    unfold filterByConstruction.
    eapply Nat.le_trans; [apply filter_length_le|].
    eapply Nat.le_trans; [apply filter_length_le|].
    exact (firstn_le_length maxEntriesToProcess allEntries).
Qed.

(** X4. An entry without a contract folder is still transformed, with
    the defaults of every field read from the folder: no folder id, no CPV
    code, no budget, no deadline, an empty description, the contracting
    body "No especificado" and the status "PUB".  Such an entry never
    passes the construction filter. *)
Theorem transformEntry_without_folder (entry : value) :
  truthy (contractFolderOf entry) = false ->
  exists tender,
    transformEntry entry = Some tender
    /\ contract_folder_id tender = None
    /\ cpv_code tender = None
    /\ budget tender = None
    /\ deadline tender = None
    /\ description tender = VStr []
    /\ contracting_body tender = VStr (lit "No especificado")
    /\ status tender = VStr (lit "PUB")
    /\ isConstruction entry = false.
Proof.
  intros H.
  assert (Hc : extractCPV entry = None).
  { unfold extractCPV. cbv zeta. rewrite H. reflexivity. }
  unfold Transform.transformEntry, isConstruction. cbv zeta. rewrite Hc.
  destruct (contractFolderOf entry) as [[[|c s]|fields|items]|];
    try discriminate H;
    (eexists; split; [reflexivity|]; repeat split).
Qed.

End Numbers.

Lemma pipeline_keeps_construction_in_provinces_witness :
  exists tenders,
    getConstructionTendersByProvinces
      (fun text : jsstring => text) (Ok [Samples.entryMadrid])
      (Some [lit "Madrid"]) = Ok tenders
    /\ List.map (@raw_xml jsstring) tenders = [Samples.entryMadrid].
Proof.
  assert (He : Forall (fun entry => latin1Value entry = true)
                      [Samples.entryMadrid])
    by (repeat constructor).
  assert (Hp : Forall (fun province => latin1 province = true)
                      [lit "Madrid"])
    by (repeat constructor).
  destruct (pipeline_keeps_construction_in_provinces
              jsstring (fun text => text) [Samples.entryMadrid]
              (lit "Madrid") [] He Hp) as [_ H].
  destruct (getConstructionTendersByProvinces
              (fun text : jsstring => text) (Ok [Samples.entryMadrid])
              (Some [lit "Madrid"])) as [tenders|] eqn:E.
  - exists tenders. split; [reflexivity|].
    destruct (H tenders eq_refl) as [R _]. rewrite R.
    vm_compute. reflexivity.
  - exfalso. vm_compute in E. discriminate E.
Defined.

Lemma transformEntry_without_folder_witness :
  exists tender,
    Transform.transformEntry (fun text : jsstring => text)
                             Samples.entryAlmeriaPlain = Some tender
    /\ cpv_code tender = None
    /\ status tender = VStr (lit "PUB").
Proof.
  destruct (transformEntry_without_folder
              jsstring (fun text => text) Samples.entryAlmeriaPlain
              ltac:(vm_compute; reflexivity))
    as [tender [H [_ [Hc [_ [_ [_ [_ [Hs _]]]]]]]]].
  exists tender. auto.
Defined.

(** X5. The shapes of the parsed feed: with no [feed], no [entry] or an
    empty [entry] element there are no entries; a single entry is wrapped
    in an array; several entries are the array itself; a document that is
    [null] makes [getFeed] throw, and no other document does. *)
Theorem getFeedEntries_shapes
  (parsed : value) (rest : list (string * value))
  (fields : list (string * value)) (s : jsstring) (items : list value) :
  (exists entries, getFeedEntries (Some parsed) = Ok entries)
  /\ (prop parsed "feed" = None -> getFeedEntries (Some parsed) = Ok [])
  /\ getFeedEntries (Some (VObj [("feed"%string, VObj [])])) = Ok []
  /\ getFeedEntries
       (Some (VObj [("feed"%string, VObj [("entry"%string, VStr [])])]))
     = Ok []
  /\ getFeedEntries
       (Some (VObj [("feed"%string,
                     VObj (("entry"%string, VObj fields) :: rest))]))
     = Ok [VObj fields]
  /\ getFeedEntries
       (Some (VObj [("feed"%string,
                     VObj (("entry"%string, VArr items) :: rest))]))
     = Ok items
  /\ getFeedEntries None = Throw.
Proof.
  split; [|repeat split].
  - unfold getFeedEntries. cbn [member bind]. eexists. reflexivity.
  - intros H. unfold getFeedEntries. simpl. rewrite H. reflexivity.
Qed.

End TransformFacts.

(** ** The provinces of the users *)

Module ProvincesFacts.

Import Matching Provinces Invariants.

Lemma add_In (x y : jsstring) (provinces : list jsstring) :
  In y (add x provinces) <-> In y provinces \/ y = x.
Proof.
  unfold add. destruct (arr_includes provinces x) eqn:E.
  - apply JsFacts.arr_includes_In in E. split; [auto|].
    intros [H | ->]; assumption.
  - rewrite in_app_iff. simpl.
    split; [intros [H | [<- | []]]; auto | intros [H | ->]; auto].
Qed.

Lemma add_clean (x : jsstring) (provinces : list jsstring) :
  nonempty x = true -> clean provinces -> clean (add x provinces).
Proof.
  intros Hx [Hn Hf]. unfold add.
  destruct (arr_includes provinces x) eqn:E; [split; assumption|].
  split.
  - apply NoDup_app; [exact Hn | repeat constructor; simpl; tauto |].
    intros y Hy [<- | []].
    apply JsFacts.arr_includes_In in Hy. congruence.
  - apply Forall_app. split; [exact Hf | repeat constructor; exact Hx].
Qed.

Lemma locations_In (locations : list jsstring) (y : jsstring) :
  forall provinces,
    In y (List.fold_left
            (fun provinces location =>
               if nonempty location then add location provinces
               else provinces)
            locations provinces)
    <-> In y provinces \/ (nonempty y = true /\ In y locations).
Proof.
  induction locations as [|l ls IH]; intros provinces; simpl.
  - tauto.
  - rewrite IH. destruct (nonempty l) eqn:E.
    + rewrite add_In. split.
      * intros [[H | ->] | [Hy H]]; auto.
      * intros [H | [Hy [-> | H]]]; auto.
    + split.
      * intros [H | [Hy H]]; auto.
      * intros [H | [Hy [-> | H]]]; auto. congruence.
Qed.

Lemma locations_clean (locations : list jsstring) :
  forall provinces,
    clean provinces ->
    clean (List.fold_left
             (fun provinces location =>
                if nonempty location then add location provinces
                else provinces)
             locations provinces).
Proof.
  induction locations as [|l ls IH]; intros provinces H; simpl;
    [exact H|].
  apply IH. destruct (nonempty l) eqn:E; [apply add_clean|]; assumption.
Qed.

Lemma preferred_In (provinces : list jsstring) (profile : Profile.t)
  (y : jsstring) :
  In y match str (Profile.preferred_province profile) with
       | Some preferred => add preferred provinces
       | None => provinces
       end
  <-> In y provinces
      \/ (nonempty y = true
          /\ match Profile.preferred_province profile with
             | Some preferred => eqb preferred y
             | None => false
             end = true).
Proof.
  unfold str. destruct (Profile.preferred_province profile) as [s|].
  - destruct (nonempty s) eqn:E.
    + rewrite add_In, JsFacts.eqb_eq.
      split; [intros [H | ->]; auto | intros [H | [_ ->]]; auto].
    + rewrite JsFacts.eqb_eq. split; [auto|].
      intros [H | [Hy ->]]; [exact H | congruence].
  - split; [auto | intros [H | [_ H]]; [exact H | discriminate]].
Qed.

(** A truthy province that a profile names is what [hasProvince] tests. *)
Lemma collect_In (provinces : list jsstring) (profile : Profile.t)
  (y : jsstring) :
  In y (collect provinces profile)
  <-> In y provinces \/ (nonempty y = true /\ hasProvince y profile = true).
Proof.
  unfold collect, hasProvince.
  destruct (Profile.locations profile) as [locations|].
  - rewrite locations_In, preferred_In, orb_true_iff,
      JsFacts.arr_includes_In. tauto.
  - rewrite preferred_In, orb_false_r. reflexivity.
Qed.

Lemma collect_clean (provinces : list jsstring) (profile : Profile.t) :
  clean provinces -> clean (collect provinces profile).
Proof.
  intros H. unfold collect.
  assert (H' : clean match str (Profile.preferred_province profile) with
                     | Some preferred => add preferred provinces
                     | None => provinces
                     end).
  { unfold str. destruct (Profile.preferred_province profile) as [s|];
      [|exact H].
    destruct (nonempty s) eqn:E; [apply add_clean|]; assumption. }
  destruct (Profile.locations profile); [apply locations_clean|]; exact H'.
Qed.

Lemma fold_collect_In (profiles : list Profile.t) (y : jsstring) :
  forall provinces,
    In y (List.fold_left collect profiles provinces)
    <-> In y provinces
        \/ (nonempty y = true
            /\ exists profile,
                 In profile profiles /\ hasProvince y profile = true).
Proof.
  induction profiles as [|p ps IH]; intros provinces; simpl.
  - split; [auto | intros [H | [_ [q [[] _]]]]; exact H].
  - rewrite IH, collect_In. split.
    + intros [[H | [Hy H]] | [Hy [q [Hq H]]]]; auto.
      * right. split; [exact Hy|]. exists p. auto.
      * right. split; [exact Hy|]. exists q. auto.
    + intros [H | [Hy [q [[<- | Hq] H]]]]; auto.
      right. split; [exact Hy|]. exists q. auto.
Qed.

Lemma fold_collect_clean (profiles : list Profile.t) :
  forall provinces,
    clean provinces -> clean (List.fold_left collect profiles provinces).
Proof.
  induction profiles as [|p ps IH]; intros provinces H; simpl; [exact H|].
  apply IH. apply collect_clean. exact H.
Qed.

(** The profiles that both functions read: completed, of a user with a
    company on trial or active. *)
Lemma eligible_iff (w : World) (profile : Profile.t) :
  In profile
     (List.filter
        (fun p =>
           arr_includes
             (List.map Company.user_id (List.filter subscribed (companies w)))
             (Profile.user_id p)
           && Profile.onboarding_completed p)
        (user_profiles w))
  <-> In profile (user_profiles w)
      /\ Profile.onboarding_completed profile = true
      /\ exists company,
           In company (companies w) /\ subscribed company = true
           /\ Company.user_id company = Profile.user_id profile.
Proof.
  rewrite filter_In, andb_true_iff, JsFacts.arr_includes_In, in_map_iff.
  split.
  - intros [Hin [[c [Hc Hf]] Ho]]. apply filter_In in Hf.
    repeat split; try assumption. exists c. tauto.
  - intros [Hin [Ho [c [Hc [Hs Hu]]]]]. repeat split; try assumption.
    exists c. split; [exact Hu|]. apply filter_In. auto.
Qed.

(** X6. [getUserProvinces] returns each province once and never an empty
    string; a province is returned exactly when it is not empty and is the
    preferred province, or one of the locations, of a profile with
    onboarding completed whose user has a company on trial or active. *)
Theorem getUserProvinces_members (w : World) (province : jsstring) :
  NoDup (getUserProvinces w)
  /\ Forall (fun p => nonempty p = true) (getUserProvinces w)
  /\ (In province (getUserProvinces w)
      <-> nonempty province = true
          /\ exists profile company,
               In profile (user_profiles w)
               /\ Profile.onboarding_completed profile = true
               /\ In company (companies w)
               /\ subscribed company = true
               /\ Company.user_id company = Profile.user_id profile
               /\ hasProvince province profile = true).
Proof.
  assert (Hclean : clean (getUserProvinces w)).
  { unfold getUserProvinces.
    destruct (List.filter subscribed (companies w));
      [split; constructor|].
    match goal with
    | |- clean match ?l with _ => _ end => destruct l eqn:E
    end; [split; constructor|].
    apply fold_collect_clean. split; constructor. }
  destruct Hclean as [Hn Hf]. split; [exact Hn|]. split; [exact Hf|].
  unfold getUserProvinces.
  pose proof (eligible_iff w) as Hel.
  destruct (List.filter subscribed (companies w)) as [|c cs] eqn:A.
  - simpl. split; [intros []|].
    intros [_ [profile [company [_ [_ [Hc [Hs _]]]]]]].
    assert (In company (List.filter subscribed (companies w)))
      by (apply filter_In; auto).
    rewrite A in H. exact H.
  - match goal with
    | |- In _ match ?l with _ => _ end <-> _ =>
      set (profiles := l) in *
    end.
    assert (Hfold : In province (List.fold_left collect profiles [])
                    <-> In province match profiles with
                                    | [] => []
                                    | _ :: _ =>
                                      List.fold_left collect profiles []
                                    end)
      by (destruct profiles; simpl; tauto).
    rewrite <- Hfold, fold_collect_In. simpl. split.
    + intros [[] | [Hy [profile [Hin Hp]]]]. split; [exact Hy|].
      apply Hel in Hin. destruct Hin as [Hin [Ho [company [Hc [Hs Hu]]]]].
      exists profile, company. repeat split; assumption.
    + intros [Hy [profile [company [Hin [Ho [Hc [Hs [Hu Hp]]]]]]]].
      right. split; [exact Hy|]. exists profile. split; [|exact Hp].
      apply Hel. repeat split; try assumption. exists company. auto.
Qed.

(** X7. [getUserProvinces] returns exactly the provinces, not empty, for
    which [getUsersByProvince], asked with that very string, finds at least
    one user. *)
Theorem getUserProvinces_have_candidates (w : World) (province : jsstring) :
  In province (getUserProvinces w)
  <-> nonempty province = true /\ getUsersByProvince w province <> [].
Proof.
  unfold getUserProvinces, getUsersByProvince.
  destruct (List.filter subscribed (companies w)) as [|c cs] eqn:A.
  - simpl. split; [intros [] | intros [_ H]; congruence].
  - match goal with
    | |- In _ match ?l with _ => _ end <-> _ =>
      set (profiles := l) in *
    end.
    assert (Hfold : In province (List.fold_left collect profiles [])
                    <-> In province match profiles with
                                    | [] => []
                                    | _ :: _ =>
                                      List.fold_left collect profiles []
                                    end)
      by (destruct profiles; simpl; tauto).
    rewrite <- Hfold, fold_collect_In. simpl. split.
    + intros [[] | [Hy [profile [Hin Hp]]]]. split; [exact Hy|].
      intros E. apply map_eq_nil in E.
      assert (In profile (List.filter (hasProvince province) profiles))
        by (apply filter_In; auto).
      rewrite E in H. exact H.
    + intros [Hy Hne]. right. split; [exact Hy|].
      destruct (List.filter (hasProvince province) profiles) as [|q qs] eqn:F;
        [exfalso; apply Hne; reflexivity|].
      exists q.
      assert (In q (List.filter (hasProvince province) profiles))
        by (rewrite F; left; reflexivity).
      apply filter_In in H. exact H.
Qed.

(** The feed is filtered by the normal form of these provinces, the
    candidates are found by the very string: a subscriber who wrote Almeria
    has the tenders of Almería fetched, and is no candidate for them. *)
Example accent_parts_feed_and_candidates :
  getUserProvinces Samples.worldAlmeria = [lit "Almeria"]
  /\ Placsp.extractProvince Samples.entryAlmeria
     = Some (VStr (lit "Almería"))
  /\ Placsp.filterByProvinces [Samples.entryAlmeria]
                              (getUserProvinces Samples.worldAlmeria)
     = Ok [Samples.entryAlmeria]
  /\ getUsersByProvince Samples.worldAlmeria (lit "Almería") = [].
Proof. repeat split; vm_compute; reflexivity. Qed.

End ProvincesFacts.

(** ** Candidates and the run of the matching *)

Module RunFacts.

Import Matching Invariants.
Local Open Scope Z_scope.

(** X8. Every user that [getUsersByProvince] returns comes from a profile
    of the table with onboarding completed, and carries the subscription
    status of a company of that user, which is trial or active: no user is
    returned without one. *)
Theorem getUsersByProvince_subscribed (w : World) (province : jsstring)
  (user : User.t) :
  In user (getUsersByProvince w province) ->
  In (User.profile user) (user_profiles w)
  /\ Profile.onboarding_completed (User.profile user) = true
  /\ exists company,
       In company (companies w)
       /\ Company.user_id company = Profile.user_id (User.profile user)
       /\ User.subscription_status user
          = Some (Company.subscription_status company)
       /\ User.subscription_tier user
          = Some (Company.subscription_tier company)
       /\ (Company.subscription_status company = lit "trial"
           \/ Company.subscription_status company = lit "active").
Proof.
  intros Hin.
  destruct (CandidateFacts.getUsersByProvince_hasProvince w province user Hin)
    as [Hp [Hprof Hon]].
  split; [exact Hprof|]. split; [exact Hon|].
  unfold getUsersByProvince in Hin.
  destruct (List.filter subscribed (companies w)) as [|c cs] eqn:A;
    [destruct Hin|].
  apply in_map_iff in Hin. destruct Hin as [profile [<- Hin]].
  cbn [User.profile User.subscription_status User.subscription_tier].
  pose proof Hin as Hin'.
  apply filter_In in Hin'. destruct Hin' as [Hel _].
  apply filter_In in Hel. destruct Hel as [_ Hel].
  apply andb_true_iff in Hel. destruct Hel as [Hid _].
  apply JsFacts.arr_includes_In in Hid. apply in_map_iff in Hid.
  destruct Hid as [c0 [Hu Hc0]]. rewrite <- A in Hc0.
  apply filter_In in Hc0. destruct Hc0 as [Hc0 Hs0].
  match goal with
  | |- context [List.find ?f ?l] => destruct (List.find f l) as [c1|] eqn:F
  end.
  - apply find_some in F. destruct F as [Hc1 Hu1].
    apply JsFacts.eqb_eq in Hu1. apply filter_In in Hc1.
    destruct Hc1 as [Hc1 Hs1]. apply andb_true_iff in Hs1.
    destruct Hs1 as [_ Hs1].
    exists c1. repeat split; try assumption.
    unfold subscribed in Hs1. apply JsFacts.arr_includes_In in Hs1.
    simpl in Hs1. destruct Hs1 as [H | [H | []]]; auto.
  - exfalso.
    match type of F with
    | List.find ?f ?l = None =>
      assert (Hc : In c0 l)
    end.
    { apply filter_In. split; [exact Hc0|].
      apply andb_true_iff. split; [|exact Hs0].
      apply JsFacts.arr_includes_In. apply in_map_iff.
      exists profile. split; [symmetry; exact Hu | exact Hin]. }
    pose proof (find_none _ _ F c0 Hc) as H. simpl in H.
    rewrite Hu, JsFacts.eqb_refl in H. discriminate H.
Qed.

Lemma getUsersByProvince_subscribed_witness :
  In Samples.userMadrid
     (getUsersByProvince Samples.worldFresh (lit "Madrid"))
  /\ exists company,
       In company (companies Samples.worldFresh)
       /\ User.subscription_status Samples.userMadrid
          = Some (Company.subscription_status company).
Proof.
  assert (Hin : In Samples.userMadrid
                   (getUsersByProvince Samples.worldFresh (lit "Madrid")))
    by (vm_compute; left; reflexivity).
  split; [exact Hin|].
  pose proof (getUsersByProvince_subscribed
                Samples.worldFresh (lit "Madrid") Samples.userMadrid Hin)
    as H.
  destruct H as [_ [_ [company [Hc [_ [Hs _]]]]]].
  exists company. split; [exact Hc | exact Hs].
Defined.

(** X9. For a candidate of [getUsersByProvince] for the province of a
    tender, once the sector block has returned, the score is returned and
    is at least 55; it stays below the threshold of 60 exactly when the
    budget is outside the doubled range (5 points), no keyword of its
    sectors matches (10 points) and the fourth block gives less than 5. *)
Theorem candidate_below_threshold
  (toLowerCase : jsstring -> jsstring) (Date_parse : jsstring -> option Z)
  (today : Z) (w : World) (tender : Tender.t) (user : User.t) (sector : Z) :
  In user (getUsersByProvince w (Tender.province tender)) ->
  scoreSector toLowerCase tender (User.profile user) = Ok sector ->
  exists score,
    calculateMatchScore toLowerCase Date_parse today tender (User.profile user)
    = Ok score
    /\ 55 <= score
    /\ (score < 60
        <-> scoreBudget tender (User.profile user) = 5
            /\ sector = 10
            /\ scoreStatus Date_parse today tender < 5).
Proof.
  intros Hin Hsec.
  apply CandidateFacts.getUsersByProvince_hasProvince in Hin.
  destruct Hin as [Hp _].
  apply CandidateFacts.hasProvince_scoreProvince in Hp.
  rewrite ScoreFacts.calculateMatchScore_sum, Hsec, Hp. cbn [bind].
  eexists. split; [reflexivity|].
  pose proof (ScoreFacts.scoreBudget_values tender (User.profile user)) as Hb.
  pose proof (ScoreFacts.scoreSector_values toLowerCase tender
                                            (User.profile user) sector Hsec)
    as Hs.
  pose proof (ScoreFacts.scoreStatus_values Date_parse today tender) as Hr.
  set (b := scoreBudget tender (User.profile user)) in *.
  set (r := scoreStatus Date_parse today tender) in *.
  clearbody b r. simpl in Hb, Hs, Hr.
  split; [lia|]. split; [intros H | intros [-> [-> H]]]; lia.
Qed.

Lemma candidate_below_threshold_witness :
  exists score,
    calculateMatchScore Js.toLowerCase IsoDate.parse Samples.march8
                        Samples.tenderMarch28 Samples.profileMadrid
    = Ok score
    /\ 55 <= score.
Proof.
  assert (Hin : In Samples.userMadrid
                   (getUsersByProvince Samples.worldFresh
                      (Tender.province Samples.tenderMarch28)))
    by (vm_compute; left; reflexivity).
  assert (Hsec : scoreSector Js.toLowerCase Samples.tenderMarch28
                             (User.profile Samples.userMadrid) = Ok 15)
    by (vm_compute; reflexivity).
  destruct (candidate_below_threshold Js.toLowerCase IsoDate.parse
              Samples.march8
              Samples.worldFresh Samples.tenderMarch28 Samples.userMadrid
              15 Hin Hsec) as [score [E [H _]]].
  exists score. split; [exact E | exact H].
Defined.

(** The tally of a list of rows. *)
Lemma increment_keys (user_id k : jsstring)
  (m : list (jsstring * Counter)) :
  In k (List.map fst (increment user_id m)) ->
  k = user_id \/ In k (List.map fst m).
Proof.
  induction m as [|[k' v] m IH]; cbn [increment].
  - destruct (eqb user_id (lit "__proto__")); [intros []|].
    destruct (inherited user_id); simpl; intros [<- | []]; auto.
  - destruct (eqb k' user_id) eqn:E; simpl.
    + intros [<- | H]; auto.
    + intros [<- | H]; auto. destruct (IH H); auto.
Qed.

Lemma increment_NoDup (user_id : jsstring) (m : list (jsstring * Counter)) :
  NoDup (List.map fst m) -> NoDup (List.map fst (increment user_id m)).
Proof.
  induction m as [|[k v] m IH]; cbn [increment].
  - intros _. destruct (eqb user_id (lit "__proto__")); [constructor|].
    destruct (inherited user_id); simpl; repeat constructor; simpl; tauto.
  - simpl. intros Hn. inversion Hn as [|? ? Hk Hn']; subst.
    destruct (eqb k user_id) eqn:E; simpl.
    + constructor; assumption.
    + constructor; [|apply IH; exact Hn'].
      intros Hin. apply increment_keys in Hin. destruct Hin as [-> | Hin];
        [rewrite JsFacts.eqb_refl in E; discriminate | exact (Hk Hin)].
Qed.

Lemma increment_length (user_id : jsstring)
  (m : list (jsstring * Counter)) :
  (List.length (increment user_id m) <= S (List.length m))%nat.
Proof.
  induction m as [|[k v] m IH]; cbn [increment].
  - destruct (eqb user_id (lit "__proto__")); [simpl; lia|].
    destruct (inherited user_id); simpl; lia.
  - destruct (eqb k user_id); simpl; lia.
Qed.

(** No inherited name is [__proto__] without being inherited. *)
Lemma proto_inherited (user_id : jsstring) :
  inherited user_id = false -> eqb user_id (lit "__proto__") = false.
Proof.
  intros H. destruct (eqb user_id (lit "__proto__")) eqn:E; [|reflexivity].
  apply JsFacts.eqb_eq in E. subst user_id.
  vm_compute in H. discriminate H.
Qed.

Lemma increment_tallied (user_id : jsstring) (total : Z)
  (m : list (jsstring * Counter)) :
  inherited user_id = false ->
  tallied (mkTally total m) ->
  tallied (mkTally (total + 1) (increment user_id m)).
Proof.
  intros Hown. unfold tallied. cbn [matchesByUser totalMatches].
  intros [Hn [Hf Hs]].
  split; [apply increment_NoDup; exact Hn|].
  clear Hn. revert total Hf Hs.
  induction m as [|[k v] m IH]; intros total Hf Hs; cbn [increment].
  - rewrite (proto_inherited user_id Hown), Hown. simpl in *.
    split; [|lia]. constructor; [|constructor]. exists 1. simpl.
    split; [reflexivity | lia].
  - apply Forall_cons_iff in Hf. destruct Hf as [Hk1 Hf']. simpl in Hk1.
    destruct Hk1 as [n [-> Hn1]]. simpl in Hs.
    destruct (eqb k user_id) eqn:E.
    + simpl. split; [|lia].
      constructor; [|exact Hf']. exists (n + 1). simpl.
      split; [reflexivity | lia].
    + destruct (IH (List.fold_right Z.add 0
                      (List.map (fun entry => counted (snd entry)) m))
                   Hf' eq_refl) as [If' Is'].
      simpl. split; [|lia].
      constructor; [|exact If']. exists n. simpl. split; [reflexivity | lia].
Qed.

Lemma tallyRows_tallied (rows : list Match.t) :
  Forall (fun row => inherited (Match.user_id row) = false) rows ->
  forall total m,
    tallied (mkTally total m) ->
    tallied (mkTally (total + Z.of_nat (List.length rows)) (tallyRows rows m)).
Proof.
  unfold tallyRows.
  induction rows as [|r rows IH]; intros Hown total m H; simpl List.fold_left.
  - simpl. rewrite Z.add_0_r. exact H.
  - inversion Hown as [|? ? Hr Hown']; subst.
    replace (total + Z.of_nat (List.length (r :: rows)))
      with ((total + 1) + Z.of_nat (List.length rows))
      by (simpl List.length; lia).
    apply IH; [exact Hown'|]. apply increment_tallied; assumption.
Qed.

Lemma tallyRows_keys (rows : list Match.t) :
  forall m,
    NoDup (List.map fst m) ->
    NoDup (List.map fst (tallyRows rows m))
    /\ (List.length (tallyRows rows m)
        <= List.length m + List.length rows)%nat.
Proof.
  unfold tallyRows.
  induction rows as [|r rows IH]; intros m Hn; simpl List.fold_left.
  - split; [exact Hn | simpl; lia].
  - destruct (IH (increment (Match.user_id r) m)
                 (increment_NoDup _ _ Hn)) as [H1 H2].
    split; [exact H1|].
    pose proof (increment_length (Match.user_id r) m). simpl List.length.
    lia.
Qed.

(** X10. A run of [matchTendersWithUsers] on tenders that have their [id]
    only appends to the table of matches, and leaves the companies and the
    profiles as they were.  Every row it appends has the status "new", a
    score of at least 60, which [calculateMatchScore] gave at some reading
    of the clock, the id of one of the tenders given and the id of a user
    that [getUsersByProvince] returns for the province of that tender;
    [totalMatches] is the number of rows appended, and [matchesByUser] is
    what the counting by user makes of their user ids, taken in order. *)
Theorem run_only_appends
  (toLowerCase : jsstring -> jsstring)
  (Date_parse : jsstring -> option Z) (clock : nat -> Z)
  (withoutId :
     User.t -> Tender.t -> Z -> World -> option Match.t * (list Match.t * nat))
  (tenders : list Tender.t) (w : World) :
  (forall tender, In tender tenders -> hasId tender = true) ->
  let run :=
    matchTendersWithUsers toLowerCase Date_parse clock withoutId tenders w in
  companies (fst run) = companies w
  /\ user_profiles (fst run) = user_profiles w
  /\ exists added,
       user_tender_matches (fst run) = user_tender_matches w ++ added
       /\ totalMatches (snd run) = Z.of_nat (List.length added)
       /\ matchesByUser (snd run) = tallyRows added []
       /\ Forall
            (fun row =>
               Match.status row = lit "new"
               /\ 60 <= Match.match_score row
               /\ exists tender user,
                    In tender tenders
                    /\ In user
                          (getUsersByProvince w (Tender.province tender))
                    /\ Tender.id tender = Some (Match.tender_id row)
                    /\ Match.user_id row
                       = Profile.user_id (User.profile user)
                    /\ exists today,
                         calculateMatchScore toLowerCase Date_parse today tender
                                             (User.profile user)
                         = Ok (Match.match_score row))
            added.
Proof.
  intros Hids run.
  destruct (MatchFacts.run_appends toLowerCase Date_parse clock withoutId
                                   tenders w Hids)
    as [C [P [added [E [T [M [F _]]]]]]].
  fold run in C, P, E, T, M. cbn [fst snd] in *.
  split; [exact C|]. split; [exact P|]. exists added.
  repeat split; [exact E | rewrite T; reflexivity | exact M | exact F].
Qed.

Lemma run_only_appends_witness :
  exists added,
    user_tender_matches
      (fst (matchTendersWithUsers Js.toLowerCase IsoDate.parse
              Samples.clockMarch8 Samples.noAnswer [Samples.tenderPlain]
              Samples.worldFresh))
    = added
    /\ Forall (fun row => 60 <= Match.match_score row) added.
Proof.
  assert (Hids : forall tender, In tender [Samples.tenderPlain] ->
                                hasId tender = true)
    by (intros tender [<- | []]; reflexivity).
  destruct (run_only_appends Js.toLowerCase IsoDate.parse Samples.clockMarch8
              Samples.noAnswer [Samples.tenderPlain] Samples.worldFresh
              Hids) as [_ [_ [added [E [_ [_ F]]]]]].
  exists added. split; [exact E|].
  eapply Forall_impl; [|exact F]. intros row H. apply H.
Defined.

(** The tally of a run, whatever the tenders: the user ids counted are
    those of profiles of the store. *)
Lemma offer_tally (Date_parse : jsstring -> option Z) (clock : nat -> Z)
  (withoutId :
     User.t -> Tender.t -> Z -> World -> option Match.t * (list Match.t * nat))
  (user : User.t) (tender : Tender.t) (matchScore : Z) (w : World)
  (tally : Tally) :
  let st' := offer Date_parse clock withoutId user tender matchScore
                   (w, tally) in
  companies (fst st') = companies w
  /\ user_profiles (fst st') = user_profiles w
  /\ (snd st' = tally
      \/ snd st'
         = mkTally (totalMatches tally + 1)
                   (increment (Profile.user_id (User.profile user))
                              (matchesByUser tally))).
Proof.
  cbv zeta. unfold offer.
  destruct (60 <=? matchScore); [|cbn [fst snd]; auto].
  pose proof (MatchFacts.createMatch_tables Date_parse clock withoutId
                user tender matchScore w) as [C P].
  destruct (createMatch Date_parse clock withoutId user tender matchScore w)
    as [[row|] w']; cbn [fst snd] in *; auto.
Qed.

Section Tally.

Variable toLowerCase : jsstring -> jsstring.
Variable Date_parse : jsstring -> option Z.
Variable clock : nat -> Z.
Variable withoutId :
  User.t -> Tender.t -> Z -> World -> option Match.t * (list Match.t * nat).
Variable w : World.

Local Abbreviation kept := (counts w).

Lemma considerUser_kept (tender : Tender.t) (st st' : World * Tally)
  (user : User.t) :
  In user (getUsersByProvince w (Tender.province tender)) ->
  kept st ->
  considerUser toLowerCase Date_parse clock withoutId tender st user = Ok st' ->
  kept st'.
Proof.
  destruct st as [w1 tally]. intros Hu [C [P [Hn [Hl Ht]]]].
  cbn [fst snd] in *. intros H.
  destruct (MatchFacts.considerUser_Ok toLowerCase Date_parse clock withoutId
              tender w1 tally st' user H) as [score [_ ->]].
  destruct (MatchFacts.afterDeadlineRead_tables tender w1) as [A1 [A2 _]].
  destruct (offer_tally Date_parse clock withoutId user tender score
                        (afterDeadlineRead tender w1) tally)
    as [C' [P' [E | E]]]; unfold counts; rewrite C', P', E, A1, A2;
    cbn [matchesByUser totalMatches].
  - split; [exact C|]. split; [exact P|]. split; [exact Hn|].
    split; [exact Hl | exact Ht].
  - split; [exact C|]. split; [exact P|].
    split; [apply increment_NoDup; exact Hn|]. split.
    + pose proof (increment_length (Profile.user_id (User.profile user))
                                   (matchesByUser tally)). lia.
    + intros Hown. destruct tally as [total m].
      apply increment_tallied; [|apply Ht; exact Hown].
      rewrite Forall_forall in Hown. apply Hown.
      apply CandidateFacts.getUsersByProvince_hasProvince in Hu. tauto.
Qed.

Lemma considerUsers_kept (tender : Tender.t) (users : list User.t) :
  (forall user, In user users ->
     In user (getUsersByProvince w (Tender.province tender))) ->
  forall st, kept st ->
    kept (considerUsers toLowerCase Date_parse clock withoutId tender users st).
Proof.
  induction users as [|u us IH]; intros Hall st Hk; cbn [considerUsers];
    [exact Hk|].
  destruct (considerUser toLowerCase Date_parse clock withoutId tender st u)
    as [st'|] eqn:E; [|exact Hk].
  apply IH; [intros x Hx; apply Hall; right; exact Hx|].
  eapply considerUser_kept; [apply Hall; left; reflexivity | exact Hk
                            | exact E].
Qed.

Lemma run_kept (tenders : list Tender.t) :
  forall st, kept st ->
    kept (List.fold_left (considerTender toLowerCase Date_parse clock withoutId)
                         tenders st).
Proof.
  induction tenders as [|t ts IH]; intros st Hk; cbn [List.fold_left];
    [exact Hk|].
  apply IH. unfold considerTender. apply considerUsers_kept; [|exact Hk].
  intros user Hu. destruct Hk as [C [P _]].
  rewrite (MatchFacts.getUsersByProvince_ext w (fst st) _ C P) in Hu.
  exact Hu.
Qed.

Lemma run_tallied (tenders : list Tender.t) :
  kept (matchTendersWithUsers toLowerCase Date_parse clock withoutId tenders w).
Proof.
  unfold matchTendersWithUsers. apply run_kept.
  unfold counts. cbn [fst snd matchesByUser totalMatches].
  repeat split; try constructor. simpl. lia.
Qed.

End Tally.

(** X11. The tally that the run returns has one key per user and no more
    keys than matches; and when no profile of the store has for user id a
    name that every object inherits, every value of [matchesByUser] is a
    count of at least 1 and the counts add up to [totalMatches]. *)
Theorem run_tally_consistent
  (toLowerCase : jsstring -> jsstring)
  (Date_parse : jsstring -> option Z) (clock : nat -> Z)
  (withoutId :
     User.t -> Tender.t -> Z -> World -> option Match.t * (list Match.t * nat))
  (tenders : list Tender.t) (w : World) :
  Forall (fun profile => inherited (Profile.user_id profile) = false)
         (user_profiles w) ->
  let tally :=
    snd (matchTendersWithUsers toLowerCase Date_parse clock withoutId
                               tenders w) in
  NoDup (List.map fst (matchesByUser tally))
  /\ Forall (fun entry => exists n, snd entry = Count n /\ 1 <= n)
            (matchesByUser tally)
  /\ List.fold_right Z.add 0
       (List.map (fun entry => counted (snd entry)) (matchesByUser tally))
     = totalMatches tally
  /\ 0 <= usersMatched tally <= totalMatches tally.
Proof.
  intros Hown tally.
  destruct (run_tallied toLowerCase Date_parse clock withoutId w tenders)
    as [_ [_ [Hn [Hl Ht]]]].
  fold tally in Hn, Hl, Ht. destruct (Ht Hown) as [_ [Hf Hs]].
  repeat split; try assumption; unfold usersMatched; lia.
Qed.

Lemma run_tally_consistent_witness :
  totalMatches
    (snd (matchTendersWithUsers Js.toLowerCase IsoDate.parse
            Samples.clockMarch8 Samples.noAnswer [Samples.tenderPlain]
            Samples.worldFresh))
  = List.fold_right Z.add 0
      (List.map (fun entry => counted (snd entry))
         (matchesByUser
            (snd (matchTendersWithUsers Js.toLowerCase IsoDate.parse
                    Samples.clockMarch8 Samples.noAnswer
                    [Samples.tenderPlain] Samples.worldFresh)))).
Proof.
  assert (Hown : Forall
                   (fun profile => inherited (Profile.user_id profile) = false)
                   (user_profiles Samples.worldFresh))
    by (repeat constructor).
  destruct (run_tally_consistent Js.toLowerCase IsoDate.parse
              Samples.clockMarch8
              Samples.noAnswer [Samples.tenderPlain] Samples.worldFresh
              Hown) as [_ [_ [H _]]].
  symmetry. exact H.
Defined.

(** X12. When [getUsersByProvince] finds nobody for the province of any
    of the tenders (no company on trial or active, no completed profile,
    or no profile there), the run changes nothing: the store is returned
    as it was, the clock is not read and the tally is empty. *)
Theorem run_without_candidates
  (toLowerCase : jsstring -> jsstring)
  (Date_parse : jsstring -> option Z) (clock : nat -> Z)
  (withoutId :
     User.t -> Tender.t -> Z -> World -> option Match.t * (list Match.t * nat))
  (tenders : list Tender.t) (w : World) :
  (forall tender, In tender tenders ->
     getUsersByProvince w (Tender.province tender) = []) ->
  matchTendersWithUsers toLowerCase Date_parse clock withoutId tenders w
  = (w, mkTally 0 []).
Proof.
  unfold matchTendersWithUsers. generalize (mkTally 0 []).
  induction tenders as [|t ts IH]; intros tally H; simpl; [reflexivity|].
  unfold considerTender at 2. cbn [fst].
  rewrite (H t (or_introl eq_refl)). simpl. apply IH.
  intros x Hx. apply H. right. exact Hx.
Qed.

Lemma run_without_candidates_witness :
  matchTendersWithUsers Js.toLowerCase IsoDate.parse Samples.clockMarch8
    Samples.noAnswer [Samples.tenderMarch28; Samples.tenderPlain]
    Samples.worldNobody
  = (Samples.worldNobody, mkTally 0 []).
Proof.
  apply run_without_candidates.
  intros tender [<- | [<- | []]]; vm_compute; reflexivity.
Defined.

End RunFacts.

(** ** The reconciliation loop *)

Module ReconcileFacts.

Import Sync Invariants.

Lemma reconciles_refl (st : Store * Outcome) : reconciles 0 st st.
Proof.
  exists [], []. rewrite !app_nil_r. simpl.
  repeat split; try reflexivity; lia.
Qed.

Lemma reconciles_trans (n m : nat) (st1 st2 st3 : Store * Outcome) :
  reconciles n st1 st2 -> reconciles m st2 st3 ->
  reconciles (n + m) st1 st3.
Proof.
  intros [i1 [u1 [N1 [U1 [I1 [R1 [L1 E1]]]]]]]
         [i2 [u2 [N2 [U2 [I2 [R2 [L2 E2]]]]]]].
  exists (i1 ++ i2), (u1 ++ u2).
  rewrite N2, N1, U2, U1, I2, I1, R2, R1, E2, E1.
  rewrite !map_app, !length_app, !app_assoc.
  repeat split; try reflexivity; lia.
Qed.

Lemma update_keys (tenderData : TenderData.t) (id : nat)
  (rows : list Row.t) :
  List.map Row.id (update tenderData id rows) = List.map Row.id rows.
Proof.
  unfold update. rewrite !map_map. apply map_ext; intros r;
    destruct (Nat.eqb (Row.id r) id); reflexivity.
Qed.

Section Host.

Variable Date_parse : jsstring -> option Z.
Variable clock : nat -> Z.
Variable db_default : nat -> nat * jsstring.

Local Abbreviation processTender :=
  (processTender Date_parse clock db_default).
Local Abbreviation processTenders :=
  (processTenders Date_parse clock db_default).

Lemma transformTenderData_raw (tender : Fetched.t) (s : Store) :
  tenders_raw (snd (transformTenderData clock tender s)) = tenders_raw s.
Proof.
  unfold transformTenderData.
  destruct (orStr (Fetched.published tender) (Fetched.updated tender));
    reflexivity.
Qed.

Lemma processTender_reconciles (st : Store * Outcome) (tender : Fetched.t) :
  reconciles 1 st (processTender st tender).
Proof.
  destruct st as [s out]. unfold Sync.processTender.
  pose proof (SyncFacts.transformTenderData_tenders clock tender s) as Ht.
  pose proof (transformTenderData_raw tender s) as Hr.
  destruct (transformTenderData clock tender s) as [td s1].
  cbn [fst snd] in Ht, Hr.
  destruct (Matching.single _) as [existing|].
  - destruct (shouldUpdate Date_parse (clock (ticks s1)) existing tender).
    + exists [], [td].
      cbn [fst snd tenders tenders_raw tick saveRawTender newTenders
           updatedTenders errors List.map].
      rewrite (update_keys td (Row.id existing) (tenders s1)).
      rewrite Ht, Hr, !app_nil_r, length_app. simpl.
      repeat split; try reflexivity; lia.
    + exists [], [].
      cbn [fst snd tenders tenders_raw tick saveRawTender newTenders
           updatedTenders errors List.map].
      rewrite Ht, Hr, !app_nil_r, length_app. simpl.
      repeat split; try reflexivity; lia.
  - destruct (db_default (ticks s1)) as [id stamp].
    exists [Row.mk id stamp td], [].
    cbn [fst snd tenders tenders_raw tick saveRawTender newTenders
         updatedTenders errors].
    rewrite !map_app, Ht, Hr, !app_nil_r, length_app. simpl.
    repeat split; try reflexivity; lia.
Qed.

Lemma fold_reconciles (todo : list Fetched.t) :
  forall st,
    reconciles (List.length todo) st (List.fold_left processTender todo st).
Proof.
  induction todo as [|t ts IH]; intros st; simpl.
  - apply reconciles_refl.
  - change (S (List.length ts)) with (1 + List.length ts)%nat.
    eapply reconciles_trans; [apply processTender_reconciles | apply IH].
Qed.

End Host.

(** X13. [processTenders] never removes or moves a stored tender and never
    changes a key: the keys of the table afterwards are the keys before,
    in their order, followed by the keys of the rows reported in
    [newTenders].  Every tender processed leaves one row in [tenders_raw],
    and is inserted, updated or left alone, so that [newTenders] and
    [updatedTenders] together are no longer than the input. *)
Theorem processTenders_accounts
  (Date_parse : jsstring -> option Z) (clock : nat -> Z)
  (db_default : nat -> nat * jsstring)
  (todo : list Fetched.t) (s : Store) :
  let run := processTenders Date_parse clock db_default todo s in
  List.map Row.id (tenders (fst run))
  = List.map Row.id (tenders s) ++ List.map Row.id (newTenders (snd run))
  /\ List.length (tenders_raw (fst run))
     = (List.length (tenders_raw s) + List.length todo)%nat
  /\ (List.length (newTenders (snd run))
      + List.length (updatedTenders (snd run)) <= List.length todo)%nat.
Proof.
  intros run.
  destruct (fold_reconciles Date_parse clock db_default todo
                            (s, mkOutcome [] [] []))
    as [ins [upd [N [U [I [R [L _]]]]]]].
  fold (processTenders Date_parse clock db_default todo s) in N, U, I, R.
  fold run in N, U, I, R. cbn [fst snd newTenders updatedTenders] in *.
  simpl in N, U. subst ins upd. auto.
Qed.

(** X14. A tender with an external id that no stored row has is inserted
    once: processing it adds one row, which carries that id and is
    reported in [newTenders]; processing it again finds that row, inserts
    nothing more, and leaves the table exactly as it was unless
    [shouldUpdate] asks for the update. *)
Theorem processTender_twice
  (Date_parse : jsstring -> option Z) (clock : nat -> Z)
  (db_default : nat -> nat * jsstring)
  (s : Store) (out : Outcome) (tender : Fetched.t) (externalId : jsstring) :
  orStr (Fetched.contract_folder_id tender) (Fetched.id tender)
  = Some externalId ->
  existsb (hasExternalId (Some externalId)) (tenders s) = false ->
  let once := processTender Date_parse clock db_default (s, out) tender in
  let twice := processTender Date_parse clock db_default once tender in
  exists row,
    tenders (fst once) = tenders s ++ [row]
    /\ TenderData.external_id (Row.data row) = Some externalId
    /\ newTenders (snd once) = newTenders out ++ [row]
    /\ newTenders (snd twice) = newTenders (snd once)
    /\ List.length (tenders (fst twice)) = List.length (tenders (fst once))
    /\ (shouldUpdate Date_parse
          (clock (ticks (snd (transformTenderData clock tender (fst once)))))
          row tender = false ->
        tenders (fst twice) = tenders (fst once)).
Proof.
  intros Hid Hnone once twice.
  assert (Hext : forall x,
             TenderData.external_id (fst (transformTenderData clock tender x))
             = Some externalId).
  { intros x. unfold transformTenderData.
    destruct (orStr (Fetched.published tender) (Fetched.updated tender));
      cbn [fst TenderData.external_id]; exact Hid. }
  assert (Hten : forall x,
             tenders (snd (transformTenderData clock tender x)) = tenders x)
    by (intros x; apply SyncFacts.transformTenderData_tenders).
  (* the first pass *)
  assert (H1 : exists row,
             once = (saveRawTender clock tender (Some externalId)
                       (mkStore
                          (tenders s ++ [row])
                          (tenders_raw
                             (snd (transformTenderData clock tender s)))
                          (S (ticks
                                (snd (transformTenderData clock tender s))))),
                     mkOutcome (newTenders out ++ [row])
                               (updatedTenders out) (errors out))
             /\ TenderData.external_id (Row.data row) = Some externalId).
  { subst once. unfold processTender. rewrite Hid.
    rewrite (MatchFacts.filter_none _ _ _ Hnone). cbn [Matching.single].
    specialize (Hext s). specialize (Hten s).
    destruct (transformTenderData clock tender s) as [td s1].
    cbn [fst snd] in *.
    destruct (db_default (ticks s1)) as [id stamp].
    exists (Row.mk id stamp td). rewrite Hten. split; [reflexivity|].
    exact Hext. }
  destruct H1 as [row [E1 Hrow]]. exists row.
  assert (T1 : tenders (fst once) = tenders s ++ [row])
    by (rewrite E1; reflexivity).
  assert (N1 : newTenders (snd once) = newTenders out ++ [row])
    by (rewrite E1; reflexivity).
  split; [exact T1|]. split; [exact Hrow|]. split; [exact N1|].
  (* the second pass finds the row *)
  assert (Hfind : Matching.single
                    (List.filter (hasExternalId (Some externalId))
                                 (tenders (fst once))) = Some row).
  { rewrite T1, filter_app, (MatchFacts.filter_none _ _ _ Hnone).
    cbn [List.filter List.app]. unfold hasExternalId.
    rewrite Hrow, JsFacts.eqb_refl. reflexivity. }
  subst twice. destruct once as [s' out']. cbn [fst snd] in *.
  unfold processTender. rewrite Hid, Hfind.
  specialize (Hten s').
  destruct (transformTenderData clock tender s') as [td s1].
  cbn [fst snd] in *.
  destruct (shouldUpdate Date_parse (clock (ticks s1)) row tender);
    cbn [fst snd tenders tick saveRawTender newTenders].
  - split; [reflexivity|]. split.
    + unfold update. rewrite length_map, Hten. reflexivity.
    + discriminate.
  - split; [reflexivity|]. rewrite Hten. split; reflexivity.
Qed.

Lemma processTender_twice_witness :
  List.length
    (tenders
       (fst (processTender IsoDate.parse Samples.clockMarch8
               Samples.dbDefault
               (processTender IsoDate.parse Samples.clockMarch8
                  Samples.dbDefault
                  (Samples.storeEmpty, mkOutcome [] [] [])
                  Samples.fetchedAgain)
               Samples.fetchedAgain)))
  = 1%nat.
Proof.
  assert (Hid : orStr (Fetched.contract_folder_id Samples.fetchedAgain)
                      (Fetched.id Samples.fetchedAgain)
                = Some (lit "EXP-2026/17"))
    by (vm_compute; reflexivity).
  assert (Hnone : existsb (hasExternalId (Some (lit "EXP-2026/17")))
                          (tenders Samples.storeEmpty) = false)
    by reflexivity.
  pose proof (processTender_twice IsoDate.parse Samples.clockMarch8
                Samples.dbDefault Samples.storeEmpty (mkOutcome [] [] [])
                Samples.fetchedAgain (lit "EXP-2026/17") Hid Hnone) as H.
  cbv zeta in H. destruct H as [row [T1 [_ [_ [_ [L _]]]]]].
  rewrite L, T1. reflexivity.
Defined.

End ReconcileFacts.

(** ** What is stored *)

Module StoredFacts.

Import Sync Invariants.

Lemma orDefault_nonempty (a : option jsstring) (d : jsstring) :
  nonempty d = true -> nonempty (orDefault a d) = true.
Proof.
  intros Hd. unfold orDefault, Matching.str.
  destruct a as [s|]; [|exact Hd].
  destruct (nonempty s) eqn:E; [exact E | exact Hd].
Qed.

Lemma determineWorkType_labels (cpvCode : option jsstring) :
  In (determineWorkType cpvCode)
     (List.map lit
        [ "Edificación"; "Ingeniería Civil"; "Demolición";
          "Instalaciones Eléctricas"; "Fontanería y Climatización";
          "Rehabilitación"; "Construcción General" ]%string).
Proof.
  unfold determineWorkType.
  destruct (Matching.str cpvCode) as [cpv|]; [|vm_compute; tauto].
  repeat match goal with
         | |- In (if ?c then _ else _) _ => destruct c
         end; vm_compute; tauto.
Qed.

(** X15. Whatever the fetched tender lacks, the data that
    [transformTenderData] builds for the store has a title, a contracting
    body, a province and a CPV code that are not empty, and a work type
    that is one of the seven labels of [determineWorkType]; the external
    id is the contract folder id, or else the id of the entry. *)
Theorem stored_columns_filled
  (clock : nat -> Z) (tender : Fetched.t) (s : Store) :
  let tenderData := fst (transformTenderData clock tender s) in
  nonempty (TenderData.title tenderData) = true
  /\ nonempty (TenderData.contracting_body tenderData) = true
  /\ nonempty (TenderData.province tenderData) = true
  /\ nonempty (TenderData.cpv_code tenderData) = true
  /\ In (TenderData.work_type tenderData)
        (List.map lit
           [ "Edificación"; "Ingeniería Civil"; "Demolición";
             "Instalaciones Eléctricas"; "Fontanería y Climatización";
             "Rehabilitación"; "Construcción General" ]%string)
  /\ TenderData.external_id tenderData
     = orStr (Fetched.contract_folder_id tender) (Fetched.id tender).
Proof.
  intros tenderData. subst tenderData. unfold transformTenderData.
  destruct (orStr (Fetched.published tender) (Fetched.updated tender));
    cbn [fst TenderData.title TenderData.contracting_body
         TenderData.province TenderData.cpv_code TenderData.work_type
         TenderData.external_id];
    (repeat split;
     [ apply orDefault_nonempty; vm_compute; reflexivity
     | apply orDefault_nonempty; vm_compute; reflexivity
     | apply orDefault_nonempty; vm_compute; reflexivity
     | apply orDefault_nonempty; vm_compute; reflexivity
     | apply determineWorkType_labels ]).
Qed.

Lemma some_inj (A : Type) (a b : A) : Some a = Some b -> a = b.
Proof. intros H. congruence. Qed.

Ltac lit_neq := let H := fresh in intros H; vm_compute in H; discriminate H.

Lemma mapStatus_cases (code : jsstring) :
  (code = lit "ADJ" /\ mapStatus (Some code) = lit "awarded")
  \/ ((code = lit "RES" \/ code = lit "AN")
      /\ mapStatus (Some code) = lit "closed")
  \/ (code <> lit "ADJ" /\ code <> lit "RES" /\ code <> lit "AN"
      /\ mapStatus (Some code) = lit "active").
Proof.
  unfold mapStatus. cbn [lookup].
  destruct (eqb (lit "PUB") code) eqn:E1.
  { apply JsFacts.eqb_eq in E1. subst code. right. right.
    split; [lit_neq | split; [lit_neq | split; [lit_neq | reflexivity]]]. }
  destruct (eqb (lit "ADJ") code) eqn:E2.
  { apply JsFacts.eqb_eq in E2. subst code. left. split; reflexivity. }
  destruct (eqb (lit "EV") code) eqn:E3.
  { apply JsFacts.eqb_eq in E3. subst code. right. right.
    split; [lit_neq | split; [lit_neq | split; [lit_neq | reflexivity]]]. }
  destruct (eqb (lit "RES") code) eqn:E4.
  { apply JsFacts.eqb_eq in E4. subst code. right. left.
    split; [left|]; reflexivity. }
  destruct (eqb (lit "AN") code) eqn:E5.
  { apply JsFacts.eqb_eq in E5. subst code. right. left.
    split; [right|]; reflexivity. }
  right. right. split; [|split; [|split; [|reflexivity]]]; intros ->.
  - rewrite JsFacts.eqb_refl in E2. discriminate E2.
  - rewrite JsFacts.eqb_refl in E4. discriminate E4.
  - rewrite JsFacts.eqb_refl in E5. discriminate E5.
Qed.

(** X16. For a status code that is not the name of a property that every
    object inherits, [mapStatus] returns one of "active", "awarded" and
    "closed": "awarded" for ADJ only, "closed" for RES and AN only, and
    "active" for every other code, known or not, and for a missing one. *)
Theorem mapStatus_three_statuses (statusCode : option jsstring) :
  (forall code, statusCode = Some code -> inherited code = false) ->
  In (mapStatus statusCode) [lit "active"; lit "awarded"; lit "closed"]
  /\ (mapStatus statusCode = lit "awarded"
      <-> statusCode = Some (lit "ADJ"))
  /\ (mapStatus statusCode = lit "closed"
      <-> statusCode = Some (lit "RES") \/ statusCode = Some (lit "AN")).
Proof.
  intros _.
  assert (N1 : lit "active" <> lit "awarded") by lit_neq.
  assert (N2 : lit "active" <> lit "closed") by lit_neq.
  assert (N3 : lit "awarded" <> lit "closed") by lit_neq.
  assert (N4 : lit "ADJ" <> lit "RES") by lit_neq.
  assert (N5 : lit "ADJ" <> lit "AN") by lit_neq.
  destruct statusCode as [code|].
  - destruct (mapStatus_cases code)
      as [[-> ->] | [[[-> | ->] ->] | [H1 [H2 [H3 ->]]]]].
    + split; [right; left; reflexivity|]. split.
      * split; reflexivity.
      * split; [intros H; exfalso; exact (N3 H)|].
        intros [H | H]; apply some_inj in H; exfalso; [exact (N4 H) | exact (N5 H)].
    + split; [right; right; left; reflexivity|]. split.
      * split; [intros H; exfalso; exact (N3 (eq_sym H))|].
        intros H. apply some_inj in H. exfalso. exact (N4 (eq_sym H)).
      * split; [intros _; left|]; reflexivity.
    + split; [right; right; left; reflexivity|]. split.
      * split; [intros H; exfalso; exact (N3 (eq_sym H))|].
        intros H. apply some_inj in H. exfalso. exact (N5 (eq_sym H)).
      * split; [intros _; right|]; reflexivity.
    + split; [left; reflexivity|]. split.
      * split; [intros H; exfalso; exact (N1 H)|].
        intros H. apply some_inj in H. exfalso. exact (H1 H).
      * split; [intros H; exfalso; exact (N2 H)|].
        intros [H | H]; apply some_inj in H; exfalso; [exact (H2 H) | exact (H3 H)].
  - change (mapStatus None) with (lit "active").
    split; [left; reflexivity|]. split.
    + split; [intros H; exfalso; exact (N1 H) | discriminate].
    + split; [intros H; exfalso; exact (N2 H) | intros [H | H]; discriminate H].
Qed.

Lemma mapStatus_three_statuses_witness :
  inherited (lit "XYZ") = false
  /\ In (mapStatus (Some (lit "XYZ")))
        [lit "active"; lit "awarded"; lit "closed"].
Proof.
  assert (Hx : inherited (lit "XYZ") = false) by (vm_compute; reflexivity).
  split; [exact Hx|].
  assert (H : forall code, Some (lit "XYZ") = Some code ->
                           inherited code = false).
  { intros code E. apply some_inj in E. subst code. exact Hx. }
  destruct (mapStatus_three_statuses (Some (lit "XYZ")) H) as [Hin _].
  exact Hin.
Defined.

End StoredFacts.

(** ** Work types and sectors *)

Module SectorFacts.

Import Matching Sync Invariants.
Local Open Scope Z_scope.

Lemma startsWith_firstn (s p : jsstring) :
  startsWith s p = true -> firstn (List.length p) s = p.
Proof.
  revert s. induction p as [|c p IH]; intros s H; [reflexivity|].
  destruct s as [|d s]; [discriminate H|].
  simpl in H. apply andb_true_iff in H. destruct H as [Hc Hp].
  apply N.eqb_eq in Hc. subst d. simpl. rewrite (IH s Hp). reflexivity.
Qed.

(** Two different prefixes of the same length exclude each other. *)
Lemma startsWith_other (s p q : jsstring) :
  List.length p = List.length q -> p <> q ->
  startsWith s p = true -> startsWith s q = false.
Proof.
  intros Hl Hne Hp. destruct (startsWith s q) eqn:Hq; [|reflexivity].
  apply startsWith_firstn in Hp, Hq. rewrite Hl in Hp. congruence.
Qed.

Lemma startsWith_nonempty (s p : jsstring) :
  nonempty p = true -> startsWith s p = true -> nonempty s = true.
Proof.
  destruct p as [|c p]; [discriminate|]. destruct s; [discriminate|].
  reflexivity.
Qed.

Lemma str_of_prefix (cpv p : jsstring) :
  nonempty p = true -> startsWith cpv p = true -> str (Some cpv) = Some cpv.
Proof.
  intros Hp H. unfold str. rewrite (startsWith_nonempty cpv p Hp H).
  reflexivity.
Qed.

Ltac other_prefix H :=
  match type of H with
  | startsWith ?s ?p = true =>
    match goal with
    | |- context [if startsWith s ?q then _ else _] =>
      rewrite (startsWith_other s p q
                 ltac:(vm_compute; reflexivity)
                 ltac:(let E := fresh in
                       intros E; vm_compute in E; discriminate E)
                 H)
    end
  end.

(** The work type that [determineWorkType] derives from each prefix. *)
Lemma determineWorkType_prefix (cpv : jsstring) :
  (startsWith cpv (lit "4521") = true ->
   determineWorkType (Some cpv) = lit "Edificación")
  /\ (startsWith cpv (lit "4522") = true ->
      determineWorkType (Some cpv) = lit "Ingeniería Civil")
  /\ (startsWith cpv (lit "4531") = true ->
      determineWorkType (Some cpv) = lit "Instalaciones Eléctricas")
  /\ (startsWith cpv (lit "4532") = true ->
      determineWorkType (Some cpv) = lit "Fontanería y Climatización")
  /\ (startsWith cpv (lit "4541") = true ->
      determineWorkType (Some cpv) = lit "Rehabilitación").
Proof.
  repeat split; intros H; unfold determineWorkType.
  - rewrite (str_of_prefix cpv (lit "4521") ltac:(vm_compute; reflexivity) H).
    rewrite H. reflexivity.
  - rewrite (str_of_prefix cpv (lit "4522") ltac:(vm_compute; reflexivity) H).
    other_prefix H. rewrite H. reflexivity.
  - rewrite (str_of_prefix cpv (lit "4531") ltac:(vm_compute; reflexivity) H).
    do 3 other_prefix H. rewrite H. reflexivity.
  - rewrite (str_of_prefix cpv (lit "4532") ltac:(vm_compute; reflexivity) H).
    do 4 other_prefix H. rewrite H. reflexivity.
  - rewrite (str_of_prefix cpv (lit "4541") ltac:(vm_compute; reflexivity) H).
    do 5 other_prefix H. rewrite H. reflexivity.
Qed.

Lemma hasSectorMatch_keyword (toLowerCase : jsstring -> jsstring)
  (tender : Tender.t) (sectors : list jsstring)
  (sector keyword : jsstring) (keywords : list jsstring) :
  Forall (fun sector => inherited sector = false) sectors ->
  In sector sectors ->
  keywordsOf toLowerCase sector = Ok keywords ->
  In keyword keywords ->
  includes (toLowerCase (Tender.work_type tender)) keyword = true ->
  hasSectorMatch toLowerCase tender sectors = Ok true.
Proof.
  intros Hown Hs Hk Hin Hinc.
  assert (Hhit : hasSectorMatch toLowerCase tender [sector] = Ok true).
  { rewrite ScoreFacts.hasSectorMatch_cons, Hk. unfold bind.
    replace (includesKeyword toLowerCase tender keywords) with true;
      [reflexivity|].
    symmetry. unfold includesKeyword. cbv zeta.
    apply existsb_exists. exists keyword. split; [exact Hin|].
    rewrite Hinc. reflexivity. }
  induction sectors as [|s ss IH]; [destruct Hs|].
  apply Forall_cons_iff in Hown. destruct Hown as [Hs0 Hown].
  destruct (ScoreFacts.hasSectorMatch_step toLowerCase tender s)
    as [[Hi _] | [[_ Ht] | [_ Ht]]].
  - congruence.
  - apply Ht.
  - rewrite Ht. destruct Hs as [-> | Hs]; [|apply IH; assumption].
    rewrite Ht in Hhit. discriminate Hhit.
Qed.

Ltac sector_case toLowerCase Hlow Hwt Hin Hown sector keyword :=
  unfold scoreSector;
  match goal with
  | Hsec : Profile.sectors _ = Some ?l |- _ =>
    rewrite Hsec; destruct l as [|s0 ss0]; [destruct Hin|]
  end;
  rewrite (hasSectorMatch_keyword toLowerCase _ _ sector keyword _
             Hown Hin
             ltac:(vm_compute; reflexivity)
             ltac:(vm_compute; tauto)
             ltac:(rewrite Hwt, Hlow by (vm_compute; reflexivity);
                   vm_compute; reflexivity));
  reflexivity.

(** X17. The work types derived from the CPV code line up with the
    keywords of the sectors: for a profile whose sectors are names of its
    own choice (none of them the name of an inherited property), a tender
    whose work type comes from a code in 4521 earns the 20 points of the
    sector block when the profile declares "Edificación residencial",
    whatever its title; and so do 4522 with "Obra civil", 4531 and 4532
    with "Instalaciones", and 4541 with "Rehabilitación y reformas".  The
    case mapping is any that lower-cases Latin-1 texts, which the work
    types are, as the table does. *)
Theorem derived_work_type_matches_sector
  (toLowerCase : jsstring -> jsstring)
  (cpv : jsstring) (tender : Tender.t) (user : Profile.t)
  (sectors : list jsstring) :
  (forall text, latin1 text = true -> toLowerCase text = Js.toLowerCase text) ->
  Tender.work_type tender = determineWorkType (Some cpv) ->
  Profile.sectors user = Some sectors ->
  Forall (fun sector => inherited sector = false) sectors ->
  (startsWith cpv (lit "4521") = true ->
   In (lit "Edificación residencial") sectors ->
   scoreSector toLowerCase tender user = Ok 20)
  /\ (startsWith cpv (lit "4522") = true ->
      In (lit "Obra civil") sectors ->
      scoreSector toLowerCase tender user = Ok 20)
  /\ (startsWith cpv (lit "4531") = true ->
      In (lit "Instalaciones") sectors ->
      scoreSector toLowerCase tender user = Ok 20)
  /\ (startsWith cpv (lit "4532") = true ->
      In (lit "Instalaciones") sectors ->
      scoreSector toLowerCase tender user = Ok 20)
  /\ (startsWith cpv (lit "4541") = true ->
      In (lit "Rehabilitación y reformas") sectors ->
      scoreSector toLowerCase tender user = Ok 20).
Proof.
  intros Hlow Hwt Hsec Hown.
  destruct (determineWorkType_prefix cpv) as [W1 [W2 [W3 [W4 W5]]]].
  repeat split; intros Hp Hin.
  - rewrite (W1 Hp) in Hwt.
    sector_case toLowerCase Hlow Hwt Hin Hown
                (lit "Edificación residencial") (lit "edificación").
  - rewrite (W2 Hp) in Hwt.
    sector_case toLowerCase Hlow Hwt Hin Hown
                (lit "Obra civil") (lit "ingeniería civil").
  - rewrite (W3 Hp) in Hwt.
    sector_case toLowerCase Hlow Hwt Hin Hown
                (lit "Instalaciones") (lit "instalaciones").
  - rewrite (W4 Hp) in Hwt.
    sector_case toLowerCase Hlow Hwt Hin Hown
                (lit "Instalaciones") (lit "fontanería").
  - rewrite (W5 Hp) in Hwt.
    sector_case toLowerCase Hlow Hwt Hin Hown
                (lit "Rehabilitación y reformas") (lit "rehabilitación").
Qed.

Lemma derived_work_type_matches_sector_witness :
  scoreSector Js.toLowerCase Samples.tenderMarch28 Samples.profileRehab
  = Ok 20.
Proof.
  assert (Hwt : Tender.work_type Samples.tenderMarch28
                = determineWorkType (Some (lit "45410000")))
    by (vm_compute; reflexivity).
  assert (Hsec : Profile.sectors Samples.profileRehab
                 = Some [lit "Rehabilitación y reformas"])
    by (vm_compute; reflexivity).
  assert (Hown : Forall (fun sector => inherited sector = false)
                        [lit "Rehabilitación y reformas"])
    by (repeat constructor).
  destruct (derived_work_type_matches_sector
              Js.toLowerCase (lit "45410000") Samples.tenderMarch28
              Samples.profileRehab [lit "Rehabilitación y reformas"]
              (fun text _ => eq_refl) Hwt Hsec Hown)
    as [_ [_ [_ [_ H]]]].
  apply H; [vm_compute; reflexivity | left; reflexivity].
Defined.

End SectorFacts.

(** ** The reasons stored with a match *)

Module ReasonFacts.

Import Matching.
Local Open Scope Z_scope.

Section Reasons.

Variable toLowerCase : jsstring -> jsstring.
Variable Date_parse : jsstring -> option Z.
Variables (today : Z) (tender : Tender.t) (user : Profile.t) (score : Z).

Local Abbreviation reasons :=
  (getMatchReasons Date_parse today tender user score).

Local Abbreviation location :=
  (if match Profile.preferred_province user with
      | Some preferred => eqb preferred (Tender.province tender)
      | None => false
      end
   then [Ubicacion (Tender.province tender)] else []).

Local Abbreviation range :=
  (match num (Tender.budget tender),
         num (Profile.budget_min user), num (Profile.budget_max user) with
   | Some budget, Some budget_min, Some budget_max =>
     if Qle_bool budget_min budget && Qle_bool budget budget_max
     then [Presupuesto budget] else []
   | _, _, _ => []
   end).

Local Abbreviation sector :=
  (match Profile.sectors user with
   | Some (_ :: _) => [Sector (Tender.work_type tender)]
   | _ => []
   end).

Local Abbreviation term :=
  (match str (Tender.deadline tender) with
   | Some deadline =>
     [Plazo (getDaysUntilDeadline Date_parse today deadline)]
   | None => []
   end).

Lemma reasons_pieces :
  reasons = (location ++ range ++ sector ++ term) ++ [MatchScore score].
Proof. unfold getMatchReasons. rewrite <- !app_assoc. reflexivity. Qed.

Lemma In_location (x : Reason) :
  In x location <->
  x = Ubicacion (Tender.province tender)
  /\ Profile.preferred_province user = Some (Tender.province tender).
Proof.
  destruct (Profile.preferred_province user) as [preferred|].
  - destruct (eqb preferred (Tender.province tender)) eqn:E.
    + apply JsFacts.eqb_eq in E. subst preferred. simpl.
      split; [intros [H|[]]; auto | intros [H _]; auto].
    + simpl. split; [intros [] | intros [_ H]].
      injection H as H. rewrite H, JsFacts.eqb_refl in E. discriminate E.
  - simpl. split; [intros [] | intros [_ H]; discriminate H].
Qed.

Lemma In_range (x : Reason) :
  In x range <->
  (exists budget, x = Presupuesto budget
                  /\ num (Tender.budget tender) = Some budget)
  /\ scoreBudget tender user = 30.
Proof.
  unfold scoreBudget.
  destruct (num (Tender.budget tender)) as [budget|].
  - destruct (num (Profile.budget_min user)) as [budget_min|].
    + destruct (num (Profile.budget_max user)) as [budget_max|].
      * destruct (Qle_bool budget_min budget && Qle_bool budget budget_max).
        -- simpl. split.
           ++ intros [H|[]]. split; [exists budget; auto | reflexivity].
           ++ intros [[b [H1 H2]] _]. left. congruence.
        -- simpl. split; [intros [] | intros [_ H]].
           destruct (Qle_bool (budget_min * (1 # 2)) budget
                     && Qle_bool budget (budget_max * 2)); discriminate H.
      * simpl. split; [intros [] | intros [_ H]; discriminate H].
    + simpl. split; [intros [] | intros [_ H]; discriminate H].
  - simpl. split; [intros [] | intros [_ H]; discriminate H].
Qed.

Lemma In_sector (x : Reason) :
  In x sector <->
  x = Sector (Tender.work_type tender)
  /\ scoreSector toLowerCase tender user <> Ok 15.
Proof.
  unfold scoreSector.
  destruct (Profile.sectors user) as [[|s ss]|].
  - simpl. split; [intros [] | intros [_ H]; contradiction H; reflexivity].
  - cbn [In]. split.
    + intros [H|[]]. split; [auto|].
      destruct (hasSectorMatch toLowerCase tender (s :: ss)) as [[|]|];
        cbn [bind]; discriminate.
    + intros [H _]. left. auto.
  - simpl. split; [intros [] | intros [_ H]; contradiction H; reflexivity].
Qed.

Lemma In_term (x : Reason) :
  In x term -> exists days, x = Plazo days.
Proof.
  destruct (str (Tender.deadline tender)) as [deadline|]; simpl.
  - intros [H|[]]. eexists. symmetry. exact H.
  - intros [].
Qed.

Lemma In_front (x : Reason) :
  In x (location ++ range ++ sector ++ term) <->
  In x location \/ In x range \/ In x sector \/ In x term.
Proof. rewrite !in_app_iff. reflexivity. Qed.

Lemma In_reasons (x : Reason) :
  In x reasons <->
  In x location \/ In x range \/ In x sector \/ In x term
  \/ x = MatchScore score.
Proof.
  rewrite reasons_pieces, in_app_iff, In_front. simpl.
  split.
  - intros [[H|[H|[H|H]]]|[H|[]]]; auto 6.
  - intros [H|[H|[H|[H|H]]]]; auto 6.
Qed.

Ltac other_piece H :=
  first
    [ apply In_location in H; destruct H as [H _]; discriminate H
    | apply In_range in H; destruct H as [[? [H _]] _]; discriminate H
    | apply In_sector in H; destruct H as [H _]; discriminate H
    | apply In_term in H; destruct H as [? H]; discriminate H
    | discriminate H ].

(** X18. The reasons stored with a match follow the blocks of the score
    only in part.  The location reason is listed exactly when the preferred
    province is the tender's, so a province matched through [locations]
    scores 40 and is not listed; the budget reason is listed exactly when
    the budget block gives its 30 points; the sector reason is listed
    whenever the profile declares a sector, also when no keyword matched
    and the block gave 10; and the list always ends with the score, which
    appears nowhere before. *)
Theorem reasons_follow_blocks :
  (forall province,
     In (Ubicacion province) reasons <->
     province = Tender.province tender
     /\ Profile.preferred_province user = Some (Tender.province tender))
  /\ (forall province,
        In (Ubicacion province) reasons -> scoreProvince tender user = 40)
  /\ ((exists budget, In (Presupuesto budget) reasons) <->
      scoreBudget tender user = 30)
  /\ ((exists work_type, In (Sector work_type) reasons) <->
      scoreSector toLowerCase tender user <> Ok 15)
  /\ (exists front,
        reasons = front ++ [MatchScore score]
        /\ forall s, In (MatchScore s) front -> False).
Proof.
  assert (Hloc : forall province,
             In (Ubicacion province) reasons <->
             province = Tender.province tender
             /\ Profile.preferred_province user
                = Some (Tender.province tender)).
  { intros province. rewrite In_reasons. split.
    - intros [H|[H|[H|[H|H]]]]; try solve [other_piece H].
      apply In_location in H. destruct H as [H1 H2].
      injection H1 as H1. auto.
    - intros [-> H]. left. apply In_location. auto. }
  split; [exact Hloc|]. split; [|split; [|split]].
  - intros province H. apply Hloc in H. destruct H as [_ H].
    unfold scoreProvince. rewrite H, JsFacts.eqb_refl. reflexivity.
  - split.
    + intros [b H]. apply In_reasons in H.
      destruct H as [H|[H|[H|[H|H]]]]; try solve [other_piece H].
      apply In_range in H. apply H.
    + intros H.
      assert (Hn : exists b, num (Tender.budget tender) = Some b).
      { unfold scoreBudget in H.
        destruct (num (Tender.budget tender)) as [b|];
          [eauto | discriminate H]. }
      destruct Hn as [b Hb]. exists b. apply In_reasons. right. left.
      apply In_range. split; [exists b; auto | exact H].
  - split.
    + intros [w H]. apply In_reasons in H.
      destruct H as [H|[H|[H|[H|H]]]]; try solve [other_piece H].
      apply In_sector in H. apply H.
    + intros H. exists (Tender.work_type tender). apply In_reasons.
      right. right. left. apply In_sector. auto.
  - exists (location ++ range ++ sector ++ term).
    split; [exact reasons_pieces|].
    intros s H. apply In_front in H.
    destruct H as [H|[H|[H|H]]]; other_piece H.
Qed.

End Reasons.

End ReasonFacts.

(** ** The announced next execution *)

Module JobFacts.

Import Job.
Local Open Scope Z_scope.

Lemma Qceiling_sixth (a : Z) :
  Qceiling (inject_Z a / inject_Z 6) = - ((- a) / 6).
Proof.
  unfold Qceiling, Qfloor, Qdiv, Qmult, Qinv, Qopp, inject_Z. simpl.
  rewrite Z.mul_1_r. reflexivity.
Qed.

(** X19. With the job scheduled every six hours, the next execution that
    is announced at local hour [currentHour] is the next hour that is a
    multiple of six and strictly later: 6, 12 or 18 of the same day, or 0
    of the next day from 18 on.  It is never the current hour, also at
    0, 6, 12 and 18 sharp. *)
Theorem next_execution_every_six_hours (currentHour : Z) :
  0 <= currentHour <= 23 ->
  exists days hour,
    getNextExecutionTime true (lit "0 */6 * * *") currentHour
    = inr (days, hour)
    /\ (days = if 18 <=? currentHour then 1 else 0)
    /\ hour mod 6 = 0 /\ 0 <= hour <= 18
    /\ currentHour < 24 * days + hour <= currentHour + 6.
Proof.
  intros Hh. unfold getNextExecutionTime.
  rewrite JsFacts.eqb_refl. cbn [negb]. cbv zeta.
  rewrite Qceiling_sixth.
  set (n := - (- (currentHour + 1) / 6)).
  assert (Hn : currentHour + 1 <= 6 * n <= currentHour + 6).
  { unfold n. pose proof (Z.div_mod (- (currentHour + 1)) 6 ltac:(lia)).
    pose proof (Z.mod_pos_bound (- (currentHour + 1)) 6 ltac:(lia)). lia. }
  clearbody n.
  destruct (24 <=? n * 6) eqn:E;
    [apply Z.leb_le in E | apply Z.leb_gt in E].
  - exists 1, (n * 6 - 24).
    assert (n = 4) by lia. subst n.
    destruct (18 <=? currentHour) eqn:E18;
      [apply Z.leb_le in E18 | apply Z.leb_gt in E18; lia].
    repeat split; try reflexivity; lia.
  - exists 0, (n * 6).
    destruct (18 <=? currentHour) eqn:E18;
      [apply Z.leb_le in E18; lia | apply Z.leb_gt in E18].
    repeat split; try lia.
    rewrite Z.mod_mul; lia.
Qed.

Lemma next_execution_every_six_hours_witness :
  getNextExecutionTime true (lit "0 */6 * * *") 18 = inr (1, 0).
Proof.
  destruct (next_execution_every_six_hours 18 ltac:(lia))
    as [days [hour [H [Hd [Hm [Hr Hl]]]]]].
  rewrite H. f_equal. f_equal; [exact Hd|].
  change (18 <=? 18) with true in Hd. cbv iota in Hd. subst days. lia.
Defined.

End JobFacts.

(** ** Where the score returns *)

Module ReturnFacts.

Import Matching.
Local Open Scope Z_scope.

(** X20. [calculateMatchScore] throws exactly when the search for a
    keyword comes to a sector that bears the name of an inherited property,
    the sectors before it having matched nothing; a score that is returned
    is an integer from 25 to 100; and a score is returned for every profile
    none of whose sectors bears such a name, whatever the tender, the clock
    and the case mapping. *)
Theorem calculateMatchScore_returns
  (toLowerCase : jsstring -> jsstring) (Date_parse : jsstring -> option Z)
  (today : Z) (tender : Tender.t) (user : Profile.t) :
  (calculateMatchScore toLowerCase Date_parse today tender user = Throw
   <-> exists before sector rest,
         Profile.sectors user = Some (before ++ sector :: rest)
         /\ inherited sector = true
         /\ hasSectorMatch toLowerCase tender before = Ok false)
  /\ (forall score,
        calculateMatchScore toLowerCase Date_parse today tender user
        = Ok score ->
        25 <= score <= 100)
  /\ ((forall sectors,
         Profile.sectors user = Some sectors ->
         Forall (fun sector => inherited sector = false) sectors) ->
      exists score,
        calculateMatchScore toLowerCase Date_parse today tender user
        = Ok score).
Proof.
  split; [|split].
  - rewrite ScoreFacts.calculateMatchScore_throws,
            ScoreFacts.scoreSector_throws.
    split.
    + intros [sectors [Hs Ht]]. apply ScoreFacts.hasSectorMatch_throws in Ht.
      destruct Ht as [before [sector [rest [-> [Hi Hb]]]]].
      exists before, sector, rest. auto.
    + intros [before [sector [rest [Hs [Hi Hb]]]]].
      exists (before ++ sector :: rest). split; [exact Hs|].
      apply ScoreFacts.hasSectorMatch_throws.
      exists before, sector, rest. auto.
  - intros score H. apply ScoreFacts.calculateMatchScore_Ok in H.
    destruct H as [sector [Hs ->]].
    ScoreFacts.block_values toLowerCase Date_parse today tender user sector
                            Hs.
    lia.
  - intros Hown.
    destruct (ScoreFacts.scoreSector_own toLowerCase tender user Hown)
      as [sector Hs].
    rewrite ScoreFacts.calculateMatchScore_sum, Hs. cbn [bind].
    eexists. reflexivity.
Qed.

Lemma calculateMatchScore_returns_witness :
  exists score,
    calculateMatchScore Js.toLowerCase IsoDate.parse Samples.march8
                        Samples.tenderMarch28 Samples.profileRehab
    = Ok score
    /\ 25 <= score <= 100.
Proof.
  destruct (calculateMatchScore_returns
              Js.toLowerCase IsoDate.parse Samples.march8
              Samples.tenderMarch28 Samples.profileRehab) as [_ [Hr Ho]].
  destruct Ho as [score E].
  { intros sectors H. vm_compute in H. injection H as <-.
    repeat constructor. }
  exists score. split; [exact E | apply Hr; exact E].
Defined.

End ReturnFacts.

(** ** The filter by provinces, when the DEBUG pass lets it run *)

Module FilterFacts.

Import Placsp Invariants.





(** X21. When the DEBUG pass can build its line, [filterByProvinces]
    returns the entries, in their order, that the callback of the filter
    keeps: an entry is kept exactly when [extractProvince] returns a string
    whose normal form is among the normal forms of the provinces, and an
    entry with no province is never kept.  The filter throws exactly when
    the province of an entry has no string form.  The texts of the entries
    and the provinces are in the range of the case tables. *)
Theorem filterByProvinces_keeps
  (entries : list value) (provinces : list jsstring) (entry : value) :
  Forall (fun entry => latin1Value entry = true) entries ->
  Forall (fun province => latin1 province = true) provinces ->
  (filterByProvinces entries provinces = Throw
   <-> exists found province,
         In found entries
         /\ extractProvince found = Some province
         /\ js_toString province = Throw)
  /\ forall kept,
       filterByProvinces entries provinces = Ok kept ->
       kept = List.filter
                (inProvinces (List.map normalizeProvince provinces)) entries
       /\ (In entry kept
           <-> In entry entries
               /\ exists province,
                    extractProvince entry = Some (VStr province)
                    /\ In (normalizeProvince province)
                          (List.map normalizeProvince provinces))
       /\ (extractProvince entry = None -> ~ In entry kept).
Proof.
  intros _ _. split.
  - rewrite PlacspFacts.filterByProvinces_throws.
    apply PlacspFacts.debugLine_throws.
  - intros kept H. apply PlacspFacts.filterByProvinces_Ok in H.
    split; [exact H|]. subst kept. split.
    + rewrite filter_In, PlacspFacts.inProvinces_iff. reflexivity.
    + intros Hnone Hin. apply filter_In in Hin. destruct Hin as [_ Hin].
      apply PlacspFacts.inProvinces_iff in Hin.
      destruct Hin as [province [Hp _]]. congruence.
Qed.

Lemma filterByProvinces_keeps_witness :
  filterByProvinces [Samples.entryMadrid; Samples.entryCoded] [lit "Madrid"]
  = Ok [Samples.entryMadrid].
Proof.
  assert (He : Forall (fun entry => latin1Value entry = true)
                      [Samples.entryMadrid; Samples.entryCoded])
    by (repeat constructor).
  assert (Hp : Forall (fun province => latin1 province = true)
                      [lit "Madrid"])
    by (repeat constructor).
  destruct (filterByProvinces_keeps
              [Samples.entryMadrid; Samples.entryCoded] [lit "Madrid"]
              Samples.entryMadrid He Hp) as [_ H].
  destruct (filterByProvinces [Samples.entryMadrid; Samples.entryCoded]
                              [lit "Madrid"]) as [kept|] eqn:E.
  - destruct (H kept eq_refl) as [K _]. rewrite K.
    vm_compute. reflexivity.
  - exfalso. vm_compute in E. discriminate E.
Defined.



End FilterFacts.
